(** * instantide: the dev-server bootstrap orchestrator and its pre-flight checker

    A shallow embedding of [src/utils/compatibilityChecker.ts] and of the
    orchestration code of [src/utils/webcontainer.ts], with the properties of
    the bootstrap pipeline proved over it.

    Conventions of the embedding.
    - A JavaScript string is the [string] of the bytes of its UTF-8 encoding
      (a surrogate without its pair in the three bytes a character of its
      number would take); the tests the code makes on strings (prefixes,
      substrings, white space, digits, ASCII case folding) read the same on
      these bytes.
    - A value produced by [JSON.parse] is a [JSON]; an object is the list of
      its own properties in enumeration order.  [undefined] is [None].
    - [JSON.parse], the file system of the container and the processes it
      runs belong to the host: the definitions take them as parameters.
    - A function that can throw returns a [Completion]; the callbacks a run
      calls and the processes it starts are listed as its [Effect]s. *)

From Stdlib Require Import String Ascii List ZArith Bool Lia.
From Stdlib Require Import DecimalString.
From Stdlib Require Import Floats.PrimFloat.
Import ListNotations.

Local Open Scope string_scope.
Local Open Scope list_scope.

(** ** JavaScript strings *)

Module JS.

(** [s.startsWith(p)] *)
Definition startsWith (s p : string) : bool := String.prefix p s.

(** [s.includes(sub)] *)
Fixpoint includes (s sub : string) : bool :=
  String.prefix sub s
  || match s with
     | EmptyString => false
     | String _ t => includes t sub
     end.

Definition byte (c : ascii) : nat := nat_of_ascii c.

(** ECMAScript WhiteSpace and LineTerminator, by the length of the
    encoding: TAB, LF, VT, FF, CR, SP; U+00A0; U+1680, U+2000 to U+200A,
    U+2028, U+2029, U+202F, U+205F, U+3000 and U+FEFF. *)
Definition space1 (a : nat) : bool :=
  (((9 <=? a) && (a <=? 13)) || (a =? 32))%nat.

Definition space2 (a b : nat) : bool :=
  ((a =? 194) && (b =? 160))%nat.

Definition space3 (a b c : nat) : bool :=
  (((a =? 225) && (b =? 154) && (c =? 128))
   || ((a =? 226) && (b =? 128)
       && (((128 <=? c) && (c <=? 138)) || (c =? 168) || (c =? 169) || (c =? 175)))
   || ((a =? 226) && (b =? 129) && (c =? 159))
   || ((a =? 227) && (b =? 128) && (c =? 128))
   || ((a =? 239) && (b =? 187) && (c =? 191)))%nat.

(** What follows one white space character at the head of [s]: [\s]. *)
Definition afterWhiteSpace (s : string) : option string :=
  match s with
  | String a t1 =>
      if space1 (byte a) then Some t1
      else
        match t1 with
        | String b t2 =>
            if space2 (byte a) (byte b) then Some t2
            else
              match t2 with
              | String c t3 =>
                  if space3 (byte a) (byte b) (byte c) then Some t3 else None
              | EmptyString => None
              end
        | EmptyString => None
        end
  | EmptyString => None
  end.

(** The same from the end, on the reversed string. *)
Definition beforeWhiteSpace (r : string) : option string :=
  match r with
  | String c t1 =>
      if space1 (byte c) then Some t1
      else
        match t1 with
        | String b t2 =>
            if space2 (byte b) (byte c) then Some t2
            else
              match t2 with
              | String a t3 =>
                  if space3 (byte a) (byte b) (byte c) then Some t3 else None
              | EmptyString => None
              end
        | EmptyString => None
        end
  | EmptyString => None
  end.

Fixpoint dropWhile (next : string -> option string) (fuel : nat) (s : string) : string :=
  match fuel with
  | O => s
  | S fuel' =>
      match next s with
      | Some t => dropWhile next fuel' t
      | None => s
      end
  end.

(** [\s*] at the head of [s]: what follows it. *)
Definition skipWhiteSpace (s : string) : string :=
  dropWhile afterWhiteSpace (String.length s) s.

Fixpoint rev (acc s : string) : string :=
  match s with
  | EmptyString => acc
  | String c t => rev (String c acc) t
  end.

Definition trimStart (s : string) : string := skipWhiteSpace s.

Definition trimEnd (s : string) : string :=
  rev "" (dropWhile beforeWhiteSpace (String.length s) (rev "" s)).

(** [s.trim()] *)
Definition trim (s : string) : string := trimEnd (trimStart s).

(** [l.join(sep)] *)
Fixpoint join (sep : string) (l : list string) : string :=
  match l with
  | [] => ""
  | [x] => x
  | x :: t => x ++ sep ++ join sep t
  end.

(** [\d] *)
Definition isDigit (c : ascii) : bool :=
  let n := byte c in ((48 <=? n) && (n <=? 57))%nat.

(** The folding of a regular expression with the [i] flag and no [u]
    flag: it identifies the two cases of the ASCII letters, and no
    character outside ASCII with one inside. *)
Definition lowerChar (c : ascii) : ascii :=
  let n := byte c in
  if ((65 <=? n) && (n <=? 90))%nat then ascii_of_nat (n + 32) else c.

(** The longest prefix of digits, and what follows it: [(\d+)]. *)
Fixpoint takeDigits (s : string) : string * string :=
  match s with
  | String c t =>
      if isDigit c
      then let '(d, r) := takeDigits t in (String c d, r)
      else (EmptyString, s)
  | EmptyString => (EmptyString, EmptyString)
  end.

(** One optional leading character [c]. *)
Definition optional (c : ascii) (s : string) : string :=
  match s with
  | String c' t => if Ascii.eqb c c' then t else s
  | EmptyString => EmptyString
  end.

Fixpoint digitsValue (acc : Z) (s : string) : Z :=
  match s with
  | String c t => digitsValue (10 * acc + (Z.of_nat (byte c) - 48)) t
  | EmptyString => acc
  end.

(** [String(n)] of an integer of magnitude below 2^53 (an exit code, a
    port), which JavaScript prints in full. *)
Definition showZ (n : Z) : string := NilZero.string_of_int (Z.to_int n).

Definition showNat (n : nat) : string := NilZero.string_of_uint (Nat.to_uint n).

(** A Number whose value is an integer or [Infinity], as the integer it
    is: what [parseInt] gives on a string of digits, and that less one. *)
Inductive Number : Type :=
| Finite (n : Z)
| Infinity.

(** The Number nearest to the integer [n] (at least [-2^53]): [n] itself
    below [2^53], and from there on the multiple of the power of two that
    leaves 53 bits, the nearest one and of two the one with the even
    multiplier; [Infinity] from [2^1024] on. *)
Definition toNumber (n : Z) : Number :=
  if (n <? 2 ^ 53)%Z then Finite n
  else
    let e := (Z.log2 n - 52)%Z in
    let q := (n / 2 ^ e)%Z in
    let r := (n mod 2 ^ e)%Z in
    let half := (2 ^ (e - 1))%Z in
    let q' := if (r <? half)%Z then q
              else if (half <? r)%Z then (q + 1)%Z
              else if Z.even q then q else (q + 1)%Z in
    if (2 ^ 1024 <=? q' * 2 ^ e)%Z then Infinity else Finite (q' * 2 ^ e).

(** [parseInt(d, 10)] on a string of digits: the Number of its value, as
    the engines compute it. *)
Definition parseInt (d : string) : Number := toNumber (digitsValue 0 d).

(** [x - 1] *)
Definition pred (x : Number) : Number :=
  match x with
  | Finite n => toNumber (n - 1)
  | Infinity => Infinity
  end.

(** [x !== 0], [k < x] and [x < k] for an integer [k] *)
Definition nonZero (x : Number) : bool :=
  match x with
  | Finite n => negb (n =? 0)%Z
  | Infinity => true
  end.

Definition above (k : Z) (x : Number) : bool :=
  match x with
  | Finite n => (k <? n)%Z
  | Infinity => true
  end.

Definition below (k : Z) (x : Number) : bool :=
  match x with
  | Finite n => (n <? k)%Z
  | Infinity => false
  end.

Definition digitCount (n : Z) : nat := String.length (showZ n).

(** The decimal with the fewest significant digits that reads back as the
    Number [v] (an integer from [2^53] on), and of those the nearest to
    [v], of two the one with the even last digit: with [k] digits it is
    [v] with the digits after the first [k] cleared, or the next such
    number.  The search goes from one digit to seventeen, which suffice. *)
Fixpoint shortestFrom (fuel : nat) (k : nat) (v : Z) : Z :=
  match fuel with
  | O => v
  | S fuel' =>
      let unit := (10 ^ Z.of_nat (digitCount v - k))%Z in
      let lo := (v / unit * unit)%Z in
      let hi := (lo + unit)%Z in
      let readsBack x := match toNumber x with
                         | Finite w => (w =? v)%Z
                         | Infinity => false
                         end in
      match readsBack lo, readsBack hi with
      | true, true =>
          if (v - lo <? hi - v)%Z then lo
          else if (hi - v <? v - lo)%Z then hi
          else if Z.even (lo / unit) then lo else hi
      | true, false => lo
      | false, true => hi
      | false, false => shortestFrom fuel' (S k) v
      end
  end.

Definition shortest (v : Z) : Z :=
  if (v <? 2 ^ 53)%Z then v else shortestFrom 17 1 v.

Fixpoint stripZeros (r : string) : string :=
  match r with
  | String "0" t => stripZeros t
  | _ => r
  end.

(** The digits of [x] without the zeros that end it. *)
Definition significand (x : Z) : string := rev "" (stripZeros (rev "" (showZ x))).

(** [String(x)], as a template literal renders a Number: the digits of
    the shortest decimal, in full below [10^21] and from there on as
    [d.ddde+n]. *)
Definition showNumber (x : Number) : string :=
  match x with
  | Infinity => "Infinity"
  | Finite n =>
      if (n <? 0)%Z then showZ n
      else
        let x := shortest n in
        if (x <? 10 ^ 21)%Z then showZ x
        else
          let exponent := showNat (digitCount x - 1) in
          match significand x with
          | String d EmptyString => String d EmptyString ++ "e+" ++ exponent
          | String d rest => String d ("." ++ rest) ++ "e+" ++ exponent
          | EmptyString => EmptyString
          end
  end.


(** *** Regular expressions, as far as [RegExp.prototype.test] needs them *)

Inductive RegExp : Type :=
| Lit (text : string)          (* the characters of [text], case folded *)
| Digit                        (* \d *)
| Space                        (* \s *)
| Dot                          (* . : any character but a line terminator *)
| Seq (r1 r2 : RegExp)
| Alt (r1 r2 : RegExp)
| Opt (r : RegExp)             (* r? *)
| Plus (r : RegExp)            (* r+ *)
| Star (r : RegExp).           (* r* *)

Fixpoint litPrefix (text s : string) : option string :=
  match text, s with
  | EmptyString, _ => Some s
  | String a text', String b s' =>
      if Ascii.eqb (lowerChar a) (lowerChar b) then litPrefix text' s' else None
  | String _ _, EmptyString => None
  end.

(** LF, CR, U+2028 and U+2029 *)
Definition lineTerminatorAhead (s : string) : bool :=
  match s with
  | String a t1 =>
      ((byte a =? 10) || (byte a =? 13))%nat
      || match t1 with
         | String b (String c _) =>
             ((byte a =? 226) && (byte b =? 128) && ((byte c =? 168) || (byte c =? 169)))%nat
         | _ => false
         end
  | EmptyString => false
  end.

(** [matches r s k]: some way of matching [r] at the head of [s] leaves a
    rest that [k] accepts. *)
Fixpoint matches (r : RegExp) (s : string) (k : string -> bool) {struct r} : bool :=
  match r with
  | Lit text => match litPrefix text s with Some t => k t | None => false end
  | Digit => match s with String c t => isDigit c && k t | EmptyString => false end
  | Space => match afterWhiteSpace s with Some t => k t | None => false end
  | Dot =>
      match s with
      | String _ t => negb (lineTerminatorAhead s) && k t
      | EmptyString => false
      end
  | Seq r1 r2 => matches r1 s (fun t => matches r2 t k)
  | Alt r1 r2 => matches r1 s k || matches r2 s k
  | Opt r1 => matches r1 s k || k s
  | Plus r1 =>
      (fix more (fuel : nat) (s : string) {struct fuel} : bool :=
         matches r1 s (fun t => k t || match fuel with
                                       | O => false
                                       | S fuel' => more fuel' t
                                       end))
        (String.length s) s
  | Star r1 =>
      (fix more (fuel : nat) (s : string) {struct fuel} : bool :=
         k s || match fuel with
                | O => false
                | S fuel' => matches r1 s (more fuel')
                end)
        (String.length s) s
  end.

(** [r.test(s)] for a pattern without anchors: a match at some position. *)
Fixpoint test (r : RegExp) (s : string) : bool :=
  matches r s (fun _ => true)
  || match s with
     | EmptyString => false
     | String _ t => test r t
     end.

End JS.

(** ** JSON values *)

Set Warnings "-register-all".

Inductive JSON : Type :=
| JNull
| JBool (b : bool)
| JNum (x : float)
| JStr (s : string)
| JArr (items : list JSON)
| JObj (props : list (string * JSON)).

Module Json.

(** ToBoolean *)
Definition truthy (v : JSON) : bool :=
  match v with
  | JNull => false
  | JBool b => b
  | JNum x => negb (PrimFloat.eqb x 0%float || negb (PrimFloat.eqb x x))
  | JStr s => negb (String.eqb s "")
  | JArr _ | JObj _ => true
  end.

Definition truthy' (v : option JSON) : bool :=
  match v with
  | Some v => truthy v
  | None => false
  end.

Fixpoint lookup {A : Type} (k : string) (l : list (string * A)) : option A :=
  match l with
  | [] => None
  | (k', v) :: t => if String.eqb k k' then Some v else lookup k t
  end.

(** [v[k]] for a property name [k] that is neither an index, nor [length],
    nor a member of a built-in prototype: every name the code reads is of
    that kind, so only an object can have it. *)
Definition prop (v : JSON) (k : string) : option JSON :=
  match v with
  | JObj props => lookup k props
  | _ => None
  end.

(** [v?.[k]] on a possibly undefined [v] *)
Definition prop' (v : option JSON) (k : string) : option JSON :=
  match v with
  | Some v => prop v k
  | None => None
  end.

Fixpoint indexed {A : Type} (i : nat) (l : list A) : list (string * A) :=
  match l with
  | [] => []
  | x :: t => (JS.showNat i, x) :: indexed (S i) t
  end.

(** A surrogate, in the three bytes a character of its number would take. *)
Definition surrogate (u : N) : string :=
  String (ascii_of_N 237)
    (String (ascii_of_N (128 + (u / 64) mod 64))
       (String (ascii_of_N (128 + u mod 64)) EmptyString)).

(** The UTF-16 code units of a string, each as the string of that unit: a
    character of one to three bytes is one unit, a character of four bytes
    is the two surrogates of its code point. *)
Fixpoint chars (s : string) : list JSON :=
  match s with
  | EmptyString => []
  | String a t =>
      if (JS.byte a <? 192)%nat then JStr (String a EmptyString) :: chars t
      else
        match t with
        | String b t2 =>
            if (JS.byte a <? 224)%nat
            then JStr (String a (String b EmptyString)) :: chars t2
            else
              match t2 with
              | String c t3 =>
                  if (JS.byte a <? 240)%nat
                  then JStr (String a (String b (String c EmptyString))) :: chars t3
                  else
                    match t3 with
                    | String d t4 =>
                        let point := ((N_of_ascii a mod 8) * 262144
                                      + (N_of_ascii b mod 64) * 4096
                                      + (N_of_ascii c mod 64) * 64
                                      + N_of_ascii d mod 64 - 65536)%N in
                        JStr (surrogate (55296 + point / 1024)%N)
                          :: JStr (surrogate (56320 + point mod 1024)%N) :: chars t4
                    | EmptyString => [JStr s]
                    end
              | EmptyString => [JStr s]
              end
        | EmptyString => [JStr s]
        end
  end.

(** The own enumerable properties of a value that is not null or
    undefined: what [Object.entries] lists and what a spread copies. *)
Definition ownEntries (v : JSON) : list (string * JSON) :=
  match v with
  | JObj props => props
  | JArr items => indexed 0 items
  | JStr s => indexed 0 (chars s)
  | _ => []
  end.

(** [o[k] = v] on the property list of an object *)
Fixpoint assign (k : string) (v : JSON) (o : list (string * JSON)) : list (string * JSON) :=
  match o with
  | [] => [(k, v)]
  | (k', v') :: t => if String.eqb k k' then (k', v) :: t else (k', v') :: assign k v t
  end.

(** [{ ...a, ...b }], each of [a] and [b] possibly undefined *)
Definition spread2 (a b : option JSON) : list (string * JSON) :=
  let entries v := match v with Some v => ownEntries v | None => [] end in
  fold_left (fun o kv => assign (fst kv) (snd kv) o) (entries a ++ entries b) [].

End Json.

(** ** Completions *)

Inductive JsError : Type :=
| TypeError.

Inductive Completion (A : Type) : Type :=
| Normal (a : A)
| Throw (e : JsError).

Arguments Normal {A} a.
Arguments Throw {A} e.

Definition bind {A B : Type} (m : Completion A) (f : A -> Completion B) : Completion B :=
  match m with
  | Normal a => f a
  | Throw e => Throw e
  end.

Notation "x <- m ;; k" := (bind m (fun x => k))
  (at level 61, m at next level, right associativity).

(** ** The pre-flight checker ([compatibilityChecker.ts]) *)

Inductive ProjectType : Type :=
| nodejs | static | python | rust | go | java | php | ruby | dotnet | other.

Definition ProjectType_text (t : ProjectType) : string :=
  match t with
  | nodejs => "nodejs" | static => "static" | python => "python"
  | rust => "rust" | go => "go" | java => "java" | php => "php"
  | ruby => "ruby" | dotnet => "dotnet" | other => "other"
  end.

Definition isNodejs (t : ProjectType) : bool :=
  match t with nodejs => true | _ => false end.

Definition isStatic (t : ProjectType) : bool :=
  match t with static => true | _ => false end.

(** A [FileSystemTree]: a file node holds its contents as text (a
    [Uint8Array] is what [TextDecoder] decodes it to). *)
Inductive FsNode : Type :=
| FileNode (contents : string)
| DirectoryNode (directory : list (string * FsNode)).

Definition FileSystemTree : Type := list (string * FsNode).

Record CompatibilityReport : Type := {
  canRun : bool;
  issues : list string;
  warnings : list string;
  suggestions : list string;
  nodeVersion : option JSON;
  hasNativeDeps : bool;
  hasGitSshDeps : bool;
  frameworkDetected : option string
}.

Definition has (set : list string) (x : string) : bool :=
  existsb (String.eqb x) set.

Definition NATIVE_PACKAGES : list string :=
  [ "bcrypt"; "sharp"; "canvas"; "sqlite3"; "better-sqlite3"; "node-sass";
    "node-gyp"; "fsevents"; "esbuild"; "swc"; "@swc/core"; "lightningcss";
    "bufferutil"; "utf-8-validate"; "cpu-features"; "sse4_crc32"; "farmhash";
    "xxhash"; "argon2"; "libsodium"; "sodium-native"; "leveldown"; "rocksdb" ].

Definition PEER_DEP_TROUBLEMAKERS : list string :=
  [ "react"; "react-dom"; "@types/react"; "@types/react-dom"; "webpack";
    "babel-core"; "@babel/core"; "eslint"; "prettier"; "typescript" ].

Record FrameworkPattern : Type := {
  fp_name : string;
  fp_deps : list string;
  fp_devScript : option string
}.

Definition FRAMEWORK_PATTERNS : list FrameworkPattern :=
  [ {| fp_name := "Vite"; fp_deps := ["vite"]; fp_devScript := Some "vite" |};
    {| fp_name := "Next.js"; fp_deps := ["next"]; fp_devScript := Some "next" |};
    {| fp_name := "Create React App"; fp_deps := ["react-scripts"]; fp_devScript := Some "react-scripts" |};
    {| fp_name := "Vue CLI"; fp_deps := ["@vue/cli-service"]; fp_devScript := Some "vue-cli-service" |};
    {| fp_name := "Nuxt"; fp_deps := ["nuxt"; "nuxt3"]; fp_devScript := Some "nuxt" |};
    {| fp_name := "Angular CLI"; fp_deps := ["@angular/cli"]; fp_devScript := Some "ng" |};
    {| fp_name := "SvelteKit"; fp_deps := ["@sveltejs/kit"]; fp_devScript := Some "svelte-kit" |};
    {| fp_name := "Remix"; fp_deps := ["@remix-run/dev"]; fp_devScript := Some "remix" |};
    {| fp_name := "Astro"; fp_deps := ["astro"]; fp_devScript := Some "astro" |};
    {| fp_name := "Gatsby"; fp_deps := ["gatsby"]; fp_devScript := Some "gatsby" |};
    {| fp_name := "Parcel"; fp_deps := ["parcel"]; fp_devScript := Some "parcel" |};
    {| fp_name := "Webpack"; fp_deps := ["webpack"; "webpack-cli"]; fp_devScript := Some "webpack" |};
    {| fp_name := "Express"; fp_deps := ["express"]; fp_devScript := None |};
    {| fp_name := "Fastify"; fp_deps := ["fastify"]; fp_devScript := None |};
    {| fp_name := "Koa"; fp_deps := ["koa"]; fp_devScript := None |};
    {| fp_name := "NestJS"; fp_deps := ["@nestjs/core"]; fp_devScript := Some "nest" |} ].

Section Checker.

(** [JSON.parse]: [None] when it throws a SyntaxError. *)
Variable JSON_parse : string -> option JSON.

(** The parsed manifest, or [JNull] for the [null] the source returns. *)
Definition extractPackageJson (tree : FileSystemTree) : JSON :=
  match Json.lookup "package.json" tree with
  | Some (FileNode contents) =>
      match JSON_parse contents with
      | Some v => v
      | None => JNull
      end
  | _ => JNull
  end.

Definition extractNodeVersion (tree : FileSystemTree) (pkg : JSON) : option JSON :=
  let engines := Json.prop pkg "engines" in
  if Json.truthy' (Json.prop' engines "node") then Json.prop' engines "node"
  else
    match Json.lookup ".nvmrc" tree with
    | Some (FileNode contents) => Some (JStr (JS.trim contents))
    | _ => None
    end.

(** The version test of [analyzeDependencies]. *)
Definition isGitSsh (version : string) : bool :=
  JS.startsWith version "git+ssh://"
  || JS.startsWith version "ssh://"
  || JS.includes version "git@".

Record Analysis : Type := {
  native : list string;
  peerTrouble : list string;
  gitSsh : list string;
  allDeps : list string
}.

(** One turn of the inner loop: [version.startsWith] is a TypeError when
    [version] is not a string. *)
Definition analyzeEntry (a : Analysis) (entry : string * JSON) : Completion Analysis :=
  let '(name, version) := entry in
  let allDeps1 := allDeps a ++ [name] in
  let native1 := if has NATIVE_PACKAGES name then native a ++ [name] else native a in
  let peer1 := if has PEER_DEP_TROUBLEMAKERS name then peerTrouble a ++ [name] else peerTrouble a in
  match version with
  | JStr v =>
      Normal {| native := native1; peerTrouble := peer1;
                gitSsh := if isGitSsh v then gitSsh a ++ [name] else gitSsh a;
                allDeps := allDeps1 |}
  | _ => Throw TypeError
  end.

Fixpoint analyzeEntries (a : Analysis) (entries : list (string * JSON)) : Completion Analysis :=
  match entries with
  | [] => Normal a
  | e :: rest => a' <- analyzeEntry a e ;; analyzeEntries a' rest
  end.

Definition sections : list string :=
  ["dependencies"; "devDependencies"; "optionalDependencies"].

Definition analyzeSection (pkg : JSON) (a : Analysis) (section : string) : Completion Analysis :=
  match Json.prop pkg section with
  | Some deps => if Json.truthy deps then analyzeEntries a (Json.ownEntries deps) else Normal a
  | None => Normal a
  end.

Fixpoint analyzeSections (pkg : JSON) (a : Analysis) (ss : list string) : Completion Analysis :=
  match ss with
  | [] => Normal a
  | s :: rest => a' <- analyzeSection pkg a s ;; analyzeSections pkg a' rest
  end.

Definition analyzeDependencies (pkg : JSON) : Completion Analysis :=
  analyzeSections pkg {| native := []; peerTrouble := []; gitSsh := []; allDeps := [] |} sections.

Definition detectFramework (pkg : JSON) (allDeps : list string) : option string :=
  option_map fp_name
    (find (fun framework => existsb (has allDeps) (fp_deps framework)) FRAMEWORK_PATTERNS).

Record NodeRequirement : Type := {
  minMajor : option JS.Number;
  maxMajor : option JS.Number;
  exact : option JS.Number
}.

Definition noRequirement : NodeRequirement :=
  {| minMajor := None; maxMajor := None; exact := None |}.

(** One [(?:\.\d+)?] group: the rest after it, when it matches. *)
Definition dotDigits (s : string) : string :=
  match s with
  | String "." t =>
      match JS.takeDigits t with
      | (EmptyString, _) => s
      | (_, r) => r
      end
  | _ => s
  end.

(** [/^v?(\d+)(?:\.\d+)?(?:\.\d+)?$/]: the first group. *)
Definition exactMatch (version : string) : option string :=
  match JS.takeDigits (JS.optional "v" version) with
  | (EmptyString, _) => None
  | (d, r) =>
      match dotDigits (dotDigits r) with
      | EmptyString => Some d
      | _ => None
      end
  end.

(** The tail [\s*v?(\d+)] of the two range patterns: the group. *)
Definition boundDigits (s : string) : option string :=
  match JS.takeDigits (JS.optional "v" (JS.skipWhiteSpace s)) with
  | (EmptyString, _) => None
  | (d, _) => Some d
  end.

(** [/^>=?\s*v?(\d+)/] *)
Definition rangeMatch (version : string) : option string :=
  match version with
  | String ">" t => boundDigits (JS.optional "=" t)
  | _ => None
  end.

(** [/^<\s*v?(\d+)/] *)
Definition ltMatch (version : string) : option string :=
  match version with
  | String "<" t => boundDigits t
  | _ => None
  end.

Definition parseNodeVersionRequirement (version : string) : NodeRequirement :=
  match exactMatch version with
  | Some d => {| minMajor := None; maxMajor := None; exact := Some (JS.parseInt d) |}
  | None =>
      match rangeMatch version with
      | Some d => {| minMajor := Some (JS.parseInt d); maxMajor := None; exact := None |}
      | None =>
          match ltMatch version with
          | Some d => {| minMajor := None; maxMajor := Some (JS.pred (JS.parseInt d)); exact := None |}
          | None => noRequirement
          end
      end
  end.

(** The report the source creates first, and the assignments it makes to it. *)
Definition initialReport : CompatibilityReport :=
  {| canRun := true; issues := []; warnings := []; suggestions := [];
     nodeVersion := None; hasNativeDeps := false; hasGitSshDeps := false;
     frameworkDetected := None |}.

Definition set_canRun (b : bool) (r : CompatibilityReport) : CompatibilityReport :=
  {| canRun := b; issues := issues r; warnings := warnings r;
     suggestions := suggestions r; nodeVersion := nodeVersion r;
     hasNativeDeps := hasNativeDeps r; hasGitSshDeps := hasGitSshDeps r;
     frameworkDetected := frameworkDetected r |}.

Definition push_issue (m : string) (r : CompatibilityReport) : CompatibilityReport :=
  {| canRun := canRun r; issues := issues r ++ [m]; warnings := warnings r;
     suggestions := suggestions r; nodeVersion := nodeVersion r;
     hasNativeDeps := hasNativeDeps r; hasGitSshDeps := hasGitSshDeps r;
     frameworkDetected := frameworkDetected r |}.

Definition push_warning (m : string) (r : CompatibilityReport) : CompatibilityReport :=
  {| canRun := canRun r; issues := issues r; warnings := warnings r ++ [m];
     suggestions := suggestions r; nodeVersion := nodeVersion r;
     hasNativeDeps := hasNativeDeps r; hasGitSshDeps := hasGitSshDeps r;
     frameworkDetected := frameworkDetected r |}.

Definition push_suggestion (m : string) (r : CompatibilityReport) : CompatibilityReport :=
  {| canRun := canRun r; issues := issues r; warnings := warnings r;
     suggestions := suggestions r ++ [m]; nodeVersion := nodeVersion r;
     hasNativeDeps := hasNativeDeps r; hasGitSshDeps := hasGitSshDeps r;
     frameworkDetected := frameworkDetected r |}.

Definition set_nodeVersion (v : option JSON) (r : CompatibilityReport) : CompatibilityReport :=
  {| canRun := canRun r; issues := issues r; warnings := warnings r;
     suggestions := suggestions r; nodeVersion := v;
     hasNativeDeps := hasNativeDeps r; hasGitSshDeps := hasGitSshDeps r;
     frameworkDetected := frameworkDetected r |}.

Definition set_hasNativeDeps (b : bool) (r : CompatibilityReport) : CompatibilityReport :=
  {| canRun := canRun r; issues := issues r; warnings := warnings r;
     suggestions := suggestions r; nodeVersion := nodeVersion r;
     hasNativeDeps := b; hasGitSshDeps := hasGitSshDeps r;
     frameworkDetected := frameworkDetected r |}.

Definition set_hasGitSshDeps (b : bool) (r : CompatibilityReport) : CompatibilityReport :=
  {| canRun := canRun r; issues := issues r; warnings := warnings r;
     suggestions := suggestions r; nodeVersion := nodeVersion r;
     hasNativeDeps := hasNativeDeps r; hasGitSshDeps := b;
     frameworkDetected := frameworkDetected r |}.

Definition set_frameworkDetected (f : option string) (r : CompatibilityReport) : CompatibilityReport :=
  {| canRun := canRun r; issues := issues r; warnings := warnings r;
     suggestions := suggestions r; nodeVersion := nodeVersion r;
     hasNativeDeps := hasNativeDeps r; hasGitSshDeps := hasGitSshDeps r;
     frameworkDetected := f |}.

Definition webContainerNodeVersion : Z := 18.

(** [n && n > k] and [n && n < k] on a possibly undefined number: zero is
    falsy. *)
Definition andGt (n : option JS.Number) (k : Z) : bool :=
  match n with
  | Some n => JS.nonZero n && JS.above k n
  | None => false
  end.

Definition andLt (n : option JS.Number) (k : Z) : bool :=
  match n with
  | Some n => JS.nonZero n && JS.below k n
  | None => false
  end.

Definition showExact (n : option JS.Number) : string :=
  match n with
  | Some n => JS.showNumber n
  | None => "undefined"
  end.

(** The three comparisons made once [report.nodeVersion] is a truthy string. *)
Definition compareNodeVersion (version : string) (r : CompatibilityReport) : CompatibilityReport :=
  let req := parseNodeVersionRequirement version in
  let r1 :=
    if andGt (minMajor req) webContainerNodeVersion
    then push_warning ("Project requires Node.js " ++ version ++ ", WebContainers run Node 18") r
    else r in
  let r2 :=
    if andGt (exact req) webContainerNodeVersion
    then push_warning ("Project targets Node.js " ++ showExact (exact req) ++ ", WebContainers run Node 18") r1
    else r1 in
  if andLt (exact req) 14
  then push_warning ("Project targets old Node.js " ++ showExact (exact req) ++ " - some APIs may differ") r2
  else r2.

(** The block "Check Node.js version requirements": [version.match] is a
    TypeError on a truthy value that is not a string. *)
Definition checkNodeVersion (tree : FileSystemTree) (pkg : JSON) (r : CompatibilityReport)
  : Completion CompatibilityReport :=
  let r := set_nodeVersion (extractNodeVersion tree pkg) r in
  if Json.truthy' (nodeVersion r) then
    match nodeVersion r with
    | Some (JStr version) => Normal (compareNodeVersion version r)
    | _ => Throw TypeError
    end
  else Normal r.

(** The three blocks that follow [analyzeDependencies]. *)
Definition reportNative (a : Analysis) (r : CompatibilityReport) : CompatibilityReport :=
  if (0 <? length (native a))%nat then
    push_suggestion "Some packages may not work - they require native compilation"
      (push_warning
         ("Native packages detected: " ++ JS.join ", " (firstn 3 (native a))
          ++ (if (3 <? length (native a))%nat then "..." else ""))
         (set_hasNativeDeps true r))
  else r.

Definition gitSshIssue (names : list string) : string :=
  "Git+SSH dependencies not supported: " ++ JS.join ", " names.

Definition gitSshSuggestion : string :=
  "Replace git+ssh dependencies with npm packages or HTTPS URLs".

Definition reportGitSsh (a : Analysis) (r : CompatibilityReport) : CompatibilityReport :=
  if (0 <? length (gitSsh a))%nat then
    push_suggestion gitSshSuggestion
      (push_issue (gitSshIssue (gitSsh a))
         (set_canRun false (set_hasGitSshDeps true r)))
  else r.

Definition reportPeer (a : Analysis) (r : CompatibilityReport) : CompatibilityReport :=
  if (3 <=? length (peerTrouble a))%nat
  then push_suggestion "May need --legacy-peer-deps if install fails" r
  else r.

Definition checkScripts (pkg : JSON) (r : CompatibilityReport) : CompatibilityReport :=
  if negb (Json.truthy' (Json.prop pkg "scripts")) then
    push_suggestion "Add a 'dev' or 'start' script to run the project"
      (push_warning "No scripts in package.json" r)
  else
    let hasDevScript :=
      existsb (fun s => Json.truthy' (Json.prop' (Json.prop pkg "scripts") s))
              ["dev"; "start"; "serve"; "develop"] in
    if negb hasDevScript then
      push_suggestion "Add a 'dev' or 'start' script to package.json"
        (push_warning "No dev/start script found" r)
    else r.

Definition noManifestWarning : string :=
  "No package.json found - may not be a Node.js project".

Definition checkCompatibility (tree : FileSystemTree) (projectType : ProjectType)
  : Completion CompatibilityReport :=
  let report := initialReport in
  if negb (isNodejs projectType) then
    if isStatic projectType then
      Normal (push_suggestion "Static site will be served with Express" report)
    else
      Normal (push_suggestion "Use cloud deployment for full execution"
                (push_issue (ProjectType_text projectType ++ " projects cannot run in WebContainers")
                   (set_canRun false report)))
  else
    let pkg := extractPackageJson tree in
    if negb (Json.truthy pkg) then Normal (push_warning noManifestWarning report)
    else
      report <- checkNodeVersion tree pkg report ;;
      a <- analyzeDependencies pkg ;;
      let report := reportPeer a (reportGitSsh a (reportNative a report)) in
      let report := set_frameworkDetected (detectFramework pkg (allDeps a)) report in
      Normal (checkScripts pkg report).

(** [getDevServerConfig] *)
Record DevServerConfig : Type := {
  args : list string;
  env : option (list (string * string))
}.

Definition getDevServerConfig (framework : option string) : DevServerConfig :=
  let case name := match framework with Some f => String.eqb f name | None => false end in
  if case "Vite" then {| args := ["run"; "dev"; "--"; "--host"; "0.0.0.0"]; env := None |}
  else if case "Create React App" then
    {| args := ["run"; "start"];
       env := Some [("HOST", "0.0.0.0"); ("PORT", "3000"); ("BROWSER", "none")] |}
  else if case "Next.js" then
    {| args := ["run"; "dev"; "--"; "-H"; "0.0.0.0"];
       env := Some [("NEXT_TELEMETRY_DISABLED", "1")] |}
  else if case "Vue CLI" then {| args := ["run"; "serve"; "--"; "--host"; "0.0.0.0"]; env := None |}
  else if case "Angular CLI" then {| args := ["run"; "start"; "--"; "--host"; "0.0.0.0"]; env := None |}
  else if case "Nuxt" then
    {| args := ["run"; "dev"; "--"; "--host"; "0.0.0.0"];
       env := Some [("NUXT_TELEMETRY_DISABLED", "1")] |}
  else if case "SvelteKit" then {| args := ["run"; "dev"; "--"; "--host"; "0.0.0.0"]; env := None |}
  else if case "Remix" then {| args := ["run"; "dev"]; env := None |}
  else if case "Astro" then {| args := ["run"; "dev"; "--"; "--host"; "0.0.0.0"]; env := None |}
  else if case "Gatsby" then
    {| args := ["run"; "develop"; "--"; "-H"; "0.0.0.0"];
       env := Some [("GATSBY_TELEMETRY_DISABLED", "1")] |}
  else {| args := ["run"; "dev"]; env := None |}.

(** [quickCompatibilityCheck]: the scan alone, and the first name it lists. *)
Record QuickCheck : Type := {
  blocked : bool;
  reason : option string
}.

Definition quickCompatibilityCheck (tree : FileSystemTree) : Completion QuickCheck :=
  let pkg := extractPackageJson tree in
  if negb (Json.truthy pkg) then Normal {| blocked := false; reason := None |}
  else
    a <- analyzeDependencies pkg ;;
    match gitSsh a with
    | first :: _ =>
        Normal {| blocked := true;
                  reason := Some ("Git+SSH dependencies not supported: " ++ first)%string |}
    | [] => Normal {| blocked := false; reason := None |}
    end.

(** [getInstallStrategy] *)
Record InstallStrategy : Type := {
  is_args : list string;
  is_env : option (list (string * string));
  retryWithLegacy : bool
}.

Definition getInstallStrategy (report : CompatibilityReport) : InstallStrategy :=
  let baseArgs := ["--no-audit"; "--no-fund"] in
  if hasNativeDeps report then
    {| is_args := "install" :: baseArgs ++ ["--ignore-scripts"];
       is_env := None; retryWithLegacy := true |}
  else
    {| is_args := "install" :: baseArgs; is_env := None; retryWithLegacy := true |}.

End Checker.

(** ** The orchestrator ([webcontainer.ts]) *)

Inductive ContainerStatus : Type :=
| idle | booting | mounting | installing | running | ready | error.

(** What a rejected promise carries: [error instanceof Error] or not. *)
Inductive Thrown : Type :=
| ErrorObject (message : string)
| OtherValue.

(** A piece of the text that the output callbacks of the install commands
    are given while one command runs: text of the process of that command,
    or text that the process of an earlier command of the run delivers only
    now.  [runCommandWithTimeout] returns when it sees the exit of its
    process and awaits the end of no output stream, so a process can
    deliver text after its command has returned; the callback it is given
    to still appends to the variable [installOutput] that the strategies
    share.  (The first command of a run has no earlier one.) *)
Inductive Chunk : Type :=
| Own (data : string)
| Late (data : string).

Definition chunkText (chunk : Chunk) : string :=
  match chunk with
  | Own data | Late data => data
  end.

(** All the text of the chunks, in the order of their delivery, and the
    part of it that is the command's own. *)
Fixpoint captured (output : list Chunk) : string :=
  match output with
  | [] => ""
  | chunk :: rest => chunkText chunk ++ captured rest
  end.

Fixpoint ownText (output : list Chunk) : string :=
  match output with
  | [] => ""
  | Own data :: rest => data ++ ownText rest
  | Late _ :: rest => ownText rest
  end.

(** How an install command ends under [runCommandWithTimeout]: the exit of
    the process is seen, with its code, or the five minutes pass, or
    [container.spawn] rejects.  [output] is what the output callbacks have
    been given from the start of the command to that moment (the hints of
    [runCommandWithTimeout] are text of the command).  Text delivered
    after the exit of the last command of a run was seen is not listed
    among the effects of the run. *)
Inductive Outcome : Type :=
| Exited (code : Z) (output : list Chunk)
| TimedOut (output : list Chunk)
| SpawnRejected (e : Thrown).

(** The container, as far as the dev-server run uses it.  A [box] is a
    state of the container: its files and what its processes will do.
    - [readFile c path] is [container.fs.readFile(path, "utf-8")], [None]
      when it rejects;
    - [runNpm c args] runs [npm args] to its end and gives the state it
      leaves;
    - [spawnNpm c args env] is [container.spawn("npm", args, { env })] for
      the dev server: [None] when the process is started, what is thrown
      when it is not. *)
Record WebContainer : Type := {
  box : Type;
  readFile : box -> string -> option string;
  runNpm : box -> list string -> Outcome * box;
  spawnNpm : box -> list string -> option (list (string * string)) -> option Thrown * box
}.

(** What a run does, in program order: the callbacks it calls, its writes to
    a buffered output ([createBufferedOutput], which forwards them to
    [onOutput] coalesced in time), the install commands it ran and the
    dev-server process it spawned. *)
Inductive Effect : Type :=
| OnStatusChange (status : ContainerStatus)
| OnOutput (data : string)
| OnServerReady (url : string)
| OnError (message : string)
| Print (data : string)
| Flush
| Ran (args : list string) (outcome : Outcome)
| Spawned (args : list string) (env : option (list (string * string))).

Definition esc : string := String (ascii_of_nat 27) "".
Definition nl : string := String (ascii_of_nat 10) "".
Definition red (s : string) : string := esc ++ "[31m" ++ s ++ esc ++ "[0m".
Definition green (s : string) : string := esc ++ "[32m" ++ s ++ esc ++ "[0m".
Definition yellow (s : string) : string := esc ++ "[33m" ++ s ++ esc ++ "[0m".
Definition cyan (s : string) : string := esc ++ "[36m" ++ s ++ esc ++ "[0m".

Definition hasPeerDepError (output : string) : bool :=
  existsb (fun pattern => JS.test pattern output)
    [ JS.Lit "ERESOLVE";
      JS.Lit "peer dep";
      JS.Lit "could not resolve dependency";
      JS.Lit "conflicting peer dependency";
      JS.Lit "unable to resolve dependency tree" ].

Definition hasPostInstallError (output : string) : bool :=
  existsb (fun pattern => JS.test pattern output)
    [ JS.Lit "postinstall";
      JS.Lit "node-pre-gyp";
      JS.Lit "node-gyp";
      JS.Lit "prebuild-install";
      JS.Seq (JS.Lit "ENOENT") (JS.Seq (JS.Star JS.Dot) (JS.Lit "binding.gyp"));
      JS.Lit "gyp ERR!" ].

(** [typeof value === "string"] and the same test as the checker's. *)
Definition gitSshValue (value : JSON) : bool :=
  match value with
  | JStr v =>
      JS.startsWith v "git+ssh://" || JS.startsWith v "ssh://" || JS.includes v "git@"
  | _ => false
  end.

Definition hasGitSshDependencies (pkg : JSON) : bool :=
  existsb
    (fun section =>
       match Json.prop pkg section with
       | Some deps => Json.truthy deps && existsb (fun kv => gitSshValue (snd kv)) (Json.ownEntries deps)
       | None => false
       end)
    ["dependencies"; "devDependencies"; "optionalDependencies"].

Record FrameworkConfig : Type := {
  fc_name : option string;
  fc_args : list string;
  fc_env : option (list (string * string))
}.

(** The constants [deps], [scripts], [devScriptName] and [baseArgs] of
    [detectFrameworkConfig]. *)
Definition configDeps (pkg : JSON) : list (string * JSON) :=
  Json.spread2 (Json.prop pkg "dependencies") (Json.prop pkg "devDependencies").

Definition scriptsOrEmpty (pkg : JSON) : JSON :=
  match Json.prop pkg "scripts" with
  | Some s => if Json.truthy s then s else JObj []
  | None => JObj []
  end.

Definition devScriptName (pkg : JSON) : option string :=
  find (fun s => Json.truthy' (Json.prop (scriptsOrEmpty pkg) s))
       ["dev"; "start"; "serve"; "develop"].

Definition baseArgs (pkg : JSON) : list string :=
  match devScriptName pkg with
  | Some s => ["run"; s]
  | None => ["run"; "dev"]
  end.

Definition detectFrameworkConfig (pkg : JSON) : FrameworkConfig :=
  if negb (Json.truthy pkg) then {| fc_name := None; fc_args := ["run"; "dev"]; fc_env := None |}
  else
    let dep name := Json.truthy' (Json.lookup name (configDeps pkg)) in
    let baseArgs := baseArgs pkg in
    let host := ["--"; "--host"; "0.0.0.0"] in
    if dep "vite" then
      {| fc_name := Some "Vite"; fc_args := baseArgs ++ host; fc_env := None |}
    else if dep "react-scripts" then
      {| fc_name := Some "Create React App"; fc_args := baseArgs;
         fc_env := Some [("HOST", "0.0.0.0"); ("PORT", "3000"); ("BROWSER", "none")] |}
    else if dep "next" then
      {| fc_name := Some "Next.js"; fc_args := baseArgs ++ ["--"; "-H"; "0.0.0.0"];
         fc_env := Some [("NEXT_TELEMETRY_DISABLED", "1")] |}
    else if dep "@vue/cli-service" then
      {| fc_name := Some "Vue CLI"; fc_args := baseArgs ++ host; fc_env := None |}
    else if dep "@angular/cli" || dep "@angular-devkit/build-angular" then
      {| fc_name := Some "Angular CLI"; fc_args := baseArgs ++ host; fc_env := None |}
    else if dep "nuxt" || dep "nuxt3" then
      {| fc_name := Some "Nuxt"; fc_args := baseArgs ++ host;
         fc_env := Some [("NUXT_TELEMETRY_DISABLED", "1")] |}
    else if dep "@sveltejs/kit" then
      {| fc_name := Some "SvelteKit"; fc_args := baseArgs ++ host; fc_env := None |}
    else if dep "@remix-run/dev" then
      {| fc_name := Some "Remix"; fc_args := baseArgs; fc_env := None |}
    else if dep "astro" then
      {| fc_name := Some "Astro"; fc_args := baseArgs ++ host; fc_env := None |}
    else if dep "gatsby" then
      {| fc_name := Some "Gatsby"; fc_args := baseArgs ++ ["--"; "-H"; "0.0.0.0"];
         fc_env := Some [("GATSBY_TELEMETRY_DISABLED", "1")] |}
    else if dep "parcel" || dep "parcel-bundler" then
      {| fc_name := Some "Parcel"; fc_args := baseArgs ++ host; fc_env := None |}
    else if dep "express" || dep "fastify" || dep "koa" || dep "hapi" then
      {| fc_name := Some (if dep "express" then "Express"
                          else if dep "fastify" then "Fastify"
                          else if dep "koa" then "Koa" else "Hapi");
         fc_args := baseArgs;
         fc_env := Some [("PORT", "3000"); ("HOST", "0.0.0.0")] |}
    else if dep "webpack-dev-server" then
      {| fc_name := Some "Webpack"; fc_args := baseArgs; fc_env := Some [("HOST", "0.0.0.0")] |}
    else {| fc_name := None; fc_args := baseArgs; fc_env := None |}.

(** *** The run of [startDevServer] up to the spawn of the dev server *)

(** The two variables the install strategies share. *)
Record Locals : Type := {
  installExitCode : Z;
  installOutput : string
}.

(** Where the [try] block leaves the run. *)
Inductive RunPhase : Type :=
| Stopped
| Serving.

Section StartDevServer.

Variable JSON_parse : string -> option JSON.
Variable wc : WebContainer.

(** A step of the [try] block: it throws or yields a value, moves the
    container on and adds to the effects. *)
Definition M (A : Type) : Type := box wc -> (Thrown + A) * box wc * list Effect.

Definition ret {A : Type} (a : A) : M A := fun c => (inr a, c, []).

Definition seq {A B : Type} (m : M A) (f : A -> M B) : M B :=
  fun c =>
    match m c with
    | (inr a, c1, e1) => let '(r, c2, e2) := f a c1 in (r, c2, e1 ++ e2)
    | (inl t, c1, e1) => (inl t, c1, e1)
    end.

Definition emit (es : list Effect) : M unit := fun c => (inr tt, c, es).

Definition get {A : Type} (f : box wc -> A) : M A := fun c => (inr (f c), c, []).

Notation "x <~ m ;; k" := (seq m (fun x => k))
  (at level 61, m at next level, right associativity).
Notation "m ;;; k" := (seq m (fun _ => k))
  (at level 61, right associativity).

Definition fileExists (path : string) (c : box wc) : bool :=
  match readFile wc c path with
  | Some _ => true
  | None => false
  end.

(** The parsed file, or [JNull] for the [null] of the [catch]. *)
Definition readJsonFile (path : string) (c : box wc) : JSON :=
  match readFile wc c path with
  | Some content =>
      match JSON_parse content with
      | Some v => v
      | None => JNull
      end
  | None => JNull
  end.

(** [runCommandWithTimeout(container, "npm", args, onOutput, { label })]
    with an [onOutput] that prints what it is given, as those of this
    command and of the earlier ones do; the value is the exit code and the
    text given to these callbacks while the command ran. *)
Definition runCommandWithTimeout (args : list string) (label : string) : M (Z * string) :=
  fun c =>
    match runNpm wc c args with
    | (Exited code output, c') =>
        (inr (code, captured output), c',
         [Ran args (Exited code output); Print (captured output)])
    | (TimedOut output, c') =>
        (inl (ErrorObject (label ++ " timed out after 300s")), c',
         [Ran args (TimedOut output); Print (captured output)])
    | (SpawnRejected e, c') => (inl e, c', [Ran args (SpawnRejected e)])
    end.

Definition noAudit : list string := ["--no-audit"; "--no-fund"].

Definition strategy1 (hasPackageLock : bool) (l : Locals) : M Locals :=
  if hasPackageLock then
    emit [Print (cyan "➜ Running npm ci (using package-lock.json)..." ++ nl ++ nl)] ;;;
    r <~ runCommandWithTimeout ("ci" :: noAudit) "npm ci" ;;
    ret {| installExitCode := fst r; installOutput := installOutput l ++ snd r |}
  else ret l.

Definition strategy2 (l : Locals) : M Locals :=
  if negb (installExitCode l =? 0)%Z then
    emit [Print (cyan "➜ Running npm install..." ++ nl ++ nl)] ;;;
    r <~ runCommandWithTimeout ("install" :: noAudit) "npm install" ;;
    ret {| installExitCode := fst r; installOutput := "" ++ snd r |}
  else ret l.

Definition strategy3 (l : Locals) : M Locals :=
  if negb (installExitCode l =? 0)%Z && hasPeerDepError (installOutput l) then
    emit [Print (nl ++ yellow "⚠ Peer dependency conflict detected, retrying with --legacy-peer-deps..." ++ nl ++ nl)] ;;;
    r <~ runCommandWithTimeout ("install" :: "--legacy-peer-deps" :: noAudit)
           "npm install --legacy-peer-deps" ;;
    ret {| installExitCode := fst r; installOutput := "" ++ snd r |}
  else ret l.

Definition strategy4 (l : Locals) : M Locals :=
  if negb (installExitCode l =? 0)%Z then
    emit [Print (nl ++ yellow "⚠ Install failed, trying with --force..." ++ nl ++ nl)] ;;;
    r <~ runCommandWithTimeout ("install" :: "--force" :: noAudit) "npm install --force" ;;
    ret {| installExitCode := fst r; installOutput := "" ++ snd r |}
  else ret l.

(** The callback of the last strategy prints without capturing.  (What
    earlier commands deliver late is still appended to [installOutput],
    which is not read again.) *)
Definition strategy5 (l : Locals) : M Locals :=
  if negb (installExitCode l =? 0)%Z && hasPostInstallError (installOutput l) then
    emit [Print (nl ++ yellow "⚠ Postinstall script failed, trying with --ignore-scripts..." ++ nl ++ nl)] ;;;
    r <~ runCommandWithTimeout ("install" :: "--ignore-scripts" :: "--legacy-peer-deps" :: noAudit)
           "npm install --ignore-scripts" ;;
    ret {| installExitCode := fst r; installOutput := installOutput l |}
  else ret l.

Definition install (hasPackageLock : bool) : M Locals :=
  l1 <~ strategy1 hasPackageLock {| installExitCode := -1; installOutput := "" |} ;;
  l2 <~ strategy2 l1 ;;
  l3 <~ strategy3 l2 ;;
  l4 <~ strategy4 l3 ;;
  strategy5 l4.

Definition devScripts : list string := ["dev"; "start"; "serve"; "develop"; "watch"].

(** [typeof value === "string" && value.trim().length > 0] *)
Definition runnable (value : option JSON) : bool :=
  match value with
  | Some (JStr v) => negb (String.eqb (JS.trim v) "")
  | _ => false
  end.

Definition findDevScript (c : box wc) : option string :=
  let pkg := readJsonFile "package.json" c in
  if negb (Json.truthy pkg) then None
  else
    find (fun script => runnable (Json.prop (scriptsOrEmpty pkg) script)) devScripts.

Definition gitSshMessage : string :=
  "This project uses git+ssh dependencies (e.g. git@... or ssh://...). Those can't be installed in the in-browser container.".

Definition noScriptMessage : string :=
  "No dev/start script found in package.json. The project needs a 'dev', 'start', or 'serve' script.".

Definition showName (name : option string) : string :=
  match name with
  | Some n => " (" ++ n ++ " detected)"
  | None => ""
  end.

(** [container.spawn("npm", serverArgs, { env: serverEnv })] *)
Definition spawnServer (args : list string) (env : option (list (string * string))) : M unit :=
  fun c =>
    match spawnNpm wc c args env with
    | (None, c') => (inr tt, c', [Spawned args env])
    | (Some e, c') => (inl e, c', [])
    end.

(** The [try] block from the test of the install's exit code to the spawn.
    [frameworkConfig.args] is an array, so
    [frameworkConfig.args || ["run", devScript]] is [frameworkConfig.args]. *)
Definition afterInstall (pkg : JSON) (l : Locals) : M RunPhase :=
  if negb (installExitCode l =? 0)%Z then
    emit [ OnError ("Dependency install failed (exit code " ++ JS.showZ (installExitCode l)
                    ++ "). Check terminal for details.");
           OnStatusChange error; Flush ] ;;;
    ret Stopped
  else
    emit [Print (nl ++ green "✓ Dependencies installed successfully!" ++ nl ++ nl); Flush] ;;;
    devScript <~ get findDevScript ;;
    match devScript with
    | None =>
        emit [OnError noScriptMessage; OnStatusChange error] ;;;
        ret Stopped
    | Some _ =>
        emit [OnStatusChange running] ;;;
        let frameworkConfig := detectFrameworkConfig pkg in
        let serverArgs := fc_args frameworkConfig in
        let serverEnv := fc_env frameworkConfig in
        emit [OnOutput (cyan ("➜ Running npm " ++ JS.join " " serverArgs
                              ++ showName (fc_name frameworkConfig) ++ "...") ++ nl ++ nl)] ;;;
        spawnServer serverArgs serverEnv ;;;
        ret Serving
    end.

(** The [try] block, up to and including the spawn. *)
Definition tryBlock : M RunPhase :=
  pkg <~ get (readJsonFile "package.json") ;;
  if Json.truthy pkg && hasGitSshDependencies pkg then
    emit [ OnStatusChange error; OnError gitSshMessage;
           Print (red "✗ Unsupported dependency source detected (git+ssh)." ++ nl); Flush ] ;;;
    ret Stopped
  else
    emit [OnStatusChange installing] ;;;
    hasPackageLock <~ get (fileExists "package-lock.json") ;;
    hasYarnLock <~ get (fileExists "yarn.lock") ;;
    hasPnpmLock <~ get (fileExists "pnpm-lock.yaml") ;;
    l <~ install hasPackageLock ;;
    afterInstall pkg l.

Definition thrownMessage (e : Thrown) : string :=
  match e with
  | ErrorObject message => message
  | OtherValue => "Unknown error occurred"
  end.

(** The block with its [catch]. *)
Definition mainFlow (c : box wc) : RunPhase * box wc * list Effect :=
  match tryBlock c with
  | (inr phase, c', es) => (phase, c', es)
  | (inl e, c', es) => (Stopped, c', es ++ [OnError (thrownMessage e); OnStatusChange error])
  end.

End StartDevServer.

(** *** Readiness: the signals of a run and their handlers *)

(** The two variables the handlers of one run share, and the 2-second (in
    the static path 500 ms) timers armed and not yet fired.
    [serverReadyTimeout] holds whether the long timer is pending. *)
Record Latch : Type := {
  serverReadyFired : bool;
  serverReadyTimeout : bool;
  graceTimers : nat
}.

Definition initialLatch : Latch :=
  {| serverReadyFired := false; serverReadyTimeout := false; graceTimers := 0 |}.

(** What can happen to a run: the container's "server-ready" event, a chunk
    of the server's output, a timer coming due, the server's exit. *)
Inductive Signal : Type :=
| ServerReadyEvent (port : Z) (url : string)
| OutputData (data : string)
| GraceTimerDue
| ReadyTimeoutDue
| ServerExit (code : Z).

Definition isLoopback (url : string) : bool :=
  JS.startsWith url "http://localhost" || JS.startsWith url "http://127.0.0.1".

Definition onPort (port : Z) : string :=
  if (port =? 0)%Z then "" else " on port " ++ JS.showZ port.

Definition fire (l : Latch) : Latch :=
  {| serverReadyFired := true; serverReadyTimeout := false; graceTimers := graceTimers l |}.

Definition clearTimeout (l : Latch) : Latch :=
  {| serverReadyFired := serverReadyFired l; serverReadyTimeout := false;
     graceTimers := graceTimers l |}.

Definition armTimeout (l : Latch) : Latch :=
  {| serverReadyFired := serverReadyFired l; serverReadyTimeout := true;
     graceTimers := graceTimers l |}.

Definition armGrace (l : Latch) : Latch :=
  {| serverReadyFired := serverReadyFired l; serverReadyTimeout := serverReadyTimeout l;
     graceTimers := S (graceTimers l) |}.

Definition graceDue (l : Latch) : Latch :=
  {| serverReadyFired := serverReadyFired l; serverReadyTimeout := serverReadyTimeout l;
     graceTimers := pred (graceTimers l) |}.

Module DevServer.

Definition handleServerReady (url : string) (port : Z) (l : Latch) : Latch * list Effect :=
  if serverReadyFired l then (l, [])
  else if isLoopback url then
    (l, [OnOutput (nl ++ yellow ("⚠ Detected localhost URL (" ++ url
                                 ++ ") - waiting for external URL...") ++ nl)])
  else
    (fire l,
     [ OnOutput (nl ++ green ("✓ Server ready" ++ onPort port) ++ nl);
       OnServerReady url;
       OnStatusChange ready ]).

Definition readyPatterns : list JS.RegExp :=
  [ JS.Seq (JS.Lit "localhost:") (JS.Plus JS.Digit);
    JS.Seq (JS.Lit "127.0.0.1:") (JS.Plus JS.Digit);
    JS.Seq (JS.Lit "listening on ") (JS.Seq (JS.Opt (JS.Lit "port ")) (JS.Plus JS.Digit));
    JS.Seq (JS.Lit "server ")
      (JS.Seq (JS.Opt (JS.Lit "is "))
         (JS.Alt (JS.Lit "running") (JS.Alt (JS.Lit "started") (JS.Lit "ready"))));
    JS.Seq (JS.Lit "ready in ") (JS.Plus JS.Digit);
    JS.Seq (JS.Lit "local:") (JS.Seq (JS.Plus JS.Space) (JS.Lit "http"));
    JS.Seq (JS.Lit "➜") (JS.Seq (JS.Plus JS.Space) (JS.Lit "local")) ].

(** The [write] of the server's output stream.  The port it extracts from
    the chunk is not used afterwards. *)
Definition write (data : string) (l : Latch) : Latch * list Effect :=
  ( (if negb (serverReadyFired l) && existsb (fun pattern => JS.test pattern data) readyPatterns
     then armGrace l else l),
    [Print data] ).

(** The callback of a 2-second timer. *)
Definition graceTimer (l : Latch) : Latch * list Effect :=
  ( graceDue l,
    if negb (serverReadyFired l) then
      [ Print (nl ++ yellow "⚠ Server appears ready but no external URL detected yet..." ++ nl);
        Print (yellow "  Waiting for WebContainer to expose the port..." ++ nl);
        Flush ]
    else [] ).

(** The callback of the 45-second timer. *)
Definition readyTimeout (l : Latch) : Latch * list Effect :=
  ( clearTimeout l,
    if negb (serverReadyFired l) then
      [ OnOutput (nl ++ yellow "⚠ Server is taking longer than expected to expose a URL..." ++ nl);
        OnOutput (yellow "  Try these in the terminal:" ++ nl);
        OnOutput (yellow "  • For Vite: npm run dev -- --host 0.0.0.0" ++ nl);
        OnOutput (yellow "  • For CRA: HOST=0.0.0.0 npm start" ++ nl);
        OnOutput (yellow "  • Check the terminal output above for errors." ++ nl) ]
    else [] ).

Definition exitMessage (code : Z) : string :=
  "Dev server exited with code " ++ JS.showZ code ++ ". Check terminal for details.".

(** The callback of [serverProcess.exit]. *)
Definition exit (code : Z) (l : Latch) : Latch * list Effect :=
  ( clearTimeout l,
    if negb (code =? 0)%Z && negb (serverReadyFired l)
    then [OnError (exitMessage code); OnStatusChange error]
    else [] ).

(** One signal.  The server's output, its exit and the timers exist only
    once the server is spawned ([serving]); a timer comes due only while
    it is pending. *)
Definition step (serving : bool) (l : Latch) (s : Signal) : Latch * list Effect :=
  match s with
  | ServerReadyEvent port url => handleServerReady url port l
  | OutputData data => if serving then write data l else (l, [])
  | GraceTimerDue => if (0 <? graceTimers l)%nat then graceTimer l else (l, [])
  | ReadyTimeoutDue => if serverReadyTimeout l then readyTimeout l else (l, [])
  | ServerExit code => if serving then exit code l else (l, [])
  end.

Fixpoint steps (serving : bool) (l : Latch) (ss : list Signal) : Latch * list Effect :=
  match ss with
  | [] => (l, [])
  | s :: rest =>
      let '(l1, e1) := step serving l s in
      let '(l2, e2) := steps serving l1 rest in
      (l2, e1 ++ e2)
  end.

(** A run of [startDevServer]: the listener is registered first, so
    "server-ready" events can arrive while the [try] block is at an
    [await]; the block neither reads nor writes the latch, and the events
    that arrive before it ends are listed first.  The block arms the long
    timer when it ends after the spawn, and its [catch] clears it. *)
Definition startDevServer (JSON_parse : string -> option JSON) (wc : WebContainer) (c : box wc)
           (early : list (Z * string)) (late : list Signal) : Latch * list Effect :=
  let '(l1, e1) := steps false initialLatch (map (fun pu => ServerReadyEvent (fst pu) (snd pu)) early) in
  let '(phase, _, e2) := mainFlow JSON_parse wc c in
  match phase with
  | Serving =>
      let '(l3, e3) := steps true (armTimeout l1) late in
      (l3, e1 ++ e2 ++ e3)
  | Stopped =>
      let '(l3, e3) := steps false (clearTimeout l1) late in
      (l3, e1 ++ e2 ++ e3)
  end.

End DevServer.

Module StaticSite.

(** [handleServerReady] of [serveStaticSite] *)
Definition handleServerReady (url : string) (port : Z) (l : Latch) : Latch * list Effect :=
  if serverReadyFired l then (l, [])
  else
    (fire l,
     [ OnOutput (nl ++ green ("✓ Static server ready" ++ onPort port) ++ nl);
       OnServerReady url;
       OnStatusChange ready ]).

(** [/available on|listening/i] *)
Definition readyPattern : JS.RegExp :=
  JS.Alt (JS.Lit "available on") (JS.Lit "listening").

Definition write (data : string) (l : Latch) : Latch * list Effect :=
  ( (if negb (serverReadyFired l) && JS.test readyPattern data then armGrace l else l),
    [OnOutput data] ).

(** The callback of a 500 ms timer. *)
Definition graceTimer (l : Latch) : Latch * list Effect :=
  if negb (serverReadyFired l)
  then handleServerReady "http://localhost:3000" 3000 (graceDue l)
  else (graceDue l, []).

(** The callback of the 30-second timer. *)
Definition readyTimeout (l : Latch) : Latch * list Effect :=
  ( clearTimeout l,
    if negb (serverReadyFired l)
    then [OnOutput (nl ++ yellow "⚠ Static server taking longer than expected..." ++ nl)]
    else [] ).

Definition exitMessage (code : Z) : string :=
  "Static server exited with code " ++ JS.showZ code ++ ".".

Definition exit (code : Z) (l : Latch) : Latch * list Effect :=
  ( clearTimeout l,
    if negb (code =? 0)%Z && negb (serverReadyFired l)
    then [OnError (exitMessage code); OnStatusChange error]
    else [] ).

(** One signal after the spawn of the static server: the listener, the
    output stream, the exit callback and the timers are all set up then. *)
Definition step (l : Latch) (s : Signal) : Latch * list Effect :=
  match s with
  | ServerReadyEvent port url => handleServerReady url port l
  | OutputData data => write data l
  | GraceTimerDue => if (0 <? graceTimers l)%nat then graceTimer l else (l, [])
  | ReadyTimeoutDue => if serverReadyTimeout l then readyTimeout l else (l, [])
  | ServerExit code => exit code l
  end.

Fixpoint steps (l : Latch) (ss : list Signal) : Latch * list Effect :=
  match ss with
  | [] => (l, [])
  | s :: rest =>
      let '(l1, e1) := step l s in
      let '(l2, e2) := steps l1 rest in
      (l2, e1 ++ e2)
  end.

(** The run of [serveStaticSite] from the spawn of its server on. *)
Definition serveStaticSite (ss : list Signal) : Latch * list Effect :=
  steps (armTimeout initialLatch) ss.

End StaticSite.

(** *** Teardown *)

(** The module-level variables of the session; a handle is a number. *)
Record Session : Type := {
  webcontainerInstance : option nat;
  bootPromise : option nat;
  shellProcess : option nat;
  shellWriter : option nat;
  shellOutputCallback : option nat
}.

(** [bootWebContainer] up to its first [await]: with no instance and no
    boot under way it stores the promise of the boot it starts. *)
Definition bootWebContainer_begin (promise : nat) (s : Session) : Session :=
  match webcontainerInstance s, bootPromise s with
  | None, None =>
      {| webcontainerInstance := None; bootPromise := Some promise;
         shellProcess := shellProcess s; shellWriter := shellWriter s;
         shellOutputCallback := shellOutputCallback s |}
  | _, _ => s
  end.

(** The calls teardown makes on its collaborators. *)
Inductive TeardownCall : Type :=
| CloseWriter (writer : nat)
| TeardownContainer (instance : nat).

(** [shellWriter.close()] is inside a [try]; [webcontainerInstance.teardown()]
    is the container's and returns. *)
Definition teardownWebContainer (s : Session) : Session * list TeardownCall :=
  let calls1 :=
    match shellWriter s with
    | Some w => [CloseWriter w]
    | None => []
    end in
  match webcontainerInstance s with
  | Some i =>
      ( {| webcontainerInstance := None; bootPromise := None; shellProcess := None;
           shellWriter := None; shellOutputCallback := None |},
        calls1 ++ [TeardownContainer i] )
  | None =>
      ( {| webcontainerInstance := None; bootPromise := bootPromise s; shellProcess := None;
           shellWriter := None; shellOutputCallback := None |},
        calls1 )
  end.

(** *** Buffered output ([createBufferedOutput]) *)

Module BufferedOutput.

(** The text written and not yet delivered, and whether the timer of the
    next flush is pending. *)
Record State : Type := {
  buffer : string;
  timer : bool
}.

Definition initial : State := {| buffer := ""; timer := false |}.

(** [flush()], with the calls it makes to [onOutput]. *)
Definition flush (s : State) : State * list string :=
  if String.eqb (buffer s) "" then ({| buffer := buffer s; timer := false |}, [])
  else ({| buffer := ""; timer := false |}, [buffer s]).

(** [write(chunk)]: the timer is set unless one is pending. *)
Definition write (chunk : string) (s : State) : State :=
  {| buffer := buffer s ++ chunk; timer := true |}.

(** What happens to a buffer: a call of [write], a call of [flush], and
    its timer coming due, which calls [flush]. *)
Inductive Call : Type :=
| Write (chunk : string)
| FlushNow
| TimerDue.

Definition step (s : State) (call : Call) : State * list string :=
  match call with
  | Write chunk => (write chunk s, [])
  | FlushNow => flush s
  | TimerDue => if timer s then flush s else (s, [])
  end.

Fixpoint steps (s : State) (calls : list Call) : State * list string :=
  match calls with
  | [] => (s, [])
  | call :: rest =>
      let '(s1, out1) := step s call in
      let '(s2, out2) := steps s1 rest in
      (s2, out1 ++ out2)
  end.

End BufferedOutput.

(** *** Booting the container ([bootWebContainer]) *)

(** How one race of [WebContainer.boot] against its 60-second timer ends:
    with a container, or with what the boot or the timer rejects with. *)
Inductive BootResult : Type :=
| Booted (container : nat)
| BootFailed (e : Thrown).

(** The rejection of the 60-second timer, and the error [attemptBoot]
    throws whatever the failure was. *)
Definition bootTimeout : Thrown := ErrorObject "Boot timed out".

Definition bootError : Thrown :=
  ErrorObject "Boot timed out. Please reload or check if your browser supports WebContainers (Chrome/Edge required).".

(** [error instanceof Error && error.message.includes("timed out")] *)
Definition timedOutError (e : Thrown) : bool :=
  match e with
  | ErrorObject message => JS.includes message "timed out"
  | OtherValue => false
  end.

(** [attemptBoot(attempt)], where [boot n] is how the race of attempt [n]
    ends.  The recursion is on [fuel]; three units are enough. *)
Fixpoint attemptBoot (boot : nat -> BootResult) (fuel attempt : nat) : option (Thrown + nat) :=
  match fuel with
  | O => None
  | S fuel' =>
      match boot attempt with
      | Booted container => Some (inr container)
      | BootFailed e =>
          if (attempt <? 3)%nat && timedOutError e
          then attemptBoot boot fuel' (S attempt)
          else Some (inl bootError)
      end
  end.

(** What a call of [bootWebContainer] does before its first [await]. *)
Inductive BootCall : Type :=
| ReturnsInstance (instance : nat)
| ReturnsPending (promise : nat)
| StartsBoot (promise : nat).

Definition bootWebContainer (promise : nat) (s : Session) : BootCall * Session :=
  match webcontainerInstance s with
  | Some instance => (ReturnsInstance instance, s)
  | None =>
      match bootPromise s with
      | Some pending => (ReturnsPending pending, s)
      | None => (StartsBoot promise, bootWebContainer_begin promise s)
      end
  end.

(** The call that started the boot, from its [await] on: it stores the
    container, or clears the promise and throws. *)
Definition bootSettled (result : Thrown + nat) (s : Session) : Session :=
  match result with
  | inr container =>
      {| webcontainerInstance := Some container; bootPromise := bootPromise s;
         shellProcess := shellProcess s; shellWriter := shellWriter s;
         shellOutputCallback := shellOutputCallback s |}
  | inl _ =>
      {| webcontainerInstance := webcontainerInstance s; bootPromise := None;
         shellProcess := shellProcess s; shellWriter := shellWriter s;
         shellOutputCallback := shellOutputCallback s |}
  end.

(** *** The interactive shell *)

(** What a call of [startShell] does before its [await]: it returns
    [false] without a container, [true] on a running shell, and otherwise
    spawns [jsh] in the container. *)
Inductive ShellCall : Type :=
| NoContainer
| AlreadyRunning
| SpawnsShell (instance : nat).

Definition setCallback (onOutput : nat) (s : Session) : Session :=
  {| webcontainerInstance := webcontainerInstance s; bootPromise := bootPromise s;
     shellProcess := shellProcess s; shellWriter := shellWriter s;
     shellOutputCallback := Some onOutput |}.

Definition startShell (onOutput : nat) (s : Session) : ShellCall * Session :=
  match webcontainerInstance s with
  | None => (NoContainer, s)
  | Some instance =>
      match shellProcess s, shellWriter s with
      | Some _, Some _ => (AlreadyRunning, setCallback onOutput s)
      | _, _ => (SpawnsShell instance, setCallback onOutput s)
      end
  end.

(** [startShell] from its [await] on, when the spawn gave a process: the
    process and the writer of its input are stored, and the call returns
    [true].  (When the spawn rejects nothing is stored and the call
    returns [false].) *)
Definition shellSpawned (process writer : nat) (s : Session) : Session :=
  {| webcontainerInstance := webcontainerInstance s; bootPromise := bootPromise s;
     shellProcess := Some process; shellWriter := Some writer;
     shellOutputCallback := shellOutputCallback s |}.

(** The same when [getWriter()] throws: the process is stored already, the
    [catch] resets nothing, and the call returns [false]. *)
Definition shellWriterFailed (process : nat) (s : Session) : Session :=
  {| webcontainerInstance := webcontainerInstance s; bootPromise := bootPromise s;
     shellProcess := Some process; shellWriter := shellWriter s;
     shellOutputCallback := shellOutputCallback s |}.

(** The callback of [shellProcess.exit]. *)
Definition shellExited (s : Session) : Session :=
  {| webcontainerInstance := webcontainerInstance s; bootPromise := bootPromise s;
     shellProcess := None; shellWriter := None;
     shellOutputCallback := shellOutputCallback s |}.

Definition isShellActive (s : Session) : bool :=
  match shellProcess s, shellWriter s with
  | Some _, Some _ => true
  | _, _ => false
  end.

(** [writeToShell(data)]: the writes it makes, each on a writer. *)
Definition writeToShell (data : string) (s : Session) : list (nat * string) :=
  match shellWriter s with
  | Some writer => [(writer, data)]
  | None => []
  end.

(** [resizeShell(cols, rows)]: the resizes it asks of a process. *)
Definition resizeShell (cols rows : Z) (s : Session) : list (nat * (Z * Z)) :=
  match shellProcess s with
  | Some process => [(process, (cols, rows))]
  | None => []
  end.

Definition getWebContainerInstance (s : Session) : option nat := webcontainerInstance s.

(** *** The session over time *)

(** What can happen to the session, one at a time: JavaScript runs each
    of them to its end, or to its next [await], before the next. *)
Inductive SessionEvent : Type :=
| CallsBoot (promise : nat)
| BootSettles (result : Thrown + nat)
| TearsDown
| CallsShell (onOutput : nat)
| ShellSpawns (process writer : nat)
| ShellWriterFails (process : nat)
| ShellExits.

(** The session with the boots started and not yet settled, and the
    shell spawns asked for and not yet answered. *)
Record Tracked : Type := {
  session : Session;
  bootsInFlight : nat;
  shellsSpawning : nat
}.

Definition freshSession : Tracked :=
  {| session := {| webcontainerInstance := None; bootPromise := None; shellProcess := None;
                   shellWriter := None; shellOutputCallback := None |};
     bootsInFlight := 0; shellsSpawning := 0 |}.

Definition happens (t : Tracked) (e : SessionEvent) : Tracked :=
  match e with
  | CallsBoot promise =>
      let '(call, s) := bootWebContainer promise (session t) in
      {| session := s;
         bootsInFlight := match call with
                          | StartsBoot _ => S (bootsInFlight t)
                          | _ => bootsInFlight t
                          end;
         shellsSpawning := shellsSpawning t |}
  | BootSettles result =>
      match bootsInFlight t with
      | S n => {| session := bootSettled result (session t); bootsInFlight := n;
                  shellsSpawning := shellsSpawning t |}
      | O => t
      end
  | TearsDown =>
      {| session := fst (teardownWebContainer (session t));
         bootsInFlight := bootsInFlight t; shellsSpawning := shellsSpawning t |}
  | CallsShell onOutput =>
      let '(call, s) := startShell onOutput (session t) in
      {| session := s; bootsInFlight := bootsInFlight t;
         shellsSpawning := match call with
                           | SpawnsShell _ => S (shellsSpawning t)
                           | _ => shellsSpawning t
                           end |}
  | ShellSpawns process writer =>
      match shellsSpawning t with
      | S n => {| session := shellSpawned process writer (session t);
                  bootsInFlight := bootsInFlight t; shellsSpawning := n |}
      | O => t
      end
  | ShellWriterFails process =>
      match shellsSpawning t with
      | S n => {| session := shellWriterFailed process (session t);
                  bootsInFlight := bootsInFlight t; shellsSpawning := n |}
      | O => t
      end
  | ShellExits =>
      {| session := shellExited (session t);
         bootsInFlight := bootsInFlight t; shellsSpawning := shellsSpawning t |}
  end.

Definition sessionAfter (events : list SessionEvent) : Tracked := fold_left happens events freshSession.

(** *** The directories of a static site ([findStaticRoot], [serveStaticSite]) *)

Section StaticDirectories.

(** [container.spawn("test", args)] and the exit code of the process it
    gives; [None] when the spawn rejects.  The files of the container do
    not change while the directories are probed. *)
Variable test : list string -> option Z.

(** [await result.exit === 0], inside the [try] whose [catch] goes on to
    the next directory. *)
Definition testOk (args : list string) : bool :=
  match test args with
  | Some code => (code =? 0)%Z
  | None => false
  end.

Definition possibleRoots : list string :=
  ["public"; "dist"; "build"; "docs"; "www"; "static"; "."].

(** One turn of the loop of [findStaticRoot]: the directory is returned. *)
Definition hasIndex (dir : string) : bool :=
  if String.eqb dir "." then testOk ["-f"; "index.html"]
  else testOk ["-d"; dir] && testOk ["-f"; (dir ++ "/index.html")%string].

Definition findStaticRoot : string :=
  match find hasIndex possibleRoots with
  | Some dir => dir
  | None => "."
  end.

Definition possibleDirs : list string :=
  [ "."; "public"; "dist"; "build"; "static"; "assets"; "www"; "docs" ].

Definition existingDirs : list string :=
  filter (fun dir => testOk ["-d"; dir]) possibleDirs.

Definition orderedDirs : list string :=
  findStaticRoot :: filter (fun d => negb (String.eqb d findStaticRoot)) existingDirs.

(** [[...new Set(l)]]: the first occurrence of each element, in order. *)
Fixpoint distinct (seen l : list string) : list string :=
  match l with
  | [] => []
  | x :: rest => if has seen x then distinct seen rest else x :: distinct (x :: seen) rest
  end.

Definition uniqueDirs : list string := distinct [] orderedDirs.

End StaticDirectories.

(** *** The whole workflow ([runFullWorkflow]) *)

(** [countFilesInTree]: a tree lists each name once, as the object it
    stands for does. *)
Fixpoint countFilesInNode (node : FsNode) : nat :=
  match node with
  | FileNode _ => 1
  | DirectoryNode directory =>
      (fix count (entries : list (string * FsNode)) : nat :=
         match entries with
         | [] => 0
         | (_, child) :: rest => countFilesInNode child + count rest
         end) directory
  end.

Definition countFilesInTree (tree : FileSystemTree) : nat :=
  countFilesInNode (DirectoryNode tree).

(** How [container.mount(files)] fares against the 60-second timer of
    [mountFiles], and what [mountFiles] throws. *)
Inductive MountOutcome : Type :=
| Mounted
| MountRejected (e : Thrown)
| MountTimedOut.

Definition mountFiles (o : MountOutcome) : option Thrown :=
  match o with
  | Mounted => None
  | MountRejected e => Some e
  | MountTimedOut =>
      Some (ErrorObject "Mounting files timed out after 60s. The repository may be too large.")
  end.

(** What the host decides in a run: how [bootWebContainer] and the mount
    end, the two durations as [toFixed(1)] prints them, and what
    [serveStaticSite] does (it catches what it throws). *)
Record Host : Type := {
  booted : Thrown + nat;
  bootDuration : string;
  mounted : MountOutcome;
  mountDuration : string;
  staticRun : list Effect
}.

(** The [catch] of the branch for projects that are browsed only. *)
Definition browseCaught (e : Thrown) : list Effect :=
  [ OnError (match e with ErrorObject message => message | OtherValue => "Unknown error" end);
    OnStatusChange error ].

(** The [catch] of the branch for projects that run. *)
Definition workflowCaught (e : Thrown) : list Effect :=
  let message := thrownMessage e in
  [ OnError
      (if JS.includes message "SharedArrayBuffer" then
         "WebContainers require Cross-Origin-Isolation headers. Please ensure the server is configured correctly."
       else if JS.includes message "boot" then
         "Failed to boot WebContainer. This feature requires a modern browser with WebAssembly support."
       else if JS.includes message "timed out" && JS.includes message "Mount" then
         "Mounting files timed out. Try a smaller repository or check your connection."
       else message);
    OnStatusChange error ].

Definition runFullWorkflow (JSON_parse : string -> option JSON) (wc : WebContainer) (c : box wc)
           (early : list (Z * string)) (late : list Signal)
           (host : Host) (files : FileSystemTree) (projectType : ProjectType) : list Effect :=
  let fileCount := countFilesInTree files in
  if negb (isNodejs projectType) && negb (isStatic projectType) then
    [ OnStatusChange booting;
      OnOutput (cyan "➜ Booting WebContainer for code browsing..." ++ nl ++ nl) ]
    ++ match booted host with
       | inl e => browseCaught e
       | inr _ =>
           [ OnOutput (green "✓ WebContainer booted!" ++ nl ++ nl);
             OnStatusChange mounting;
             OnOutput (cyan ("➜ Mounting " ++ JS.showNat fileCount ++ " files...") ++ nl) ]
           ++ match mountFiles (mounted host) with
              | Some e => browseCaught e
              | None =>
                  [ OnOutput (green ("✓ Files mounted in " ++ mountDuration host ++ "s!")
                              ++ nl ++ nl);
                    OnOutput (yellow "⚠ This project type cannot be executed in the browser." ++ nl);
                    OnOutput (yellow "  Code browsing is available in the file tree." ++ nl);
                    OnStatusChange ready ]
              end
       end
  else
    [ OnStatusChange booting;
      OnOutput (cyan "➜ Booting WebContainer..." ++ nl);
      OnOutput (yellow "  (This requires Cross-Origin-Isolation headers)" ++ nl ++ nl) ]
    ++ match booted host with
       | inl e => workflowCaught e
       | inr _ =>
           [ OnOutput (green ("✓ WebContainer booted in " ++ bootDuration host ++ "s!")
                       ++ nl ++ nl);
             OnStatusChange mounting;
             OnOutput (cyan ("➜ Mounting " ++ JS.showNat fileCount
                             ++ " files to virtual filesystem...") ++ nl) ]
           ++ (if (200 <? fileCount)%nat
               then [OnOutput (yellow "  Large repository detected - this may take a moment..." ++ nl)]
               else [])
           ++ match mountFiles (mounted host) with
              | Some e => workflowCaught e
              | None =>
                  [ OnOutput (green ("✓ Files mounted in " ++ mountDuration host ++ "s!")
                              ++ nl ++ nl) ]
                  ++ (if isStatic projectType then staticRun host
                      else snd (DevServer.startDevServer JSON_parse wc c early late))
              end
       end.

(** ** The project type ([projectDetection.ts]) *)

Module ProjectDetection.

(** [s.endsWith(suffix)] *)
Definition endsWith (s suffix : string) : bool :=
  String.prefix (JS.rev "" suffix) (JS.rev "" s).

(** [s.toLowerCase()] as far as the tests made on its result can tell: the
    ASCII letters are folded.  (The tests look for ASCII texts, none of
    which has a [k] or ends in [i], the two ASCII letters that the
    lowering of a character outside ASCII can give.) *)
Fixpoint toLowerCase (s : string) : string :=
  match s with
  | EmptyString => EmptyString
  | String c t => String (JS.lowerChar c) (toLowerCase t)
  end.

Inductive GitHubFileType : Type :=
| blob
| tree.

Record GitHubFile : Type := {
  path : string;
  mode : string;
  type : GitHubFileType;
  sha : string;
  size : option Z;
  url : string
}.

Record ProjectInfo : Type := {
  pi_type : ProjectType;
  label : string;
  pi_canRun : bool;
  description : string;
  needsBackend : option bool;
  backendHint : option string
}.

(** [PROJECT_TYPE_INFO[type]], with the type *)
Definition getProjectTypeInfo (t : ProjectType) : ProjectInfo :=
  let info label canRun description :=
    {| pi_type := t; label := label; pi_canRun := canRun; description := description;
       needsBackend := None; backendHint := None |} in
  match t with
  | nodejs => info "Node.js" true "Full execution with npm install and dev server"
  | static => info "Static Site" true "Served via built-in static file server"
  | python =>
      info "Python" true
           "Runs in browser via Pyodide (WebAssembly) - some packages may not work"
  | rust => info "Rust" false "Code browsing only - Rust runtime not supported in browser"
  | go => info "Go" false "Code browsing only - Go runtime not supported in browser"
  | java => info "Java" false "Code browsing only - Java/JVM runtime not supported in browser"
  | php => info "PHP" false "Code browsing only - PHP runtime not supported in browser"
  | ruby => info "Ruby" false "Code browsing only - Ruby runtime not supported in browser"
  | dotnet => info ".NET" false "Code browsing only - .NET runtime not supported in browser"
  | other => info "Repository" false "Code browsing only"
  end.

(** [detectBackendRequirements]: the two optional properties it returns. *)
Definition detectBackendRequirements (files : list GitHubFile) : option bool * option string :=
  let filePaths := map (fun f => toLowerCase (path f)) files in
  let envFiles :=
    filter (fun f =>
              JS.includes f ".env"
              && negb (endsWith f ".env")
              && (endsWith f ".example" || endsWith f ".sample"
                  || endsWith f ".template" || endsWith f ".local"))
           filePaths in
  if (0 <? length envFiles)%nat then
    ( Some true,
      Some "This project may need API configuration. Check .env files for required settings." )
  else
    let hasApiConfig :=
      existsb (fun f =>
                 JS.includes f "/api/" || JS.includes f "/services/"
                 || JS.includes f "apiconfig" || JS.includes f "api.js"
                 || JS.includes f "api.ts" || JS.includes f "apiservice")
              filePaths in
    let hasHttpClient :=
      existsb (fun f =>
                 JS.includes f "axios" || JS.includes f "httpservice"
                 || JS.includes f "httpclient")
              filePaths in
    if hasApiConfig || hasHttpClient then
      ( Some true,
        Some "This frontend may require a backend API to display content. If blank, the API may be unavailable." )
    else (None, None).

Definition detectProjectType (files : list GitHubFile) : ProjectInfo :=
  let filePaths := map path files in
  let some suffix := existsb (fun f => endsWith (path f) suffix) files in
  if has filePaths "package.json" then
    let backendInfo := detectBackendRequirements files in
    {| pi_type := nodejs;
       label := label (getProjectTypeInfo nodejs);
       pi_canRun := pi_canRun (getProjectTypeInfo nodejs);
       description := description (getProjectTypeInfo nodejs);
       needsBackend := fst backendInfo;
       backendHint := snd backendInfo |}
  else if has filePaths "pom.xml" || has filePaths "build.gradle"
          || has filePaths "build.gradle.kts" || has filePaths "settings.gradle"
          || has filePaths "settings.gradle.kts" || some ".java"
  then getProjectTypeInfo java
  else if some ".csproj" || some ".sln" || some ".fsproj" then getProjectTypeInfo dotnet
  else if has filePaths "requirements.txt" || has filePaths "setup.py"
          || has filePaths "pyproject.toml" || has filePaths "Pipfile"
  then getProjectTypeInfo python
  else if has filePaths "Cargo.toml" then getProjectTypeInfo rust
  else if has filePaths "go.mod" then getProjectTypeInfo go
  else if has filePaths "composer.json" || some ".php" then getProjectTypeInfo php
  else if has filePaths "Gemfile" || has filePaths "Rakefile" || some ".rb"
  then getProjectTypeInfo ruby
  else if some ".html" then getProjectTypeInfo static
  else getProjectTypeInfo other.

End ProjectDetection.

(** ** Concrete manifests and containers *)

Module Examples.

Definition quoted (s : string) : string :=
  String (ascii_of_nat 34) s ++ String (ascii_of_nat 34) "".

Definition member (key text : string) : string := quoted key ++ ":" ++ text.

Definition object (members : list string) : string := "{" ++ JS.join "," members ++ "}".

(** The manifests of the examples: the text of each [package.json] and the
    value [JSON.parse] gives for it. *)
Definition svnManifest : string * JSON :=
  ( object [member "dependencies"
              (object [member "legacy-lib" (quoted "svn+ssh://svn.example.com/repo/trunk")])],
    JObj [("dependencies", JObj [("legacy-lib", JStr "svn+ssh://svn.example.com/repo/trunk")])] ).

Definition leftpadManifest : string * JSON :=
  ( object [member "dependencies"
              (object [member "leftpad" (quoted "git+ssh://git@github.com/x/y.git")])],
    JObj [("dependencies", JObj [("leftpad", JStr "git+ssh://git@github.com/x/y.git")])] ).

Definition numericEngineManifest : string * JSON :=
  ( object [member "engines" (object [member "node" "18"])],
    JObj [("engines", JObj [("node", JNum 18%float)])] ).

Definition numericVersionManifest : string * JSON :=
  ( object [member "dependencies" (object [member "left-pad" "1"])],
    JObj [("dependencies", JObj [("left-pad", JNum 1%float)])] ).

Definition watchManifest : string * JSON :=
  ( object [member "scripts" (object [member "watch" (quoted "tsc -w")])],
    JObj [("scripts", JObj [("watch", JStr "tsc -w")])] ).

Definition expressManifest : string * JSON :=
  ( object [member "dependencies" (object [member "express" (quoted "^4.18.2")])],
    JObj [("dependencies", JObj [("express", JStr "^4.18.2")])] ).

Definition viteManifest : string * JSON :=
  ( object [member "dependencies" (object [member "vite" (quoted "^5.0.0")]);
            member "scripts" (object [member "dev" (quoted "vite")])],
    JObj [("dependencies", JObj [("vite", JStr "^5.0.0")]);
          ("scripts", JObj [("dev", JStr "vite")])] ).

Definition bareManifest : string * JSON :=
  ( object [member "name" (quoted "app")],
    JObj [("name", JStr "app")] ).

Definition upperBoundManifest : string * JSON :=
  ( object [member "engines" (object [member "node" (quoted "<16")]);
            member "scripts" (object [member "dev" (quoted "node index.js")])],
    JObj [("engines", JObj [("node", JStr "<16")]);
          ("scripts", JObj [("dev", JStr "node index.js")])] ).

Definition fourPartManifest : string * JSON :=
  ( object [member "engines" (object [member "node" (quoted "20.1.2.3")]);
            member "scripts" (object [member "dev" (quoted "node index.js")])],
    JObj [("engines", JObj [("node", JStr "20.1.2.3")]);
          ("scripts", JObj [("dev", JStr "node index.js")])] ).

Definition manifests : list (string * JSON) :=
  [ svnManifest; leftpadManifest; numericEngineManifest; numericVersionManifest;
    watchManifest; expressManifest; viteManifest; bareManifest;
    upperBoundManifest; fourPartManifest ].

(** [JSON.parse] on the texts above; any other text of the examples is
    malformed. *)
Definition JSON_parse (text : string) : option JSON := Json.lookup text manifests.

(** The tree that holds one manifest and nothing else. *)
Definition treeOf (manifest : string * JSON) : FileSystemTree :=
  [("package.json", FileNode (fst manifest))].

(** A container whose files do not change and whose install commands end as
    a script says, one outcome for each command run (an exit with code 0
    and no output once the script is used up); its spawn succeeds. *)
Record Scripted : Type := {
  files : list (string * string);
  outcomes : list Outcome
}.

Definition scripted : WebContainer :=
  {| box := Scripted;
     readFile := fun c path => Json.lookup path (files c);
     runNpm := fun c _ =>
       match outcomes c with
       | o :: rest => (o, {| files := files c; outcomes := rest |})
       | [] => (Exited 0 [], c)
       end;
     spawnNpm := fun c _ _ => (None, c) |}.

Definition boxOf (manifest : string * JSON) (os : list Outcome) : Scripted :=
  {| files := [("package.json", fst manifest)]; outcomes := os |}.

End Examples.

(** ** Notions the statements use *)

Definition isString (v : JSON) : bool :=
  match v with
  | JStr _ => true
  | _ => false
  end.

(** The entries the inner loop of [analyzeDependencies] visits in one
    section, and in the three sections in turn. *)
Definition sectionEntries (pkg : JSON) (section : string) : list (string * JSON) :=
  match Json.prop pkg section with
  | Some deps => if Json.truthy deps then Json.ownEntries deps else []
  | None => []
  end.

Definition allEntries (pkg : JSON) : list (string * JSON) :=
  flat_map (sectionEntries pkg) sections.

(** An entry whose version is a string the checker's test accepts. *)
Definition offending (entry : string * JSON) : bool :=
  match snd entry with
  | JStr v => isGitSsh v
  | _ => false
  end.

(** The manifest declares package [name] at version string [version] in
    one of the three dependency sections. *)
Definition declares (pkg : JSON) (name version : string) : Prop :=
  exists section deps,
    In section sections
    /\ Json.prop pkg section = Some deps
    /\ In (name, JStr version) (Json.ownEntries deps).

(** The manifest has the types the checker's casts take for granted: every
    declared version is a string, and [engines.node], when it is set to a
    truthy value, is a string. *)
Definition typedManifest (pkg : JSON) : bool :=
  forallb (fun entry => isString (snd entry)) (allEntries pkg)
  && match Json.prop' (Json.prop pkg "engines") "node" with
     | Some v => isString v || negb (Json.truthy v)
     | None => true
     end.

(** One report extends another in its warnings and is the same in what
    decides whether the project can run. *)
Definition addsWarningsOnly (r r' : CompatibilityReport) : Prop :=
  canRun r' = canRun r
  /\ issues r' = issues r
  /\ suggestions r' = suggestions r
  /\ hasNativeDeps r' = hasNativeDeps r
  /\ hasGitSshDeps r' = hasGitSshDeps r
  /\ frameworkDetected r' = frameworkDetected r
  /\ exists ws, warnings r' = warnings r ++ ws.

(** The warnings of the blocks after the version block. *)
Definition laterWarning (w : string) : Prop :=
  String.prefix "Native packages detected: " w = true
  \/ w = "No scripts in package.json"
  \/ w = "No dev/start script found".

(** [N]: one or more digits. *)
Fixpoint digits (d : string) : bool :=
  match d with
  | EmptyString => true
  | String c t => JS.isDigit c && digits t
  end.

Definition number (d : string) : bool :=
  negb (String.eqb d "") && digits d.

(** [v?] *)
Definition optV (v : bool) : string := if v then "v" else "".

Definition startsWithDigit (s : string) : bool :=
  match s with
  | String c _ => JS.isDigit c
  | EmptyString => false
  end.

(** The exact pattern in the words of the specification, [v?N(.N)*]: the
    major version it records, with any number of [.N] groups after it. *)
Fixpoint dotGroups (fuel : nat) (s : string) : bool :=
  match s with
  | EmptyString => true
  | String c t =>
      match fuel with
      | O => false
      | S fuel' =>
          Ascii.eqb c "."
          && match JS.takeDigits t with
             | (EmptyString, _) => false
             | (_, r) => dotGroups fuel' r
             end
      end
  end.

Definition specExact (version : string) : option JS.Number :=
  match JS.takeDigits (JS.optional "v" version) with
  | (EmptyString, _) => None
  | (d, r) => if dotGroups (String.length r) r then Some (JS.parseInt d) else None
  end.

(** The install commands a run made, in order, each with how it ended. *)
Fixpoint attempts (es : list Effect) : list (list string * Outcome) :=
  match es with
  | [] => []
  | Ran args outcome :: rest => (args, outcome) :: attempts rest
  | _ :: rest => attempts rest
  end.

(** The fallback ladder in the words of the specification: five rungs, and
    for each attempt the rung that comes after it, if any. *)
Inductive Rung : Type :=
| NpmCi
| NpmInstall
| LegacyPeerDeps
| Force
| IgnoreScripts.

Definition rungArgs (rung : Rung) : list string :=
  match rung with
  | NpmCi => ["ci"; "--no-audit"; "--no-fund"]
  | NpmInstall => ["install"; "--no-audit"; "--no-fund"]
  | LegacyPeerDeps => ["install"; "--legacy-peer-deps"; "--no-audit"; "--no-fund"]
  | Force => ["install"; "--force"; "--no-audit"; "--no-fund"]
  | IgnoreScripts => ["install"; "--ignore-scripts"; "--legacy-peer-deps"; "--no-audit"; "--no-fund"]
  end.

Definition rank (rung : Rung) : nat :=
  match rung with
  | NpmCi => 1
  | NpmInstall => 2
  | LegacyPeerDeps => 3
  | Force => 4
  | IgnoreScripts => 5
  end.

(** The rung after [previous] ([None]: nothing was attempted yet).  A later
    rung is tried only after an exit with a code other than zero, and the
    text that is classified is what was captured while the attempt just
    made ran. *)
Definition nextRung (hasPackageLock : bool) (previous : option (Rung * Outcome)) : option Rung :=
  match previous with
  | None => Some (if hasPackageLock then NpmCi else NpmInstall)
  | Some (rung, Exited code output) =>
      if (code =? 0)%Z then None
      else
        match rung with
        | NpmCi => Some NpmInstall
        | NpmInstall => Some (if hasPeerDepError (captured output) then LegacyPeerDeps else Force)
        | LegacyPeerDeps => Some Force
        | Force => if hasPostInstallError (captured output) then Some IgnoreScripts else None
        | IgnoreScripts => None
        end
  | Some (_, TimedOut _) => None
  | Some (_, SpawnRejected _) => None
  end.

(** The attempts [log] are those of the ladder, from [previous] on. *)
Fixpoint follows (hasPackageLock : bool) (previous : option (Rung * Outcome))
         (log : list (list string * Outcome)) : Prop :=
  match log with
  | [] => nextRung hasPackageLock previous = None
  | (args, outcome) :: rest =>
      exists rung,
        nextRung hasPackageLock previous = Some rung
        /\ args = rungArgs rung
        /\ follows hasPackageLock (Some (rung, outcome)) rest
  end.

(** The container after the commands of [log], run one after the other
    from [c]. *)
Fixpoint boxAfter (wc : WebContainer) (c : box wc) (log : list (list string * Outcome)) : box wc :=
  match log with
  | [] => c
  | (args, _) :: rest => boxAfter wc (snd (runNpm wc c args)) rest
  end.

(** The attempts [log] are commands run in the container one after the
    other from [c], each with the outcome the container gives it. *)
Fixpoint played (wc : WebContainer) (c : box wc) (log : list (list string * Outcome)) : Prop :=
  match log with
  | [] => True
  | (args, outcome) :: rest =>
      fst (runNpm wc c args) = outcome /\ played wc (snd (runNpm wc c args)) rest
  end.

(** Every run of the step [m] runs its install commands in the container
    and does nothing else to it. *)
Definition Plays {A : Type} (wc : WebContainer) (m : M wc A) : Prop :=
  forall c,
    played wc c (attempts (snd (m c)))
    /\ snd (fst (m c)) = boxAfter wc c (attempts (snd (m c))).

(** The effects of a strategy that runs one command after a message. *)
Definition ranWith (message : string) (args : list string) (o : Outcome) : list Effect :=
  match o with
  | Exited _ output | TimedOut output => [Print message; Ran args o; Print (captured output)]
  | SpawnRejected _ => [Print message; Ran args o]
  end.

(** A strategy [m] that runs: it prints a message and runs [args] once; on
    an exit the variables hold the code of that command and, when the
    strategy captures, its output; otherwise the block throws. *)
Definition strategyRuns (wc : WebContainer) (m : M wc Locals) (l : Locals) (capture : bool)
           (args : list string) (c : box wc) : Prop :=
  exists message,
    match runNpm wc c args with
    | (Exited code output, c') =>
        m c = (inr {| installExitCode := code;
                      installOutput := if capture then captured output else installOutput l |},
               c', ranWith message args (Exited code output))
    | (o, c') => exists t, m c = (inl t, c', ranWith message args o)
    end.

(** The ready notification: the [onServerReady] callback and the transition
    to status [ready]. *)
Definition isReadyNotice (e : Effect) : bool :=
  match e with
  | OnServerReady _ => true
  | _ => false
  end.

Definition isReadyStatus (e : Effect) : bool :=
  match e with
  | OnStatusChange ready => true
  | _ => false
  end.

Definition readyNotices (es : list Effect) : nat := length (filter isReadyNotice es).

Definition readyStatuses (es : list Effect) : nat := length (filter isReadyStatus es).

Definition quiet (e : Effect) : bool := negb (isReadyNotice e || isReadyStatus e).

(** The process of the dev server is spawned. *)
Definition isSpawned (e : Effect) : bool :=
  match e with
  | Spawned _ _ => true
  | _ => false
  end.

Definition notSpawned (e : Effect) : bool := negb (isSpawned e).

(** Every run of the step [m] has effects that satisfy [P] only. *)
Definition Only {A : Type} (P : Effect -> bool) (wc : WebContainer) (m : M wc A) : Prop :=
  forall c, forallb P (snd (m c)) = true.

(** Between a latch that reads [before] and one that reads [after], the
    effects [es] hold the notification as often as the status, once if the
    latch fired in between and never otherwise; a fired latch stays fired. *)
Definition latched (before after : bool) (es : list Effect) : Prop :=
  readyNotices es = readyStatuses es
  /\ readyNotices es = (if before then 0 else if after then 1 else 0)
  /\ (before = true -> after = true).


(** The value of [scripts[script]] that [findDevScript] reads in the
    container [c]. *)
Definition scriptValue (JSON_parse : string -> option JSON) (wc : WebContainer) (c : box wc)
           (script : string) : option JSON :=
  Json.prop (scriptsOrEmpty (readJsonFile JSON_parse wc "package.json" c)) script.

Definition isErrorStatus (e : Effect) : bool :=
  match e with
  | OnStatusChange error => true
  | OnError _ => true
  | _ => false
  end.

(** The session with nothing live, and one torn down while the boot of the
    container is still pending. *)
Definition noSession : Session :=
  {| webcontainerInstance := None; bootPromise := None; shellProcess := None;
     shellWriter := None; shellOutputCallback := None |}.

Definition bootingSession : Session := bootWebContainer_begin 1 noSession.

(** The frameworks the exported table [getDevServerConfig] has a case for,
    and no framework; the script each case names. *)
Definition exportedFrameworks : list (option string) :=
  [ None; Some "Vite"; Some "Create React App"; Some "Next.js"; Some "Vue CLI";
    Some "Angular CLI"; Some "Nuxt"; Some "SvelteKit"; Some "Remix"; Some "Astro";
    Some "Gatsby" ].

Definition tableScript (framework : option string) : string :=
  nth 1 (args (getDevServerConfig framework)) "dev".

(** A Vite project whose only script is [start]. *)
Definition viteStartManifest : JSON :=
  JObj [("dependencies", JObj [("vite", JStr "^5.0.0")]);
        ("scripts", JObj [("start", JStr "vite")])].

(** ** Notions of the further properties *)

(** The names a manifest declares in its three dependency sections. *)
Definition declaredNames (pkg : JSON) : list string := map fst (allEntries pkg).

(** The first character of a version the three patterns can match. *)
Definition versionStart (version : string) : bool :=
  match version with
  | String c _ => JS.isDigit c || Ascii.eqb c "v" || Ascii.eqb c ">" || Ascii.eqb c "<"
  | EmptyString => false
  end.

(** The three warnings of the version block. *)
Definition targetsWarning (n : JS.Number) : string :=
  "Project targets Node.js " ++ JS.showNumber n ++ ", WebContainers run Node 18".

Definition oldNodeWarning (n : JS.Number) : string :=
  "Project targets old Node.js " ++ JS.showNumber n ++ " - some APIs may differ".

Definition requiresWarning (version : string) : string :=
  "Project requires Node.js " ++ version ++ ", WebContainers run Node 18".

(** What a run of the [try] block and its [catch] gives to the callbacks
    at its turning points. *)
Definition installFailedMessage (code : Z) : string :=
  "Dependency install failed (exit code " ++ JS.showZ code ++ "). Check terminal for details.".

Definition installedNotice : list Effect :=
  [Print (nl ++ green "✓ Dependencies installed successfully!" ++ nl ++ nl); Flush].

Definition runningNotice (config : FrameworkConfig) : list Effect :=
  [ OnStatusChange running;
    OnOutput (cyan ("➜ Running npm " ++ JS.join " " (fc_args config)
                    ++ showName (fc_name config) ++ "...") ++ nl ++ nl) ].

Definition caught (e : Thrown) : list Effect :=
  [OnError (thrownMessage e); OnStatusChange error].

(** The label [runCommandWithTimeout] is given for each rung, and what it
    throws when the five minutes pass. *)
Definition rungLabel (rung : Rung) : string :=
  match rung with
  | NpmCi => "npm ci"
  | NpmInstall => "npm install"
  | LegacyPeerDeps => "npm install --legacy-peer-deps"
  | Force => "npm install --force"
  | IgnoreScripts => "npm install --ignore-scripts"
  end.

Definition timedOut (rung : Rung) : Thrown :=
  ErrorObject (rungLabel rung ++ " timed out after 300s").

(** How the install phase stands after the attempts [log]: nothing was
    tried and the exit code is the initial -1, or the last attempt decides:
    its exit code is the one the variables hold, its timeout or the
    rejection of its spawn is what the block throws. *)
Definition endedAs (log : list (list string * Outcome)) (r : Thrown + Locals) : Prop :=
  (log = [] /\ exists l, r = inr l /\ installExitCode l = (-1)%Z)
  \/ exists before rung o,
       log = before ++ [(rungArgs rung, o)]
       /\ match o with
          | Exited code _ => exists l, r = inr l /\ installExitCode l = code
          | TimedOut _ => r = inl (timedOut rung)
          | SpawnRejected e => r = inl e
          end.

(** A strategy that runs the command of [rung]. *)
Definition ranRung (wc : WebContainer) (m : M wc Locals) (rung : Rung) (c : box wc) : Prop :=
  exists message,
    match runNpm wc c (rungArgs rung) with
    | (Exited code output, c') =>
        exists l', installExitCode l' = code
                   /\ m c = (inr l', c', ranWith message (rungArgs rung) (Exited code output))
    | (TimedOut output, c') =>
        m c = (inl (timedOut rung), c', ranWith message (rungArgs rung) (TimedOut output))
    | (SpawnRejected e, c') =>
        m c = (inl e, c', ranWith message (rungArgs rung) (SpawnRejected e))
    end.

(** A strategy is skipped or runs the command of its rung. *)
Definition strategyOf (wc : WebContainer) (s : Locals -> M wc Locals) (rung : Rung) : Prop :=
  forall l c, s l c = (inr l, c, []) \/ ranRung wc (s l) rung c.

(** A continuation of the install phase keeps [endedAs]. *)
Definition keepsEnded (wc : WebContainer) (k : Locals -> M wc Locals) : Prop :=
  forall log l c,
    endedAs log (inr l) ->
    endedAs (log ++ attempts (snd (k l c))) (fst (fst (k l c))).

(** The statuses a run passes through, in order. *)
Fixpoint statuses (es : list Effect) : list ContainerStatus :=
  match es with
  | [] => []
  | OnStatusChange status :: rest => status :: statuses rest
  | _ :: rest => statuses rest
  end.

Definition noStatus (e : Effect) : bool :=
  match e with
  | OnStatusChange _ => false
  | _ => true
  end.

(** The effects [es] end with [tail]. *)
Definition endsIn (es tail : list Effect) : Prop := exists before, es = before ++ tail.

(** The effects that install or start something in the container. *)
Definition inert (e : Effect) : bool :=
  match e with
  | Ran _ _ | Spawned _ _ => false
  | OnStatusChange installing | OnStatusChange running => false
  | _ => true
  end.

(** The chunks of server output among the signals. *)
Fixpoint outputs (ss : list Signal) : list string :=
  match ss with
  | [] => []
  | OutputData data :: rest => data :: outputs rest
  | _ :: rest => outputs rest
  end.

(** The first line of the help that the 45-second timer of [startDevServer]
    writes, and how often the effects hold it. *)
Definition timeoutHint : string :=
  nl ++ yellow "⚠ Server is taking longer than expected to expose a URL..." ++ nl.

Definition isTimeoutHint (e : Effect) : bool :=
  match e with
  | OnOutput data => String.eqb data timeoutHint
  | _ => false
  end.

Definition hints (es : list Effect) : nat := length (filter isTimeoutHint es).

Definition noHint (e : Effect) : bool := negb (isTimeoutHint e).

Definition pendingTimeout (l : Latch) : nat := if serverReadyTimeout l then 1 else 0.

(** The text of a list of chunks, and the text the calls write. *)
Fixpoint text (chunks : list string) : string :=
  match chunks with
  | [] => ""
  | chunk :: rest => chunk ++ text rest
  end.

Fixpoint written (calls : list BufferedOutput.Call) : string :=
  match calls with
  | [] => ""
  | BufferedOutput.Write chunk :: rest => chunk ++ written rest
  | _ :: rest => written rest
  end.

(** Buffered text always has a flush scheduled. *)
Definition scheduled (s : BufferedOutput.State) : Prop :=
  BufferedOutput.buffer s <> "" -> BufferedOutput.timer s = true.

(** One boot in flight at most, and while it is in flight the session has
    its promise and no container yet. *)
Definition singleFlight (t : Tracked) : Prop :=
  bootsInFlight t <= 1
  /\ (bootsInFlight t = 1 ->
      webcontainerInstance (session t) = None /\ bootPromise (session t) <> None).

(** The writer of the shell is stored only with a process. *)
Definition writerHasProcess (s : Session) : Prop :=
  shellWriter s <> None -> shellProcess s <> None.

(** A session in which a first shell was spawned and [getWriter()] threw. *)
Definition writerFailed : list SessionEvent :=
  [CallsBoot 1; BootSettles (inr 2); CallsShell 3; ShellWriterFails 4].

(** Manifests and file lists of the examples. *)
Definition sshManifest : JSON :=
  JObj [("dependencies", JObj [("a", JStr "git@github.com:x/a.git"); ("b", JStr "ssh://h/b")])].

Definition sharpManifest : JSON :=
  JObj [("devDependencies", JObj [("vite", JStr "^5.0.0"); ("sharp", JStr "^0.33.0")]);
        ("scripts", JObj [("dev", JStr "vite")])].

Definition htmlFiles : list ProjectDetection.GitHubFile :=
  [ {| ProjectDetection.path := "docs/index.html"; ProjectDetection.mode := "100644";
       ProjectDetection.type := ProjectDetection.blob; ProjectDetection.sha := "";
       ProjectDetection.size := None; ProjectDetection.url := "" |} ].

(** * Properties *)

(** ** Strings *)

Lemma prefix_app (n r : string) : String.prefix n (n ++ r) = true.
Proof.
  induction n as [|c n IH]; simpl.
  - destruct r; reflexivity.
  - destruct (ascii_dec c c) as [_|ne]; [exact IH | contradiction].
Qed.

Lemma includes_of_prefix (s sub : string) :
  String.prefix sub s = true -> JS.includes s sub = true.
Proof.
  intros H. destruct s; cbn [JS.includes]; rewrite H; reflexivity.
Qed.

Lemma includes_app_left (p s sub : string) :
  JS.includes s sub = true -> JS.includes (p ++ s) sub = true.
Proof.
  intros H. induction p as [|c p IH]; simpl.
  - exact H.
  - rewrite IH. apply orb_true_r.
Qed.

Lemma includes_middle (a n b : string) : JS.includes (a ++ n ++ b) n = true.
Proof.
  apply includes_app_left, includes_of_prefix, prefix_app.
Qed.

Lemma string_app_assoc (a b c : string) : ((a ++ b) ++ c = a ++ b ++ c)%string.
Proof.
  induction a as [|x a IH]; simpl; [reflexivity | now rewrite IH].
Qed.

Lemma string_app_nil (a : string) : (a ++ "")%string = a.
Proof.
  induction a as [|x a IH]; simpl; [reflexivity | now rewrite IH].
Qed.

Lemma join_In (sep n : string) (l : list string) :
  In n l -> exists a b, JS.join sep l = (a ++ n ++ b)%string.
Proof.
  induction l as [|x l IH]; intros Hin; [contradiction|].
  destruct Hin as [-> | Hin].
  - destruct l as [|y l].
    + exists "", "". simpl. now rewrite string_app_nil.
    + exists "", (sep ++ JS.join sep (y :: l))%string. reflexivity.
  - destruct (IH Hin) as (a & b & E).
    destruct l as [|y l]; [contradiction|].
    exists (x ++ sep ++ a)%string, b.
    change (JS.join sep (x :: y :: l)) with (x ++ sep ++ JS.join sep (y :: l))%string.
    rewrite E, !string_app_assoc. reflexivity.
Qed.

Lemma includes_join (pre sep n : string) (l : list string) :
  In n l -> JS.includes (pre ++ JS.join sep l) n = true.
Proof.
  intros Hin. destruct (join_In sep n l Hin) as (a & b & ->).
  apply includes_app_left, includes_middle.
Qed.

(** ** The dependency scan *)

Lemma analyzeEntries_app (l1 l2 : list (string * JSON)) (a : Analysis) :
  analyzeEntries a (l1 ++ l2) = (a' <- analyzeEntries a l1 ;; analyzeEntries a' l2).
Proof.
  revert a. induction l1 as [|e l1 IH]; intros a; cbn [analyzeEntries app bind].
  - reflexivity.
  - destruct (analyzeEntry a e) as [a1|err]; cbn [bind]; [apply IH | reflexivity].
Qed.

Lemma analyzeSection_entries (pkg : JSON) (a : Analysis) (section : string) :
  analyzeSection pkg a section = analyzeEntries a (sectionEntries pkg section).
Proof.
  unfold analyzeSection, sectionEntries.
  destruct (Json.prop pkg section) as [deps|]; [|reflexivity].
  destruct (Json.truthy deps); reflexivity.
Qed.

Lemma analyzeSections_entries (pkg : JSON) (ss : list string) (a : Analysis) :
  analyzeSections pkg a ss = analyzeEntries a (flat_map (sectionEntries pkg) ss).
Proof.
  revert a. induction ss as [|s ss IH]; intros a; cbn [analyzeSections flat_map].
  - reflexivity.
  - rewrite analyzeEntries_app, analyzeSection_entries.
    destruct (analyzeEntries a (sectionEntries pkg s)); cbn [bind]; [apply IH | reflexivity].
Qed.

Lemma analyzeDependencies_entries (pkg : JSON) :
  analyzeDependencies pkg
  = analyzeEntries {| native := []; peerTrouble := []; gitSsh := []; allDeps := [] |}
      (allEntries pkg).
Proof. apply analyzeSections_entries. Qed.

(** On string versions the scan returns, and lists the offending names and
    all the names in the order of the entries. *)
Lemma analyzeEntries_typed (entries : list (string * JSON)) (a : Analysis) :
  forallb (fun entry => isString (snd entry)) entries = true ->
  exists a',
    analyzeEntries a entries = Normal a'
    /\ gitSsh a' = gitSsh a ++ map fst (filter offending entries)
    /\ allDeps a' = allDeps a ++ map fst entries.
Proof.
  revert a. induction entries as [|[name version] entries IH]; intros a Hty.
  - exists a. cbn [analyzeEntries filter map]. now rewrite !app_nil_r.
  - cbn [forallb snd] in Hty. apply andb_true_iff in Hty as [Hs Hrest].
    destruct version as [| | |v| |]; try discriminate Hs.
    cbn [analyzeEntries analyzeEntry bind].
    match goal with |- context [analyzeEntries ?a1 entries] =>
      destruct (IH a1 Hrest) as (a' & E & Hg & Hd) end.
    exists a'. split; [exact E|]. cbn [gitSsh allDeps] in Hg, Hd.
    cbn [filter offending snd map fst]. rewrite Hg, Hd.
    split; [|now rewrite <- app_assoc].
    destruct (isGitSsh v); cbn [map fst]; [now rewrite <- app_assoc | reflexivity].
Qed.

(** The scan throws as soon as it meets a version that is not a string. *)
Lemma analyzeEntries_untyped (entries : list (string * JSON)) (a : Analysis) :
  forallb (fun entry => isString (snd entry)) entries = false ->
  analyzeEntries a entries = Throw TypeError.
Proof.
  revert a. induction entries as [|[name version] entries IH]; intros a Hty; [discriminate|].
  cbn [forallb snd] in Hty. cbn [analyzeEntries analyzeEntry].
  destruct version; cbn [isString andb bind] in *; try reflexivity.
  apply IH, Hty.
Qed.

Lemma declares_entry (pkg : JSON) (name version : string) :
  declares pkg name version -> In (name, JStr version) (allEntries pkg).
Proof.
  intros (section & deps & Hsec & Hprop & Hin).
  unfold allEntries. apply in_flat_map. exists section. split; [exact Hsec|].
  unfold sectionEntries. rewrite Hprop.
  destruct deps as [| | |s|items|props]; cbn [Json.ownEntries] in Hin; try contradiction;
    cbn [Json.truthy]; try exact Hin.
  destruct s; [contradiction | exact Hin].
Qed.

(** ** The report *)

Lemma addsWarningsOnly_refl (r : CompatibilityReport) : addsWarningsOnly r r.
Proof.
  repeat split. exists []. now rewrite app_nil_r.
Qed.

Lemma addsWarningsOnly_push (m : string) (r r' : CompatibilityReport) :
  addsWarningsOnly r r' -> addsWarningsOnly r (push_warning m r').
Proof.
  intros (H1 & H2 & H3 & H4 & H5 & H6 & ws & H7).
  repeat split; cbn; try assumption.
  exists (ws ++ [m]). now rewrite H7, app_assoc.
Qed.

Lemma compareNodeVersion_warnings (version : string) (r : CompatibilityReport) :
  addsWarningsOnly r (compareNodeVersion version r).
Proof.
  unfold compareNodeVersion.
  repeat match goal with
         | |- context [if ?b then _ else _] => destruct b
         end;
    repeat apply addsWarningsOnly_push; apply addsWarningsOnly_refl.
Qed.

(** The version block returns on a typed manifest, and whenever it returns
    it has added to the warnings only. *)
Lemma checkNodeVersion_warnings (tree : FileSystemTree) (pkg : JSON) (r r' : CompatibilityReport) :
  checkNodeVersion tree pkg r = Normal r' -> addsWarningsOnly r r'.
Proof.
  unfold checkNodeVersion. cbn [nodeVersion set_nodeVersion].
  destruct (Json.truthy' (extractNodeVersion tree pkg)).
  - destruct (extractNodeVersion tree pkg) as [[| | |v| |]|]; try discriminate.
    intros [= <-].
    destruct (compareNodeVersion_warnings v (set_nodeVersion (Some (JStr v)) r))
      as (H1 & H2 & H3 & H4 & H5 & H6 & H7).
    repeat split; assumption.
  - intros [= <-]. repeat split. exists []. cbn. now rewrite app_nil_r.
Qed.

Lemma extractNodeVersion_typed (tree : FileSystemTree) (pkg : JSON) :
  typedManifest pkg = true ->
  match extractNodeVersion tree pkg with
  | Some v => isString v = true
  | None => True
  end.
Proof.
  unfold typedManifest, extractNodeVersion. intros H.
  apply andb_true_iff in H as [_ H].
  destruct (Json.prop' (Json.prop pkg "engines") "node") as [v|]; cbn [Json.truthy'].
  - destruct (Json.truthy v) eqn:T.
    + rewrite orb_false_r in H. exact H.
    + destruct (Json.lookup ".nvmrc" tree) as [[c|d]|]; exact I || reflexivity.
  - destruct (Json.lookup ".nvmrc" tree) as [[c|d]|]; exact I || reflexivity.
Qed.

Lemma checkNodeVersion_typed (tree : FileSystemTree) (pkg : JSON) (r : CompatibilityReport) :
  typedManifest pkg = true ->
  exists r', checkNodeVersion tree pkg r = Normal r'.
Proof.
  intros H. pose proof (extractNodeVersion_typed tree pkg H) as Hv.
  unfold checkNodeVersion. cbn [nodeVersion set_nodeVersion].
  destruct (extractNodeVersion tree pkg) as [[| | |v| |]|]; cbn [isString] in Hv;
    try discriminate Hv; cbn [Json.truthy'].
  - destruct (Json.truthy (JStr v)); eexists; reflexivity.
  - eexists; reflexivity.
Qed.

(** What the blocks after the scan do to the fields that gate the run. *)
Lemma reportNative_gate (a : Analysis) (r : CompatibilityReport) :
  canRun (reportNative a r) = canRun r
  /\ issues (reportNative a r) = issues r
  /\ hasGitSshDeps (reportNative a r) = hasGitSshDeps r.
Proof.
  unfold reportNative. destruct (0 <? length (native a))%nat; repeat split.
Qed.

Lemma reportGitSsh_gate (a : Analysis) (r : CompatibilityReport) :
  gitSsh a <> [] ->
  canRun (reportGitSsh a r) = false
  /\ issues (reportGitSsh a r) = issues r ++ [gitSshIssue (gitSsh a)]
  /\ hasGitSshDeps (reportGitSsh a r) = true
  /\ suggestions (reportGitSsh a r) = suggestions r ++ [gitSshSuggestion].
Proof.
  unfold reportGitSsh. destruct (gitSsh a) as [|n names]; [congruence|].
  intros _. cbn. repeat split.
Qed.

Lemma reportGitSsh_none (a : Analysis) (r : CompatibilityReport) :
  gitSsh a = [] -> reportGitSsh a r = r.
Proof.
  unfold reportGitSsh. now intros ->.
Qed.

Lemma reportPeer_gate (a : Analysis) (r : CompatibilityReport) :
  canRun (reportPeer a r) = canRun r
  /\ issues (reportPeer a r) = issues r
  /\ hasGitSshDeps (reportPeer a r) = hasGitSshDeps r
  /\ exists more, suggestions (reportPeer a r) = suggestions r ++ more.
Proof.
  unfold reportPeer. destruct (3 <=? length (peerTrouble a))%nat; cbn; repeat split.
  - now exists ["May need --legacy-peer-deps if install fails"].
  - exists []. now rewrite app_nil_r.
Qed.

Lemma checkScripts_gate (pkg : JSON) (r : CompatibilityReport) :
  canRun (checkScripts pkg r) = canRun r
  /\ issues (checkScripts pkg r) = issues r
  /\ hasGitSshDeps (checkScripts pkg r) = hasGitSshDeps r
  /\ exists more, suggestions (checkScripts pkg r) = suggestions r ++ more.
Proof.
  unfold checkScripts.
  destruct (negb (Json.truthy' (Json.prop pkg "scripts"))); cbn [canRun issues hasGitSshDeps suggestions push_suggestion push_warning].
  - repeat split. eexists; reflexivity.
  - match goal with |- context [if negb ?b then _ else _] => destruct b end;
      cbn [negb canRun issues hasGitSshDeps suggestions push_suggestion push_warning]; repeat split.
    + exists []. now rewrite app_nil_r.
    + eexists; reflexivity.
Qed.

(** The check of a Node.js project with a manifest, as one expression. *)
Lemma checkCompatibility_nodejs (JSON_parse : string -> option JSON) (tree : FileSystemTree) :
  Json.truthy (extractPackageJson JSON_parse tree) = true ->
  checkCompatibility JSON_parse tree nodejs
  = (let pkg := extractPackageJson JSON_parse tree in
     r <- checkNodeVersion tree pkg initialReport ;;
     a <- analyzeDependencies pkg ;;
     Normal (checkScripts pkg
               (set_frameworkDetected (detectFramework pkg (allDeps a))
                  (reportPeer a (reportGitSsh a (reportNative a r)))))).
Proof.
  intros H. unfold checkCompatibility. cbn [isNodejs negb]. now rewrite H.
Qed.

(** Without a manifest the report is the optimistic one with one warning. *)
Lemma checkCompatibility_no_manifest (JSON_parse : string -> option JSON) (tree : FileSystemTree) :
  Json.truthy (extractPackageJson JSON_parse tree) = false ->
  checkCompatibility JSON_parse tree nodejs
  = Normal {| canRun := true; issues := []; warnings := [noManifestWarning];
              suggestions := []; nodeVersion := None; hasNativeDeps := false;
              hasGitSshDeps := false; frameworkDetected := None |}.
Proof.
  intros H. unfold checkCompatibility. cbn [isNodejs negb]. now rewrite H.
Qed.

(** Whenever the check of a manifest returns, the scan returned too, and
    the offending names it lists decide [canRun], [issues] and
    [hasGitSshDeps]; the replacement suggestion goes with them. *)
Lemma checkCompatibility_gate (JSON_parse : string -> option JSON) (tree : FileSystemTree)
      (r : CompatibilityReport) :
  Json.truthy (extractPackageJson JSON_parse tree) = true ->
  checkCompatibility JSON_parse tree nodejs = Normal r ->
  exists a,
    analyzeDependencies (extractPackageJson JSON_parse tree) = Normal a
    /\ ((gitSsh a = [] /\ canRun r = true /\ issues r = [] /\ hasGitSshDeps r = false)
        \/ (gitSsh a <> [] /\ canRun r = false /\ issues r = [gitSshIssue (gitSsh a)]
            /\ hasGitSshDeps r = true /\ In gitSshSuggestion (suggestions r))).
Proof.
  intros Hpkg. rewrite (checkCompatibility_nodejs _ _ Hpkg). cbv zeta.
  set (pkg := extractPackageJson JSON_parse tree).
  destruct (checkNodeVersion tree pkg initialReport) as [r1|e] eqn:Ev; cbn [bind]; [|discriminate].
  destruct (analyzeDependencies pkg) as [a|e] eqn:Ea; cbn [bind]; [|discriminate].
  intros [= <-]. exists a. split; [reflexivity|].
  apply checkNodeVersion_warnings in Ev as (V1 & V2 & _ & _ & V5 & _).
  cbn [canRun issues hasGitSshDeps initialReport] in V1, V2, V5.
  set (r2 := reportNative a r1).
  destruct (reportNative_gate a r1) as (N1 & N2 & N3). fold r2 in N1, N2, N3.
  set (r3 := reportGitSsh a r2).
  destruct (reportPeer_gate a r3) as (P1 & P2 & P3 & sp & P4).
  set (r4 := reportPeer a r3) in *.
  set (r5 := set_frameworkDetected (detectFramework pkg (allDeps a)) r4).
  destruct (checkScripts_gate pkg r5) as (S1 & S2 & S3 & ss & S4).
  rewrite S1, S2, S3, S4. subst r5. cbn [canRun issues hasGitSshDeps suggestions set_frameworkDetected].
  rewrite P1, P2, P3, P4.
  destruct (gitSsh a) as [|n names] eqn:Eg.
  - left. subst r3. rewrite (reportGitSsh_none a r2 Eg).
    rewrite N1, N2, N3, V1, V2, V5. repeat split.
  - right. assert (Hne : gitSsh a <> []) by (rewrite Eg; discriminate).
    destruct (reportGitSsh_gate a r2 Hne) as (G1 & G2 & G3 & G4). fold r3 in G1, G2, G3, G4.
    rewrite G1, G2, G3, G4, N2, V2, Eg in *.
    repeat split; try discriminate.
    rewrite !in_app_iff. left. left. right. now left.
Qed.

(** The check reads the parser at the text of package.json only. *)
Lemma extractPackageJson_parsed (JSON_parse : string -> option JSON) (manifest : string * JSON) :
  JSON_parse (fst manifest) = Some (snd manifest) ->
  extractPackageJson JSON_parse (Examples.treeOf manifest) = snd manifest.
Proof.
  intros H. unfold extractPackageJson, Examples.treeOf. cbn [Json.lookup].
  change (String.eqb "package.json" "package.json") with true. cbv iota. now rewrite H.
Qed.

Lemma checkCompatibility_parsed (JSON_parse : string -> option JSON) (manifest : string * JSON)
      (projectType : ProjectType) :
  JSON_parse (fst manifest) = Some (snd manifest) ->
  Examples.JSON_parse (fst manifest) = Some (snd manifest) ->
  checkCompatibility JSON_parse (Examples.treeOf manifest) projectType
  = checkCompatibility Examples.JSON_parse (Examples.treeOf manifest) projectType.
Proof.
  intros H H'. unfold checkCompatibility.
  now rewrite (extractPackageJson_parsed _ _ H), (extractPackageJson_parsed _ _ H').
Qed.

(** ** C1: git and SSH dependencies block the run *)

(** C1, as the code has it: for every file tree whose package.json parses to
    a manifest with string versions (and a string [engines.node], if any)
    and declares, in one of the three dependency sections, a package whose
    version string contains [git@], starts with [ssh://] or starts with
    [git+ssh://], [checkCompatibility] with project type nodejs returns a
    report with [hasGitSshDeps = true], [canRun = false], one issue that
    names every offending package, and the suggestion to replace them. *)
Theorem git_ssh_dependency_blocks :
  forall (JSON_parse : string -> option JSON) (tree : FileSystemTree) (name version : string),
    typedManifest (extractPackageJson JSON_parse tree) = true ->
    declares (extractPackageJson JSON_parse tree) name version ->
    JS.includes version "git@" = true
    \/ JS.startsWith version "ssh://" = true
    \/ JS.startsWith version "git+ssh://" = true ->
    exists r names,
      checkCompatibility JSON_parse tree nodejs = Normal r
      /\ hasGitSshDeps r = true
      /\ canRun r = false
      /\ issues r = [gitSshIssue names]
      /\ (forall n v,
             declares (extractPackageJson JSON_parse tree) n v ->
             isGitSsh v = true ->
             In n names /\ JS.includes (gitSshIssue names) n = true)
      /\ In gitSshSuggestion (suggestions r).
Proof.
  intros JSON_parse tree name version Hty Hdecl Hver.
  set (pkg := extractPackageJson JSON_parse tree) in *.
  assert (Hobj : Json.truthy pkg = true).
  { destruct Hdecl as (section & deps & _ & Hprop & _).
    destruct pkg; cbn [Json.prop] in Hprop; try discriminate. reflexivity. }
  assert (Hoff : isGitSsh version = true).
  { unfold isGitSsh. destruct Hver as [H | [H | H]]; rewrite H;
      rewrite ?orb_true_r; reflexivity. }
  pose proof Hty as Hty'. unfold typedManifest in Hty'.
  apply andb_true_iff in Hty' as [Hstr _].
  destruct (analyzeEntries_typed (allEntries pkg)
              {| native := []; peerTrouble := []; gitSsh := []; allDeps := [] |} Hstr)
    as (a & Ea & Hg & _).
  rewrite <- analyzeDependencies_entries in Ea. cbn [gitSsh app] in Hg.
  assert (Hnames : forall n v, declares pkg n v -> isGitSsh v = true -> In n (gitSsh a)).
  { intros n v Hd Hv. rewrite Hg.
    change n with (fst (n, JStr v)). apply in_map, filter_In.
    split; [apply declares_entry, Hd | exact Hv]. }
  destruct (checkNodeVersion_typed tree pkg initialReport Hty) as (r1 & Ev).
  assert (Hret : exists r, checkCompatibility JSON_parse tree nodejs = Normal r).
  { rewrite (checkCompatibility_nodejs _ _ Hobj). cbv zeta. fold pkg.
    rewrite Ev, Ea. cbn [bind]. eexists; reflexivity. }
  destruct Hret as (r & Er).
  destruct (checkCompatibility_gate _ _ _ Hobj Er) as (a' & Ea' & Hcase).
  fold pkg in Ea'. rewrite Ea in Ea'. injection Ea' as <-.
  exists r, (gitSsh a). split; [exact Er|].
  destruct Hcase as [(Hnil & _) | (_ & Hc & Hi & Hf & Hs)].
  - specialize (Hnames name version Hdecl Hoff). rewrite Hnil in Hnames. contradiction.
  - repeat split; try assumption.
    + eapply Hnames; eassumption.
    + apply includes_join. eapply Hnames; eassumption.
Qed.

Lemma git_ssh_dependency_blocks_witness :
  exists r names,
    checkCompatibility Examples.JSON_parse (Examples.treeOf Examples.leftpadManifest) nodejs
    = Normal r
    /\ hasGitSshDeps r = true
    /\ canRun r = false
    /\ issues r = [gitSshIssue names]
    /\ (forall n v,
           declares (extractPackageJson Examples.JSON_parse
                       (Examples.treeOf Examples.leftpadManifest)) n v ->
           isGitSsh v = true ->
           In n names /\ JS.includes (gitSshIssue names) n = true)
    /\ In gitSshSuggestion (suggestions r).
Proof.
  apply (git_ssh_dependency_blocks Examples.JSON_parse
           (Examples.treeOf Examples.leftpadManifest)
           "leftpad" "git+ssh://git@github.com/x/y.git").
  - reflexivity.
  - exists "dependencies", (JObj [("leftpad", JStr "git+ssh://git@github.com/x/y.git")]).
    split; [simpl; auto | split; [reflexivity | simpl; auto]].
  - left. reflexivity.
Defined.

(** C1 as stated fails where the version only contains [ssh://]: the
    manifest declares [legacy-lib] at [svn+ssh://svn.example.com/repo/trunk],
    and the report lets the project run with no issue. *)
Lemma ssh_inside_version_not_blocked :
  JS.includes "svn+ssh://svn.example.com/repo/trunk" "ssh://" = true
  /\ forall JSON_parse : string -> option JSON,
       JSON_parse (fst Examples.svnManifest) = Some (snd Examples.svnManifest) ->
       declares (extractPackageJson JSON_parse (Examples.treeOf Examples.svnManifest))
         "legacy-lib" "svn+ssh://svn.example.com/repo/trunk"
       /\ exists r,
            checkCompatibility JSON_parse (Examples.treeOf Examples.svnManifest) nodejs
            = Normal r
            /\ hasGitSshDeps r = false /\ canRun r = true /\ issues r = [].
Proof.
  split; [reflexivity|]. intros JSON_parse H. split.
  - rewrite (extractPackageJson_parsed _ _ H).
    exists "dependencies", (JObj [("legacy-lib", JStr "svn+ssh://svn.example.com/repo/trunk")]).
    split; [simpl; auto | split; [reflexivity | simpl; auto]].
  - rewrite (checkCompatibility_parsed _ _ _ H eq_refl).
    eexists. split; [vm_compute; reflexivity | repeat split].
Qed.

(** ** C8: when the check returns and when it throws *)

Lemma checkNodeVersion_untyped (tree : FileSystemTree) (pkg : JSON) (r : CompatibilityReport) :
  match Json.prop' (Json.prop pkg "engines") "node" with
  | Some v => isString v || negb (Json.truthy v)
  | None => true
  end = false ->
  checkNodeVersion tree pkg r = Throw TypeError.
Proof.
  unfold checkNodeVersion, extractNodeVersion. cbn [nodeVersion set_nodeVersion].
  destruct (Json.prop' (Json.prop pkg "engines") "node") as [v|]; [|discriminate].
  intros H. apply orb_false_iff in H as [Hs Ht]. apply negb_false_iff in Ht.
  cbn [Json.truthy']. rewrite Ht. cbn [Json.truthy']. rewrite Ht.
  destruct v; try reflexivity. discriminate Hs.
Qed.

(** The check of a Node.js project throws exactly on a manifest that is not
    typed; of any other project type it returns. *)
Lemma checkCompatibility_throws_iff (JSON_parse : string -> option JSON) (tree : FileSystemTree) :
  checkCompatibility JSON_parse tree nodejs = Throw TypeError
  <-> Json.truthy (extractPackageJson JSON_parse tree) = true
      /\ typedManifest (extractPackageJson JSON_parse tree) = false.
Proof.
  set (pkg := extractPackageJson JSON_parse tree).
  destruct (Json.truthy pkg) eqn:Hpkg.
  - rewrite (checkCompatibility_nodejs _ _ Hpkg). cbv zeta. fold pkg.
    destruct (typedManifest pkg) eqn:Hty.
    + split; [|intros [_ H]; discriminate H].
      destruct (checkNodeVersion_typed tree pkg initialReport Hty) as (r1 & ->).
      unfold typedManifest in Hty. apply andb_true_iff in Hty as [Hstr _].
      destruct (analyzeEntries_typed (allEntries pkg)
                  {| native := []; peerTrouble := []; gitSsh := []; allDeps := [] |} Hstr)
        as (a & Ea & _).
      rewrite analyzeDependencies_entries, Ea. discriminate.
    + split; [now intros _|]. intros _.
      unfold typedManifest in Hty. apply andb_false_iff in Hty as [Hstr | Hnode].
      * rewrite analyzeDependencies_entries, (analyzeEntries_untyped _ _ Hstr).
        destruct (checkNodeVersion tree pkg initialReport) as [r1|[]]; reflexivity.
      * now rewrite (checkNodeVersion_untyped _ _ _ Hnode).
  - rewrite (checkCompatibility_no_manifest _ _ Hpkg).
    split; [discriminate | intros [H _]; discriminate H].
Qed.

Lemma checkCompatibility_other_types (JSON_parse : string -> option JSON) (tree : FileSystemTree)
      (projectType : ProjectType) :
  projectType <> nodejs ->
  exists r, checkCompatibility JSON_parse tree projectType = Normal r.
Proof.
  intros H. destruct projectType; try congruence; eexists; reflexivity.
Qed.

(** A package.json that does not parse is treated as a missing one. *)
Lemma malformed_manifest_as_missing (JSON_parse : string -> option JSON)
      (tree tree' : FileSystemTree) (contents : string) :
  Json.lookup "package.json" tree = Some (FileNode contents) ->
  JSON_parse contents = None ->
  Json.lookup "package.json" tree' = None ->
  checkCompatibility JSON_parse tree nodejs = checkCompatibility JSON_parse tree' nodejs
  /\ checkCompatibility JSON_parse tree nodejs
     = Normal {| canRun := true; issues := []; warnings := [noManifestWarning];
                 suggestions := []; nodeVersion := None; hasNativeDeps := false;
                 hasGitSshDeps := false; frameworkDetected := None |}.
Proof.
  intros Hfile Hparse Hnone.
  assert (H1 : Json.truthy (extractPackageJson JSON_parse tree) = false)
    by (unfold extractPackageJson; now rewrite Hfile, Hparse).
  assert (H2 : Json.truthy (extractPackageJson JSON_parse tree') = false)
    by (unfold extractPackageJson; now rewrite Hnone).
  now rewrite (checkCompatibility_no_manifest _ _ H1), (checkCompatibility_no_manifest _ _ H2).
Qed.

(** C8, where the code departs from it: [checkCompatibility] is to return a
    report for every file tree and never throw.  On the well-formed
    manifests [{"engines":{"node":18}}] and [{"dependencies":{"left-pad":1}}]
    it throws a TypeError: [version.match] and [version.startsWith] are
    called on a number. *)
Theorem checkCompatibility_throws_on_number :
  (forall JSON_parse : string -> option JSON,
      JSON_parse (fst Examples.numericEngineManifest)
      = Some (snd Examples.numericEngineManifest) ->
      checkCompatibility JSON_parse
        (Examples.treeOf Examples.numericEngineManifest) nodejs = Throw TypeError)
  /\ (forall JSON_parse : string -> option JSON,
         JSON_parse (fst Examples.numericVersionManifest)
         = Some (snd Examples.numericVersionManifest) ->
         checkCompatibility JSON_parse
           (Examples.treeOf Examples.numericVersionManifest) nodejs = Throw TypeError).
Proof.
  split; intros JSON_parse H; rewrite (checkCompatibility_parsed _ _ _ H eq_refl);
    vm_compute; reflexivity.
Qed.

(** The same with the parser of the examples. *)
Example number_in_manifest_throws :
  checkCompatibility Examples.JSON_parse
    (Examples.treeOf Examples.numericEngineManifest) nodejs = Throw TypeError
  /\ checkCompatibility Examples.JSON_parse
       (Examples.treeOf Examples.numericVersionManifest) nodejs = Throw TypeError.
Proof. split; vm_compute; reflexivity. Qed.

(** ** C6: the Node-version constraint *)

Lemma digit_byte (c : ascii) :
  JS.isDigit c = true -> (48 <= JS.byte c <= 57)%nat.
Proof.
  unfold JS.isDigit. intros H. apply andb_true_iff in H as [H1 H2].
  apply Nat.leb_le in H1, H2. lia.
Qed.

Lemma digit_not_v (c : ascii) : JS.isDigit c = true -> Ascii.eqb "v" c = false.
Proof.
  intros H. apply digit_byte in H.
  destruct (Ascii.eqb "v" c) eqn:E; [|reflexivity].
  apply Ascii.eqb_eq in E. subst c. vm_compute in H. lia.
Qed.

Lemma takeDigits_app (d r : string) :
  digits d = true -> startsWithDigit r = false -> JS.takeDigits (d ++ r) = (d, r).
Proof.
  intros Hd Hr. induction d as [|c d IH]; cbn [append JS.takeDigits].
  - destruct r as [|c r]; [reflexivity|]. cbn [startsWithDigit] in Hr.
    cbn [JS.takeDigits]. now rewrite Hr.
  - cbn [digits] in Hd. apply andb_true_iff in Hd as [Hc Hd].
    now rewrite Hc, (IH Hd).
Qed.

Lemma number_cons (d : string) :
  number d = true -> exists c t, d = String c t /\ JS.isDigit c = true /\ digits d = true.
Proof.
  unfold number. intros H. apply andb_true_iff in H as [Hne Hd].
  destruct d as [|c t]; [discriminate|].
  exists c, t. cbn [digits] in Hd |- *. pose proof Hd as Hd'.
  apply andb_true_iff in Hd' as [Hc _]. auto.
Qed.

Lemma optional_v (v : bool) (d r : string) :
  number d = true -> JS.optional "v" (optV v ++ d ++ r) = (d ++ r)%string.
Proof.
  intros Hd. destruct v; [reflexivity|].
  destruct (number_cons d Hd) as (c & t & -> & Hc & _).
  cbn [optV append JS.optional]. now rewrite (digit_not_v c Hc).
Qed.

Lemma takeDigits_number (d r : string) :
  number d = true -> startsWithDigit r = false ->
  exists c t, d = String c t /\ JS.takeDigits (d ++ r) = (String c t, r).
Proof.
  intros Hd Hr. destruct (number_cons d Hd) as (c & t & E & _ & Hds).
  exists c, t. split; [exact E|]. rewrite <- E. now apply takeDigits_app.
Qed.

Lemma dotDigits_group (d r : string) :
  number d = true -> startsWithDigit r = false ->
  dotDigits ("." ++ d ++ r) = r.
Proof.
  intros Hd Hr. destruct (takeDigits_number d r Hd Hr) as (c & t & E & Ht).
  cbn [append dotDigits]. now rewrite Ht.
Qed.

(** No white space character starts with the byte of a digit or of [v]. *)
Lemma skipWhiteSpace_token (v : bool) (d r : string) :
  number d = true -> JS.skipWhiteSpace (optV v ++ d ++ r) = (optV v ++ d ++ r)%string.
Proof.
  intros Hd.
  assert (H : forall c t, (48 <= JS.byte c <= 57)%nat \/ c = "v"%char ->
                          JS.skipWhiteSpace (String c t) = String c t).
  { intros c t Hc. unfold JS.skipWhiteSpace. cbn [String.length JS.dropWhile].
    assert (JS.afterWhiteSpace (String c t) = None) as ->; [|reflexivity].
    assert (Hb : (48 <= JS.byte c <= 118)%nat)
      by (destruct Hc as [Hc | ->]; [lia | vm_compute; lia]).
    unfold JS.afterWhiteSpace, JS.space1, JS.space2, JS.space3.
    assert (E1 : (JS.byte c <=? 13)%nat = false) by (apply Nat.leb_gt; lia).
    assert (E2 : (JS.byte c =? 32)%nat = false) by (apply Nat.eqb_neq; lia).
    assert (E3 : (JS.byte c =? 194)%nat = false) by (apply Nat.eqb_neq; lia).
    assert (E4 : (JS.byte c =? 225)%nat = false) by (apply Nat.eqb_neq; lia).
    assert (E5 : (JS.byte c =? 226)%nat = false) by (apply Nat.eqb_neq; lia).
    assert (E6 : (JS.byte c =? 227)%nat = false) by (apply Nat.eqb_neq; lia).
    assert (E7 : (JS.byte c =? 239)%nat = false) by (apply Nat.eqb_neq; lia).
    rewrite E1, E2, E3, E4, E5, E6, E7, andb_false_r. cbn [orb andb].
    destruct t as [|b [|c' t]]; reflexivity. }
  destruct v; cbn [optV append].
  - apply H. now right.
  - destruct (number_cons d Hd) as (c & t & -> & Hc & _). cbn [append].
    apply H. left. now apply digit_byte.
Qed.

Lemma exactMatch_groups (v : bool) (d tail : string) :
  number d = true ->
  startsWithDigit tail = false ->
  dotDigits (dotDigits tail) = "" ->
  exactMatch (optV v ++ d ++ tail) = Some d.
Proof.
  intros Hd Ht Hg. unfold exactMatch. rewrite (optional_v v d tail Hd).
  destruct (takeDigits_number d tail Hd Ht) as (c & t & -> & ->).
  now rewrite Hg.
Qed.

Lemma exactMatch_major (v : bool) (d : string) :
  number d = true -> exactMatch (optV v ++ d) = Some d.
Proof.
  intros Hd. rewrite <- (string_app_nil d) at 1.
  now apply exactMatch_groups.
Qed.

Lemma exactMatch_minor (v : bool) (d d1 : string) :
  number d = true -> number d1 = true ->
  exactMatch (optV v ++ d ++ "." ++ d1) = Some d.
Proof.
  intros Hd H1. apply exactMatch_groups; [exact Hd | reflexivity |].
  rewrite <- (string_app_nil d1). now rewrite dotDigits_group.
Qed.

Lemma exactMatch_patch (v : bool) (d d1 d2 : string) :
  number d = true -> number d1 = true -> number d2 = true ->
  exactMatch (optV v ++ d ++ "." ++ d1 ++ "." ++ d2) = Some d.
Proof.
  intros Hd H1 H2. apply exactMatch_groups; [exact Hd | reflexivity |].
  rewrite dotDigits_group; [|exact H1 | reflexivity].
  rewrite <- (string_app_nil d2). now rewrite dotDigits_group.
Qed.

Lemma boundDigits_token (v : bool) (d : string) :
  number d = true -> boundDigits (optV v ++ d) = Some d.
Proof.
  intros Hd. rewrite <- (string_app_nil d) at 1.
  unfold boundDigits. rewrite (skipWhiteSpace_token v d "" Hd), (optional_v v d "" Hd).
  destruct (takeDigits_number d "" Hd eq_refl) as (c & t & -> & ->). reflexivity.
Qed.

(** The parser sets one field at most. *)
Lemma parse_one_field (version : string) :
  let req := parseNodeVersionRequirement version in
  (minMajor req = None /\ maxMajor req = None)
  \/ (minMajor req = None /\ exact req = None)
  \/ (maxMajor req = None /\ exact req = None).
Proof.
  unfold parseNodeVersionRequirement.
  destruct (exactMatch version); [left; now split|].
  destruct (rangeMatch version); [right; right; now split|].
  destruct (ltMatch version); [right; left; now split|].
  left; now split.
Qed.

(** Numbers: rounding to 53 bits changes no comparison the version block
    makes. *)
Lemma toNumber_small (n : Z) : (n < 2 ^ 53)%Z -> JS.toNumber n = JS.Finite n.
Proof.
  intros H. unfold JS.toNumber. apply Z.ltb_lt in H. now rewrite H.
Qed.

Lemma toNumber_large (n : Z) :
  (2 ^ 53 <= n)%Z ->
  match JS.toNumber n with
  | JS.Finite w => (2 ^ 53 <= w)%Z
  | JS.Infinity => True
  end.
Proof.
  intros H. unfold JS.toNumber.
  destruct (Z.ltb_spec n (2 ^ 53)) as [Hlt|_]; [lia|].
  assert (H53 : (53 <= Z.log2 n)%Z).
  { replace 53%Z with (Z.log2 (2 ^ 53)) by reflexivity. now apply Z.log2_le_mono. }
  set (e := (Z.log2 n - 52)%Z).
  assert (He : (1 <= e)%Z) by (unfold e; lia).
  assert (Hn : (2 ^ Z.log2 n <= n)%Z) by (apply Z.log2_spec; lia).
  assert (Hp : (2 ^ Z.log2 n = 2 ^ 52 * 2 ^ e)%Z).
  { rewrite <- Z.pow_add_r by lia. f_equal. unfold e. lia. }
  assert (H2 : (2 <= 2 ^ e)%Z).
  { replace 2%Z with (2 ^ 1)%Z at 1 by reflexivity. apply Z.pow_le_mono_r; lia. }
  assert (Hq : (2 ^ 52 <= n / 2 ^ e)%Z).
  { apply Z.div_le_lower_bound; [lia|]. rewrite Z.mul_comm. lia. }
  cbv zeta. set (q := (n / 2 ^ e)%Z) in *.
  set (q' := if (n mod 2 ^ e <? 2 ^ (e - 1))%Z then q
             else if (2 ^ (e - 1) <? n mod 2 ^ e)%Z then (q + 1)%Z
                  else if Z.even q then q else (q + 1)%Z).
  assert (Hq' : (q <= q')%Z).
  { unfold q'. destruct (_ <? _)%Z; [lia|]. destruct (_ <? _)%Z; [lia|].
    destruct (Z.even q); lia. }
  destruct (2 ^ 1024 <=? q' * 2 ^ e)%Z; [exact I|].
  remember (2 ^ e)%Z as P. remember (2 ^ 52)%Z as Q.
  replace (2 ^ 53)%Z with (Q * 2)%Z by (subst Q; reflexivity). nia.
Qed.

Lemma nonZero_toNumber (n : Z) : JS.nonZero (JS.toNumber n) = negb (n =? 0)%Z.
Proof.
  destruct (Z.lt_ge_cases n (2 ^ 53)) as [H|H].
  - now rewrite toNumber_small.
  - pose proof (toNumber_large n H) as Hw.
    replace (n =? 0)%Z with false by (symmetry; apply Z.eqb_neq; lia).
    destruct (JS.toNumber n) as [w|]; [|reflexivity]. cbn [JS.nonZero negb].
    replace (w =? 0)%Z with false by (symmetry; apply Z.eqb_neq; lia). reflexivity.
Qed.

Lemma above_toNumber (k n : Z) :
  (k < 2 ^ 53)%Z -> JS.above k (JS.toNumber n) = (k <? n)%Z.
Proof.
  intros Hk. destruct (Z.lt_ge_cases n (2 ^ 53)) as [H|H].
  - now rewrite toNumber_small.
  - pose proof (toNumber_large n H) as Hw.
    replace (k <? n)%Z with true by (symmetry; apply Z.ltb_lt; lia).
    destruct (JS.toNumber n) as [w|]; [|reflexivity]. cbn [JS.above].
    apply Z.ltb_lt. lia.
Qed.

Lemma below_toNumber (k n : Z) :
  (k <= 2 ^ 53)%Z -> JS.below k (JS.toNumber n) = (n <? k)%Z.
Proof.
  intros Hk. destruct (Z.lt_ge_cases n (2 ^ 53)) as [H|H].
  - now rewrite toNumber_small.
  - pose proof (toNumber_large n H) as Hw.
    replace (n <? k)%Z with false by (symmetry; apply Z.ltb_ge; lia).
    destruct (JS.toNumber n) as [w|]; [|reflexivity]. cbn [JS.below].
    apply Z.ltb_ge. lia.
Qed.

(** The block on a constraint that is a string: the comparisons are made
    on it (on the empty string, which is falsy, they would add nothing). *)
Lemma checkNodeVersion_string (tree : FileSystemTree) (pkg : JSON) (r : CompatibilityReport)
      (version : string) :
  extractNodeVersion tree pkg = Some (JStr version) ->
  checkNodeVersion tree pkg r
  = Normal (compareNodeVersion version (set_nodeVersion (Some (JStr version)) r)).
Proof.
  intros H. unfold checkNodeVersion. cbn [nodeVersion set_nodeVersion]. rewrite H.
  cbn [Json.truthy' Json.truthy].
  destruct (String.eqb_spec version "") as [->|_]; reflexivity.
Qed.

Lemma compareNodeVersion_by_fields (version : string) (r : CompatibilityReport) :
  let req := parseNodeVersionRequirement version in
  warnings (compareNodeVersion version r)
  = warnings r
    ++ (if andGt (minMajor req) 18
        then [("Project requires Node.js " ++ version ++ ", WebContainers run Node 18")%string]
        else [])
    ++ (if andGt (exact req) 18
        then [("Project targets Node.js " ++ showExact (exact req)
               ++ ", WebContainers run Node 18")%string]
        else [])
    ++ (if andLt (exact req) 14
        then [("Project targets old Node.js " ++ showExact (exact req)
               ++ " - some APIs may differ")%string]
        else []).
Proof.
  cbv zeta. unfold compareNodeVersion, webContainerNodeVersion.
  destruct (andGt (minMajor _) 18), (andGt (exact _) 18), (andLt (exact _) 14);
    cbn [warnings push_warning app]; rewrite <- ?app_assoc; cbn [app];
    rewrite ?app_nil_r; reflexivity.
Qed.

Lemma later_blocks_warnings (pkg : JSON) (a : Analysis) (f : option string)
      (r : CompatibilityReport) :
  exists rest,
    warnings (checkScripts pkg (set_frameworkDetected f
                                  (reportPeer a (reportGitSsh a (reportNative a r)))))
    = warnings r ++ rest
    /\ forall w, In w rest -> laterWarning w.
Proof.
  unfold checkScripts, reportPeer, reportGitSsh, reportNative, laterWarning.
  destruct (0 <? length (native a))%nat, (0 <? length (gitSsh a))%nat,
           (3 <=? length (peerTrouble a))%nat,
           (negb (Json.truthy' (Json.prop pkg "scripts")));
    try destruct (negb (existsb _ _));
    cbn [warnings push_warning push_suggestion push_issue set_canRun set_hasGitSshDeps
         set_hasNativeDeps set_frameworkDetected];
    rewrite <- ?app_assoc; cbn [app];
    (eexists; split; [reflexivity || (symmetry; apply app_nil_r)|]);
    intros w Hw; cbn [In] in Hw;
    repeat match goal with
           | H : _ \/ _ |- _ => destruct H as [<-|H]
           | H : False |- _ => contradiction
           end; first [left; apply prefix_app | auto].
Qed.

Lemma report_warnings (JSON_parse : string -> option JSON) (tree : FileSystemTree)
      (r : CompatibilityReport) (version : string) :
  Json.truthy (extractPackageJson JSON_parse tree) = true ->
  extractNodeVersion tree (extractPackageJson JSON_parse tree) = Some (JStr version) ->
  checkCompatibility JSON_parse tree nodejs = Normal r ->
  exists rest,
    warnings r = warnings (compareNodeVersion version initialReport) ++ rest
    /\ forall w, In w rest -> laterWarning w.
Proof.
  intros Hpkg Hv Hr. rewrite (checkCompatibility_nodejs _ _ Hpkg) in Hr. cbv zeta in Hr.
  rewrite (checkNodeVersion_string _ _ _ _ Hv) in Hr. cbn [bind] in Hr.
  destruct (analyzeDependencies _) as [a|e]; cbn [bind] in Hr; [|discriminate].
  injection Hr as <-.
  destruct (later_blocks_warnings (extractPackageJson JSON_parse tree) a
              (detectFramework (extractPackageJson JSON_parse tree) (allDeps a))
              (compareNodeVersion version (set_nodeVersion (Some (JStr version)) initialReport)))
    as (rest & E & Hrest).
  exists rest. split; [|exact Hrest]. rewrite E. f_equal.
  rewrite !compareNodeVersion_by_fields. reflexivity.
Qed.

(** The recorded upper bound is never read: it gives no warning. *)
Lemma compare_upper_bound (version : string) (r : CompatibilityReport) (n : JS.Number) :
  maxMajor (parseNodeVersionRequirement version) = Some n ->
  compareNodeVersion version r = r.
Proof.
  intros Hmax. unfold compareNodeVersion.
  destruct (parse_one_field version) as [[_ H] | [[Hm He] | [H _]]];
    [cbv zeta in H; congruence | | cbv zeta in H; congruence].
  cbv zeta in Hm, He. rewrite Hm, He. reflexivity.
Qed.

Lemma parse_exact (v : bool) (d tail : string) :
  number d = true ->
  exactMatch (optV v ++ d ++ tail) = Some d ->
  parseNodeVersionRequirement (optV v ++ d ++ tail)
  = {| minMajor := None; maxMajor := None; exact := Some (JS.parseInt d) |}.
Proof.
  intros _ H. unfold parseNodeVersionRequirement. now rewrite H.
Qed.

Lemma parse_lower_bound (v : bool) (d : string) :
  number d = true ->
  parseNodeVersionRequirement (">=" ++ optV v ++ d)
  = {| minMajor := Some (JS.parseInt d); maxMajor := None; exact := None |}.
Proof.
  intros Hd. unfold parseNodeVersionRequirement.
  change (exactMatch (">=" ++ optV v ++ d)) with (@None string).
  change (rangeMatch (">=" ++ optV v ++ d)) with (boundDigits (optV v ++ d)).
  now rewrite boundDigits_token.
Qed.

(** A lower bound above 18 and an exact version above 18: the warning the
    comparisons add to a report without warnings. *)
Lemma compare_lower_bound (v : bool) (d : string) :
  number d = true ->
  (18 < JS.digitsValue 0 d)%Z ->
  warnings (compareNodeVersion (">=" ++ optV v ++ d) initialReport)
  = [("Project requires Node.js " ++ (">=" ++ optV v ++ d) ++ ", WebContainers run Node 18")%string].
Proof.
  intros Hd Hn. rewrite compareNodeVersion_by_fields. cbv zeta.
  rewrite (parse_lower_bound v d Hd). cbn [minMajor exact andGt andLt].
  unfold JS.parseInt. rewrite nonZero_toNumber, above_toNumber by reflexivity.
  replace (JS.digitsValue 0 d =? 0)%Z with false by (symmetry; apply Z.eqb_neq; lia).
  replace (18 <? JS.digitsValue 0 d)%Z with true by (symmetry; apply Z.ltb_lt; lia).
  reflexivity.
Qed.

Lemma compare_exact_newer (v : bool) (d tail : string) :
  number d = true ->
  exactMatch (optV v ++ d ++ tail) = Some d ->
  (18 < JS.digitsValue 0 d)%Z ->
  warnings (compareNodeVersion (optV v ++ d ++ tail) initialReport)
  = [("Project targets Node.js " ++ JS.showNumber (JS.parseInt d)
      ++ ", WebContainers run Node 18")%string].
Proof.
  intros Hd Hm Hn. rewrite compareNodeVersion_by_fields. cbv zeta.
  rewrite (parse_exact v d tail Hd Hm). cbn [minMajor exact andGt andLt showExact].
  assert (E1 : JS.nonZero (JS.parseInt d) = true).
  { unfold JS.parseInt. rewrite nonZero_toNumber. apply negb_true_iff, Z.eqb_neq. lia. }
  assert (E2 : JS.above 18 (JS.parseInt d) = true).
  { unfold JS.parseInt. rewrite above_toNumber by reflexivity. apply Z.ltb_lt. lia. }
  assert (E3 : JS.below 14 (JS.parseInt d) = false).
  { unfold JS.parseInt. rewrite below_toNumber by discriminate. apply Z.ltb_ge. lia. }
  rewrite E1, E2, E3. reflexivity.
Qed.

(** C6, as the code has it: the constraint is [engines.node] when that is
    truthy and else the trimmed text of [.nvmrc]; it is parsed with three
    patterns: exact [v?N] followed by at most two [.N] groups, lower bound
    [>=v?N], and upper bound [<v?N] recorded as [N-1], each [N] as the
    Number [parseInt] reads (the value of the digits below [2^53]).  For a
    lower bound and for an exact version above 18 the report of
    [checkCompatibility] starts with the warning.  The version block adds
    to [warnings] only: [canRun] and [issues] of the report are decided by
    the dependency scan alone. *)
Theorem node_version_constraint :
  forall (v : bool) (d d1 d2 : string),
    number d = true -> number d1 = true -> number d2 = true ->
    parseNodeVersionRequirement (optV v ++ d)
    = {| minMajor := None; maxMajor := None; exact := Some (JS.parseInt d) |}
    /\ parseNodeVersionRequirement (optV v ++ d ++ "." ++ d1)
       = {| minMajor := None; maxMajor := None; exact := Some (JS.parseInt d) |}
    /\ parseNodeVersionRequirement (optV v ++ d ++ "." ++ d1 ++ "." ++ d2)
       = {| minMajor := None; maxMajor := None; exact := Some (JS.parseInt d) |}
    /\ parseNodeVersionRequirement (">=" ++ optV v ++ d)
       = {| minMajor := Some (JS.parseInt d); maxMajor := None; exact := None |}
    /\ parseNodeVersionRequirement ("<" ++ optV v ++ d)
       = {| minMajor := None; maxMajor := Some (JS.pred (JS.parseInt d)); exact := None |}
    /\ ((JS.digitsValue 0 d < 2 ^ 53)%Z ->
        JS.parseInt d = JS.Finite (JS.digitsValue 0 d)
        /\ JS.pred (JS.parseInt d) = JS.Finite (JS.digitsValue 0 d - 1))
    /\ (forall tree pkg version,
           Json.prop' (Json.prop pkg "engines") "node" = Some (JStr version) ->
           version <> "" ->
           extractNodeVersion tree pkg = Some (JStr version))
    /\ (forall tree pkg contents,
           Json.truthy' (Json.prop' (Json.prop pkg "engines") "node") = false ->
           Json.lookup ".nvmrc" tree = Some (FileNode contents) ->
           extractNodeVersion tree pkg = Some (JStr (JS.trim contents)))
    /\ (forall JSON_parse tree r version,
           Json.truthy (extractPackageJson JSON_parse tree) = true ->
           extractNodeVersion tree (extractPackageJson JSON_parse tree) = Some (JStr version) ->
           checkCompatibility JSON_parse tree nodejs = Normal r ->
           (18 < JS.digitsValue 0 d)%Z ->
           (version = (">=" ++ optV v ++ d)%string ->
            exists rest,
              warnings r
              = ("Project requires Node.js " ++ version ++ ", WebContainers run Node 18")%string
                :: rest)
           /\ (version = (optV v ++ d)%string
               \/ version = (optV v ++ d ++ "." ++ d1)%string
               \/ version = (optV v ++ d ++ "." ++ d1 ++ "." ++ d2)%string ->
               exists rest,
                 warnings r
                 = ("Project targets Node.js " ++ JS.showNumber (JS.parseInt d)
                    ++ ", WebContainers run Node 18")%string
                   :: rest))
    /\ (forall tree pkg r r',
           checkNodeVersion tree pkg r = Normal r' -> addsWarningsOnly r r')
    /\ (forall JSON_parse tree r,
           Json.truthy (extractPackageJson JSON_parse tree) = true ->
           checkCompatibility JSON_parse tree nodejs = Normal r ->
           exists a,
             analyzeDependencies (extractPackageJson JSON_parse tree) = Normal a
             /\ canRun r = match gitSsh a with [] => true | _ => false end
             /\ issues r = match gitSsh a with [] => [] | names => [gitSshIssue names] end).
Proof.
  intros v d d1 d2 Hd H1 H2.
  assert (E0 : exactMatch (optV v ++ d ++ "") = Some d)
    by (rewrite string_app_nil; now apply exactMatch_major).
  pose proof (exactMatch_minor v d d1 Hd H1) as E1.
  pose proof (exactMatch_patch v d d1 d2 Hd H1 H2) as E2.
  split; [|split; [|split; [|split; [|split; [|split; [|split; [|split; [|split; [|split]]]]]]]]].
  - rewrite <- (string_app_nil d) at 1. now apply parse_exact.
  - now apply parse_exact.
  - now apply parse_exact.
  - now apply parse_lower_bound.
  - unfold parseNodeVersionRequirement.
    change (exactMatch ("<" ++ optV v ++ d)) with (@None string).
    change (rangeMatch ("<" ++ optV v ++ d)) with (@None string).
    change (ltMatch ("<" ++ optV v ++ d)) with (boundDigits (optV v ++ d)).
    now rewrite boundDigits_token.
  - intros Hsmall. unfold JS.parseInt. rewrite (toNumber_small _ Hsmall).
    split; [reflexivity|]. cbn [JS.pred]. apply toNumber_small. lia.
  - intros tree pkg version Hnode Hne. unfold extractNodeVersion. rewrite Hnode.
    cbn [Json.truthy' Json.truthy].
    destruct (String.eqb_spec version ""); [contradiction | reflexivity].
  - intros tree pkg contents Hnode Hfile. unfold extractNodeVersion.
    now rewrite Hnode, Hfile.
  - intros JSON_parse tree r version Hpkg Hv Hr Hn.
    destruct (report_warnings _ _ _ _ Hpkg Hv Hr) as (rest & E & _).
    split.
    + intros ->. exists rest. rewrite E, (compare_lower_bound v d Hd Hn). reflexivity.
    + intros Hform. exists rest. rewrite E.
      destruct Hform as [->| [->| ->]].
      * rewrite <- (string_app_nil d) at 1.
        rewrite (compare_exact_newer v d "" Hd E0 Hn). reflexivity.
      * rewrite (compare_exact_newer v d _ Hd E1 Hn). reflexivity.
      * rewrite (compare_exact_newer v d _ Hd E2 Hn). reflexivity.
  - apply checkNodeVersion_warnings.
  - intros JSON_parse tree r Hpkg Hr.
    destruct (checkCompatibility_gate _ _ _ Hpkg Hr) as (a & Ea & Hcase).
    exists a. split; [exact Ea|].
    destruct Hcase as [(-> & -> & -> & _) | (Hne & -> & -> & _)]; [now split|].
    destruct (gitSsh a); [congruence | now split].
Qed.

Lemma node_version_constraint_witness :
  parseNodeVersionRequirement "v18.2.1"
  = {| minMajor := None; maxMajor := None; exact := Some (JS.Finite 18) |}
  /\ parseNodeVersionRequirement ">=v18"
     = {| minMajor := Some (JS.Finite 18); maxMajor := None; exact := None |}
  /\ parseNodeVersionRequirement "<v18"
     = {| minMajor := None; maxMajor := Some (JS.Finite 17); exact := None |}.
Proof.
  destruct (node_version_constraint true "18" "2" "1" eq_refl eq_refl eq_refl)
    as (_ & _ & H3 & H4 & H5 & _).
  exact (conj H3 (conj H4 H5)).
Defined.

(** A major version that is no Number is rounded as [parseInt] rounds it
    and printed as a template literal prints it. *)
Lemma rounded_version_warning :
  JS.parseInt "9007199254740993" = JS.Finite 9007199254740992
  /\ JS.showNumber (JS.parseInt "99999999999999999999999") = "1e+23"
  /\ checkCompatibility
       (fun _ => Some (JObj [("engines", JObj [("node", JStr "99999999999999999999999")]);
                             ("scripts", JObj [("dev", JStr "node index.js")])]))
       [("package.json", FileNode "")] nodejs
     = Normal {| canRun := true; issues := [];
                 warnings := ["Project targets Node.js 1e+23, WebContainers run Node 18"];
                 suggestions := [];
                 nodeVersion := Some (JStr "99999999999999999999999");
                 hasNativeDeps := false; hasGitSshDeps := false;
                 frameworkDetected := None |}.
Proof.
  split; [|split]; vm_compute; reflexivity.
Qed.

(** C6 as stated fails on its exact pattern and on the upper bound: the
    version [20.1.2.3] has the form [v?N(.N)*] and is not parsed as exact
    (no warning is given for it, though 20 is not 18), and the upper bound
    [<16], recorded as 15, is below 18 and gives no warning either. *)
Lemma node_version_spec_patterns_differ :
  specExact "20.1.2.3" = Some (JS.Finite 20)
  /\ parseNodeVersionRequirement "20.1.2.3" = noRequirement
  /\ (forall JSON_parse : string -> option JSON,
         JSON_parse (fst Examples.fourPartManifest) = Some (snd Examples.fourPartManifest) ->
         exists r,
           checkCompatibility JSON_parse
             (Examples.treeOf Examples.fourPartManifest) nodejs = Normal r
           /\ warnings r = [])
  /\ parseNodeVersionRequirement "<16"
     = {| minMajor := None; maxMajor := Some (JS.Finite 15); exact := None |}
  /\ (forall JSON_parse : string -> option JSON,
         JSON_parse (fst Examples.upperBoundManifest) = Some (snd Examples.upperBoundManifest) ->
         exists r,
           checkCompatibility JSON_parse
             (Examples.treeOf Examples.upperBoundManifest) nodejs = Normal r
           /\ warnings r = []).
Proof.
  split; [reflexivity|]. split; [reflexivity|]. split; [|split; [reflexivity|]];
    intros JSON_parse H; rewrite (checkCompatibility_parsed _ _ _ H eq_refl);
    eexists; (split; [vm_compute; reflexivity | reflexivity]).
Qed.

(** ** C2: the install ladder *)

Lemma attempts_app (es1 es2 : list Effect) :
  attempts (es1 ++ es2) = attempts es1 ++ attempts es2.
Proof.
  induction es1 as [|e es1 IH]; [reflexivity|].
  destruct e; cbn [app attempts]; now rewrite IH.
Qed.

Section Ladder.

Variable wc : WebContainer.
Variable hasPackageLock : bool.

Lemma attempts_ranWith (message : string) (args : list string) (o : Outcome) :
  attempts (ranWith message args o) = [(args, o)].
Proof. destruct o; reflexivity. Qed.

Lemma seq_effects {A B : Type} (m : M wc A) (f : A -> M wc B) (c : box wc) :
  snd (seq wc m f c)
  = match m c with
    | (inr a, c1, e1) => e1 ++ snd (f a c1)
    | (inl _, _, e1) => e1
    end.
Proof.
  unfold seq. destruct (m c) as [[[t|a] c1] e1]; [reflexivity|].
  destruct (f a c1) as [[r c2] e2]. reflexivity.
Qed.

Lemma strategy1_cases (l : Locals) (c : box wc) :
  installOutput l = "" ->
  if hasPackageLock
  then strategyRuns wc (strategy1 wc hasPackageLock l) l true (rungArgs NpmCi) c
  else strategy1 wc hasPackageLock l c = (inr l, c, []).
Proof.
  intros Hout. unfold strategy1. destruct hasPackageLock; [|reflexivity].
  eexists. unfold seq, emit, ret, runCommandWithTimeout, noAudit. cbn [rungArgs].
  destruct (runNpm wc c ["ci"; "--no-audit"; "--no-fund"]) as [[code out|out|e] c'];
    [rewrite Hout; reflexivity | eexists; reflexivity | eexists; reflexivity].
Qed.

Lemma strategy2_cases (l : Locals) (c : box wc) :
  if (installExitCode l =? 0)%Z
  then strategy2 wc l c = (inr l, c, [])
  else strategyRuns wc (strategy2 wc l) l true (rungArgs NpmInstall) c.
Proof.
  unfold strategy2. destruct (installExitCode l =? 0)%Z; [reflexivity|].
  eexists. unfold seq, emit, ret, runCommandWithTimeout, noAudit. cbn [rungArgs negb].
  destruct (runNpm wc c ["install"; "--no-audit"; "--no-fund"]) as [[code out|out|e] c'];
    [reflexivity | eexists; reflexivity | eexists; reflexivity].
Qed.

Lemma strategy3_cases (l : Locals) (c : box wc) :
  if negb (installExitCode l =? 0)%Z && hasPeerDepError (installOutput l)
  then strategyRuns wc (strategy3 wc l) l true (rungArgs LegacyPeerDeps) c
  else strategy3 wc l c = (inr l, c, []).
Proof.
  unfold strategy3.
  destruct (negb (installExitCode l =? 0)%Z && hasPeerDepError (installOutput l));
    [|reflexivity].
  eexists. unfold seq, emit, ret, runCommandWithTimeout, noAudit. cbn [rungArgs].
  destruct (runNpm wc c ["install"; "--legacy-peer-deps"; "--no-audit"; "--no-fund"])
    as [[code out|out|e] c'];
    [reflexivity | eexists; reflexivity | eexists; reflexivity].
Qed.

Lemma strategy4_cases (l : Locals) (c : box wc) :
  if (installExitCode l =? 0)%Z
  then strategy4 wc l c = (inr l, c, [])
  else strategyRuns wc (strategy4 wc l) l true (rungArgs Force) c.
Proof.
  unfold strategy4. destruct (installExitCode l =? 0)%Z; [reflexivity|].
  eexists. unfold seq, emit, ret, runCommandWithTimeout, noAudit. cbn [rungArgs negb].
  destruct (runNpm wc c ["install"; "--force"; "--no-audit"; "--no-fund"])
    as [[code out|out|e] c'];
    [reflexivity | eexists; reflexivity | eexists; reflexivity].
Qed.

Lemma strategy5_cases (l : Locals) (c : box wc) :
  if negb (installExitCode l =? 0)%Z && hasPostInstallError (installOutput l)
  then strategyRuns wc (strategy5 wc l) l false (rungArgs IgnoreScripts) c
  else strategy5 wc l c = (inr l, c, []).
Proof.
  unfold strategy5.
  destruct (negb (installExitCode l =? 0)%Z && hasPostInstallError (installOutput l));
    [|reflexivity].
  eexists. unfold seq, emit, ret, runCommandWithTimeout, noAudit. cbn [rungArgs].
  destruct (runNpm wc c ["install"; "--ignore-scripts"; "--legacy-peer-deps"; "--no-audit"; "--no-fund"])
    as [[code out|out|e] c'];
    [reflexivity | eexists; reflexivity | eexists; reflexivity].
Qed.

(** After an exit with code zero every later strategy is skipped. *)
Lemma skipped_after_success (l : Locals) (c : box wc) :
  installExitCode l = 0%Z ->
  strategy2 wc l c = (inr l, c, [])
  /\ strategy3 wc l c = (inr l, c, [])
  /\ strategy4 wc l c = (inr l, c, [])
  /\ strategy5 wc l c = (inr l, c, []).
Proof.
  intros H.
  pose proof (strategy2_cases l c) as H2. pose proof (strategy3_cases l c) as H3.
  pose proof (strategy4_cases l c) as H4. pose proof (strategy5_cases l c) as H5.
  rewrite H in H2, H3, H4, H5. cbn [Z.eqb negb andb] in H2, H3, H4, H5. auto.
Qed.

Lemma stops_after (rung : Rung) (o : Outcome) :
  match o with Exited _ _ => False | _ => True end ->
  nextRung hasPackageLock (Some (rung, o)) = None.
Proof. destruct o; [contradiction | reflexivity | reflexivity]. Qed.

Lemma follows_last (l : Locals) (output : list Chunk) (c : box wc) :
  captured output = installOutput l ->
  follows hasPackageLock
    (Some (Force, Exited (installExitCode l) output))
    (attempts (snd (strategy5 wc l c))).
Proof.
  intros Hout.
  pose proof (strategy5_cases l c) as H.
  destruct (installExitCode l =? 0)%Z eqn:Hz;
    destruct (hasPostInstallError (installOutput l)) eqn:Hp; cbn [negb andb] in H;
    try (rewrite H; cbn [snd attempts follows nextRung]; now rewrite Hz, ?Hout, ?Hp).
  destruct H as (message & H).
  destruct (runNpm wc c (rungArgs IgnoreScripts)) as [[code out|out|e] c'];
    [|destruct H as (t & H)|destruct H as (t & H)];
    rewrite H; cbn [snd]; rewrite attempts_ranWith; cbn [follows];
    exists IgnoreScripts; (split; [cbn [nextRung]; now rewrite Hz, Hout, Hp|]);
    (split; [reflexivity|]); cbn [nextRung]; try reflexivity.
  now destruct (code =? 0)%Z.
Qed.

Lemma follows_from_force (rung : Rung) (l : Locals) (output : list Chunk) (c : box wc) :
  captured output = installOutput l ->
  nextRung hasPackageLock (Some (rung, Exited (installExitCode l) output))
  = (if (installExitCode l =? 0)%Z then None else Some Force) ->
  follows hasPackageLock
    (Some (rung, Exited (installExitCode l) output))
    (attempts (snd (seq wc (strategy4 wc l) (fun l4 => strategy5 wc l4) c))).
Proof.
  intros Hout Hnext. rewrite seq_effects.
  pose proof (strategy4_cases l c) as H.
  destruct (installExitCode l =? 0)%Z eqn:Hz.
  - apply Z.eqb_eq in Hz.
    destruct (skipped_after_success l c Hz) as (_ & _ & _ & H5).
    rewrite H, H5. cbn [snd app attempts follows]. exact Hnext.
  - destruct H as (message & H).
    destruct (runNpm wc c (rungArgs Force)) as [[code out|out|e] c'];
      [|destruct H as (t & H)|destruct H as (t & H)];
      rewrite H; rewrite ?attempts_app, attempts_ranWith; cbn [app follows];
      exists Force; (split; [exact Hnext|]); (split; [reflexivity|]);
      try reflexivity.
    apply (follows_last {| installExitCode := code; installOutput := captured out |} out c').
    reflexivity.
Qed.

Lemma follows_from_legacy (l : Locals) (output : list Chunk) (c : box wc) :
  captured output = installOutput l ->
  follows hasPackageLock
    (Some (NpmInstall, Exited (installExitCode l) output))
    (attempts
       (snd (seq wc (strategy3 wc l)
               (fun l3 => seq wc (strategy4 wc l3) (fun l4 => strategy5 wc l4)) c))).
Proof.
  intros Hout. rewrite seq_effects.
  pose proof (strategy3_cases l c) as H.
  destruct (installExitCode l =? 0)%Z eqn:Hz;
    destruct (hasPeerDepError (installOutput l)) eqn:Hp; cbn [negb andb] in H;
    try (rewrite H; cbn [app]; apply follows_from_force; [exact Hout|]; cbn [nextRung];
         now rewrite Hz, ?Hout, ?Hp).
  destruct H as (message & H).
  destruct (runNpm wc c (rungArgs LegacyPeerDeps)) as [[code out|out|e] c'];
    [|destruct H as (t & H)|destruct H as (t & H)];
    rewrite H; rewrite ?attempts_app, attempts_ranWith; cbn [app follows];
    exists LegacyPeerDeps; (split; [cbn [nextRung]; now rewrite Hz, Hout, Hp|]);
    (split; [reflexivity|]); try reflexivity.
  apply (follows_from_force LegacyPeerDeps
           {| installExitCode := code; installOutput := captured out |} out c');
    reflexivity.
Qed.

Lemma follows_from_install (previous : option (Rung * Outcome)) (l : Locals) (c : box wc) :
  (installExitCode l =? 0)%Z = false ->
  nextRung hasPackageLock previous = Some NpmInstall ->
  follows hasPackageLock previous
    (attempts
       (snd (seq wc (strategy2 wc l)
               (fun l2 => seq wc (strategy3 wc l2)
                 (fun l3 => seq wc (strategy4 wc l3) (fun l4 => strategy5 wc l4))) c))).
Proof.
  intros Hz Hnext. rewrite seq_effects.
  pose proof (strategy2_cases l c) as H. rewrite Hz in H.
  destruct H as (message & H).
  destruct (runNpm wc c (rungArgs NpmInstall)) as [[code out|out|e] c'];
    [|destruct H as (t & H)|destruct H as (t & H)];
    rewrite H; rewrite ?attempts_app, attempts_ranWith; cbn [app follows];
    exists NpmInstall; (split; [exact Hnext|]); (split; [reflexivity|]);
    try reflexivity.
  apply (follows_from_legacy {| installExitCode := code; installOutput := captured out |} out c').
  reflexivity.
Qed.

End Ladder.

(** The attempts of the install phase are those of the ladder. *)
Lemma install_follows (wc : WebContainer) (hasPackageLock : bool) (c : box wc) :
  follows hasPackageLock None (attempts (snd (install wc hasPackageLock c))).
Proof.
  unfold install. rewrite seq_effects.
  pose proof (strategy1_cases wc hasPackageLock
                {| installExitCode := -1; installOutput := "" |} c eq_refl) as H.
  destruct hasPackageLock.
  - destruct H as (message & H).
    destruct (runNpm wc c (rungArgs NpmCi)) as [[code out|out|e] c'];
      [|destruct H as (t & H)|destruct H as (t & H)];
      rewrite H; rewrite ?attempts_app, attempts_ranWith; cbn [app follows];
      exists NpmCi; (split; [reflexivity|]); (split; [reflexivity|]);
      try reflexivity.
    destruct (code =? 0)%Z eqn:Hz.
    + apply Z.eqb_eq in Hz.
      destruct (skipped_after_success wc
                  {| installExitCode := code; installOutput := captured out |}
                  c' Hz) as (E2 & E3 & E4 & E5).
      rewrite seq_effects, E2. cbn [app].
      rewrite seq_effects, E3. cbn [app].
      rewrite seq_effects, E4. cbn [app].
      rewrite E5. cbn [snd attempts follows nextRung].
      apply Z.eqb_eq in Hz. now rewrite Hz.
    + apply follows_from_install; [exact Hz|]. cbn [nextRung]. now rewrite Hz.
  - rewrite H. cbn [app]. now apply follows_from_install.
Qed.

Lemma afterInstall_attempts (JSON_parse : string -> option JSON) (wc : WebContainer)
      (pkg : JSON) (l : Locals) (c : box wc) :
  attempts (snd (afterInstall JSON_parse wc pkg l c)) = [].
Proof.
  unfold afterInstall, seq, emit, get, ret, spawnServer.
  destruct (negb (installExitCode l =? 0)%Z); [reflexivity|].
  destruct (findDevScript JSON_parse wc c); [|reflexivity].
  destruct (spawnNpm wc c _ _) as [[e|] c']; reflexivity.
Qed.

(** The install commands of a run are those of its install phase; a run
    that the git+ssh test stops makes none. *)
Lemma mainFlow_attempts (JSON_parse : string -> option JSON) (wc : WebContainer) (c : box wc) :
  attempts (snd (mainFlow JSON_parse wc c))
  = if Json.truthy (readJsonFile JSON_parse wc "package.json" c)
       && hasGitSshDependencies (readJsonFile JSON_parse wc "package.json" c)
    then []
    else attempts (snd (install wc (fileExists wc "package-lock.json" c) c)).
Proof.
  assert (Hcatch : forall (r : Thrown + RunPhase) (c' : box wc) (es : list Effect),
             attempts (snd (match r with
                            | inr phase => (phase, c', es)
                            | inl e => (Stopped, c', es ++ [OnError (thrownMessage e);
                                                           OnStatusChange error])
                            end)) = attempts es).
  { intros [e|phase] c' es; cbn [snd]; [|reflexivity].
    rewrite attempts_app. cbn [attempts]. apply app_nil_r. }
  unfold mainFlow.
  destruct (tryBlock JSON_parse wc c) as [[r c'] es] eqn:E.
  rewrite Hcatch. change es with (snd (r, c', es)). rewrite <- E. clear E Hcatch.
  unfold tryBlock. rewrite seq_effects. unfold get at 1. cbn [app].
  destruct (Json.truthy _ && hasGitSshDependencies _); [reflexivity|].
  rewrite seq_effects. unfold emit at 1.
  rewrite seq_effects. unfold get at 1.
  rewrite seq_effects. unfold get at 1.
  rewrite seq_effects. unfold get at 1.
  rewrite seq_effects. cbn [app attempts].
  destruct (install wc (fileExists wc "package-lock.json" c) c) as [[[t|l] c1] e1];
    cbn [snd]; [reflexivity|].
  rewrite attempts_app, afterInstall_attempts. apply app_nil_r.
Qed.

(** Once an attempt exits with code zero the ladder stops. *)
Lemma follows_stops_at_success (hasPackageLock : bool) (previous : option (Rung * Outcome))
      (args : list string) (output : list Chunk) (rest : list (list string * Outcome)) :
  follows hasPackageLock previous ((args, Exited 0 output) :: rest) -> rest = [].
Proof.
  cbn [follows]. intros (rung & _ & _ & H).
  destruct rest as [|[args' o'] rest]; [reflexivity|].
  cbn [follows nextRung Z.eqb] in H. destruct H as (rung' & H & _). discriminate H.
Qed.

(** What each rung of the ladder comes after. *)
Lemma nextRung_after (hasPackageLock : bool) (previous : option (Rung * Outcome)) (rung : Rung) :
  nextRung hasPackageLock previous = Some rung ->
  match previous with
  | None => rung = (if hasPackageLock then NpmCi else NpmInstall)
  | Some (before, outcome) =>
      exists code output,
        outcome = Exited code output
        /\ code <> 0%Z
        /\ (rank before < rank rung)%nat
        /\ match rung with
           | NpmCi => False
           | NpmInstall => before = NpmCi
           | LegacyPeerDeps => before = NpmInstall /\ hasPeerDepError (captured output) = true
           | Force =>
               before = LegacyPeerDeps
               \/ (before = NpmInstall /\ hasPeerDepError (captured output) = false)
           | IgnoreScripts => before = Force /\ hasPostInstallError (captured output) = true
           end
  end.
Proof.
  destruct previous as [[before [code output|output|e]]|]; cbn [nextRung];
    [|discriminate|discriminate|congruence].
  destruct (code =? 0)%Z eqn:Hz; [discriminate|]. apply Z.eqb_neq in Hz.
  intros H. exists code, output. split; [reflexivity|]. split; [exact Hz|].
  destruct before;
    try destruct (hasPeerDepError (captured output)) eqn:Hp;
    try destruct (hasPostInstallError (captured output)) eqn:Hq;
    try discriminate H;
    injection H as <-; cbn [rank]; repeat split; auto; lia.
Qed.

(** Two attempts in a row: the first failed, and the second is the rung
    the ladder has after it. *)
Lemma follows_consecutive (hasPackageLock : bool) (before : list (list string * Outcome)) :
  forall (previous : option (Rung * Outcome)) (args1 args2 : list string) (o1 o2 : Outcome)
         (rest : list (list string * Outcome)),
    follows hasPackageLock previous (before ++ (args1, o1) :: (args2, o2) :: rest) ->
    exists rung1 rung2 code output,
      args1 = rungArgs rung1 /\ args2 = rungArgs rung2
      /\ o1 = Exited code output /\ code <> 0%Z
      /\ (rank rung1 < rank rung2)%nat
      /\ match rung2 with
         | NpmCi => False
         | NpmInstall => rung1 = NpmCi
         | LegacyPeerDeps => rung1 = NpmInstall /\ hasPeerDepError (captured output) = true
         | Force =>
             rung1 = LegacyPeerDeps
             \/ (rung1 = NpmInstall /\ hasPeerDepError (captured output) = false)
         | IgnoreScripts => rung1 = Force /\ hasPostInstallError (captured output) = true
         end.
Proof.
  induction before as [|[args o] before IH]; intros previous args1 args2 o1 o2 rest;
    cbn [app follows].
  - intros (rung1 & _ & -> & rung2 & Hnext & -> & _).
    destruct (nextRung_after _ _ _ Hnext) as (code & output & -> & Hcode & Hrank & Hafter).
    exists rung1, rung2, code, output. auto 7.
  - intros (rung & _ & _ & H). eapply IH. exact H.
Qed.

(** The last attempt of a ladder that failed: the ladder has no rung
    after it. *)
Lemma follows_gives_up (hasPackageLock : bool) (before : list (list string * Outcome)) :
  forall (previous : option (Rung * Outcome)) (args : list string) (code : Z)
         (output : list Chunk),
    follows hasPackageLock previous (before ++ [(args, Exited code output)]) ->
    code <> 0%Z ->
    args = rungArgs IgnoreScripts
    \/ (args = rungArgs Force /\ hasPostInstallError (captured output) = false).
Proof.
  induction before as [|[args' o'] before IH]; intros previous args code output;
    cbn [app follows].
  - intros (rung & _ & -> & Hend) Hcode. cbn [nextRung] in Hend.
    apply Z.eqb_neq in Hcode. rewrite Hcode in Hend.
    destruct rung; try discriminate Hend; [|now left].
    right. split; [reflexivity|].
    now destruct (hasPostInstallError (captured output)).
  - intros (rung & _ & _ & H). eapply IH. exact H.
Qed.

Lemma follows_first (hasPackageLock : bool) (args : list string) (o : Outcome)
      (rest : list (list string * Outcome)) :
  follows hasPackageLock None ((args, o) :: rest) ->
  args = rungArgs (if hasPackageLock then NpmCi else NpmInstall).
Proof.
  cbn [follows nextRung]. intros (rung & Hr & -> & _). now injection Hr as <-.
Qed.

Lemma follows_some (hasPackageLock : bool) (log : list (list string * Outcome)) :
  follows hasPackageLock None log -> log <> [].
Proof. destruct log; [discriminate | discriminate]. Qed.

(** The commands of a run are run in the container. *)
Section Plays.

Variable wc : WebContainer.

Lemma played_app (l1 l2 : list (list string * Outcome)) :
  forall c : box wc,
    played wc c l1 -> played wc (boxAfter wc c l1) l2 -> played wc c (l1 ++ l2).
Proof.
  induction l1 as [|[args o] l1 IH]; intros c; cbn [played boxAfter app]; [auto|].
  intros [E H1] H2. split; [exact E|]. now apply IH.
Qed.

Lemma boxAfter_app (l1 l2 : list (list string * Outcome)) :
  forall c : box wc, boxAfter wc c (l1 ++ l2) = boxAfter wc (boxAfter wc c l1) l2.
Proof.
  induction l1 as [|[args o] l1 IH]; intros c; cbn [boxAfter app]; [reflexivity|]. apply IH.
Qed.

Lemma Plays_ret {A : Type} (a : A) : Plays wc (ret wc a).
Proof. intros c. now split. Qed.

Lemma Plays_get {A : Type} (f : box wc -> A) : Plays wc (get wc f).
Proof. intros c. now split. Qed.

Lemma Plays_emit (es : list Effect) : attempts es = [] -> Plays wc (emit wc es).
Proof. intros H c. cbn [emit snd fst]. rewrite H. now split. Qed.

Lemma Plays_seq {A B : Type} (m : M wc A) (f : A -> M wc B) :
  Plays wc m -> (forall a, Plays wc (f a)) -> Plays wc (seq wc m f).
Proof.
  intros Hm Hf c. unfold seq. specialize (Hm c).
  destruct (m c) as [[[t|a] c1] e1]; cbn [snd fst] in Hm |- *; [exact Hm|].
  specialize (Hf a c1). destruct (f a c1) as [[r c2] e2]. cbn [snd fst] in Hf |- *.
  destruct Hm as [Hp1 ->]. destruct Hf as [Hp2 ->].
  rewrite attempts_app, boxAfter_app. split; [now apply played_app | reflexivity].
Qed.

Lemma Plays_runCommandWithTimeout (args : list string) (label : string) :
  Plays wc (runCommandWithTimeout wc args label).
Proof.
  intros c. unfold runCommandWithTimeout.
  destruct (runNpm wc c args) as [[code out|out|e] c'] eqn:E;
    cbn [snd fst attempts played boxAfter]; rewrite E; cbn [fst snd]; auto.
Qed.

Lemma install_plays (hasPackageLock : bool) : Plays wc (install wc hasPackageLock).
Proof.
  unfold install, strategy1, strategy2, strategy3, strategy4, strategy5.
  repeat first
    [ apply Plays_ret
    | apply Plays_runCommandWithTimeout
    | apply Plays_emit; reflexivity
    | apply Plays_seq; [|intros ?]
    | match goal with
      | |- Plays _ (if ?b then _ else _) => destruct b
      end ].
Qed.

End Plays.

(** C2, as the code has it: a run that its git+ssh test stops installs
    nothing, and any other run makes the install commands of a strictly
    ordered ladder, one after the other in the container, in which a later
    rung is tried only after the previous attempt exited with a code other
    than zero: [npm ci] only when package-lock.json exists, plain
    [npm install], [--legacy-peer-deps] only when the text captured while
    the plain install ran shows a peer-dependency conflict, [--force]
    after every other failure, and [--ignore-scripts --legacy-peer-deps]
    only when the text captured while the forced install ran shows a
    failed install script or native build.  The run gives up only after
    one of the last two rungs.  When the first attempt exits zero it is
    the only one: [npm ci] with a lockfile, plain [npm install] without.
    The text captured while a command runs is the output its process has
    delivered when the exit is seen, and what the processes of earlier
    attempts deliver late. *)
Theorem install_ladder :
  forall (JSON_parse : string -> option JSON) (wc : WebContainer) (c : box wc),
    let pkg := readJsonFile JSON_parse wc "package.json" c in
    let hasPackageLock := fileExists wc "package-lock.json" c in
    let log := attempts (snd (mainFlow JSON_parse wc c)) in
    (log = [] <-> Json.truthy pkg && hasGitSshDependencies pkg = true)
    /\ played wc c log
    /\ (log = [] \/ follows hasPackageLock None log)
    /\ (Json.truthy pkg && hasGitSshDependencies pkg = false ->
        exists rest,
          log = ( rungArgs (if hasPackageLock then NpmCi else NpmInstall),
                  fst (runNpm wc c (rungArgs (if hasPackageLock then NpmCi else NpmInstall))) )
                :: rest
          /\ forall output,
               fst (runNpm wc c (rungArgs (if hasPackageLock then NpmCi else NpmInstall)))
               = Exited 0 output ->
               rest = [])
    /\ (forall before args1 o1 args2 o2 rest,
           log = before ++ (args1, o1) :: (args2, o2) :: rest ->
           exists rung1 rung2 code output,
             args1 = rungArgs rung1 /\ args2 = rungArgs rung2
             /\ o1 = Exited code output /\ code <> 0%Z
             /\ (rank rung1 < rank rung2)%nat
             /\ match rung2 with
                | NpmCi => False
                | NpmInstall => rung1 = NpmCi
                | LegacyPeerDeps =>
                    rung1 = NpmInstall /\ hasPeerDepError (captured output) = true
                | Force =>
                    rung1 = LegacyPeerDeps
                    \/ (rung1 = NpmInstall /\ hasPeerDepError (captured output) = false)
                | IgnoreScripts =>
                    rung1 = Force /\ hasPostInstallError (captured output) = true
                end)
    /\ (forall before args code output,
           log = before ++ [(args, Exited code output)] ->
           code <> 0%Z ->
           args = rungArgs IgnoreScripts
           \/ (args = rungArgs Force /\ hasPostInstallError (captured output) = false)).
Proof.
  intros JSON_parse wc c pkg hasPackageLock log.
  assert (Hlog : log = if Json.truthy pkg && hasGitSshDependencies pkg then []
                       else attempts (snd (install wc hasPackageLock c)))
    by apply mainFlow_attempts.
  pose proof (install_follows wc hasPackageLock c) as Hf.
  pose proof (install_plays wc hasPackageLock c) as [Hp _].
  destruct (Json.truthy pkg && hasGitSshDependencies pkg); rewrite Hlog.
  - split; [now split|]. split; [exact I|]. split; [now left|].
    split; [discriminate|].
    split; intros [|? ?]; intros; discriminate.
  - split; [split; [intros E; now apply follows_some in Hf | discriminate]|].
    split; [exact Hp|]. split; [now right|].
    split; [|split].
    + intros _. destruct (attempts (snd (install wc hasPackageLock c))) as [|[args o] rest];
        [now apply follows_some in Hf|].
      pose proof (follows_first _ _ _ _ Hf) as ->. destruct Hp as [<- _].
      exists rest. split; [reflexivity|]. intros output E. rewrite E in Hf.
      eapply follows_stops_at_success. exact Hf.
    + intros before args1 o1 args2 o2 rest E. rewrite E in Hf.
      eapply follows_consecutive. exact Hf.
    + intros before args code output E Hcode. rewrite E in Hf.
      eapply follows_gives_up; [exact Hf | exact Hcode].
Qed.

(** C2 as stated fails where it takes the text that is classified to be
    the output of the previous attempt: a run in which [npm ci] fails
    having delivered nothing, the text of its peer-dependency conflict
    arrives while the plain [npm install] runs, and that install fails
    with an output of its own that shows no such conflict, goes on to
    [--legacy-peer-deps]. *)
Lemma late_output_is_classified :
  let output := [Late "npm ERR! code ERESOLVE"; Own "npm ERR! code E404"] in
  attempts
    (snd (mainFlow Examples.JSON_parse Examples.scripted
            {| Examples.files := [ ("package.json", fst Examples.viteManifest);
                                   ("package-lock.json", "{}") ];
               Examples.outcomes := [Exited 1 []; Exited 1 output; Exited 0 []] |}))
  = [ (rungArgs NpmCi, Exited 1 []);
      (rungArgs NpmInstall, Exited 1 output);
      (rungArgs LegacyPeerDeps, Exited 0 []) ]
  /\ hasPeerDepError (ownText output) = false
  /\ hasPeerDepError (captured output) = true.
Proof. vm_compute. auto. Qed.

(** ** C3: the ready notification is given once at most *)

Lemma readyNotices_app (es1 es2 : list Effect) :
  readyNotices (es1 ++ es2) = readyNotices es1 + readyNotices es2.
Proof. unfold readyNotices. now rewrite filter_app, length_app. Qed.

Lemma readyStatuses_app (es1 es2 : list Effect) :
  readyStatuses (es1 ++ es2) = readyStatuses es1 + readyStatuses es2.
Proof. unfold readyStatuses. now rewrite filter_app, length_app. Qed.

Lemma latched_trans (b1 b2 b3 : bool) (es1 es2 : list Effect) :
  latched b1 b2 es1 -> latched b2 b3 es2 -> latched b1 b3 (es1 ++ es2).
Proof.
  unfold latched. intros (E1 & N1 & K1) (E2 & N2 & K2).
  rewrite readyNotices_app, readyStatuses_app, <- E1, <- E2, N1, N2.
  destruct b1, b2, b3; repeat split; auto; try (specialize (K1 eq_refl)); try (specialize (K2 eq_refl));
    congruence.
Qed.

Lemma latched_nil (b : bool) : latched b b [].
Proof. unfold latched. destruct b; repeat split; auto. Qed.

Lemma latched_quiet (b : bool) (es : list Effect) :
  forallb quiet es = true -> latched b b es.
Proof.
  intros H.
  assert (readyNotices es = 0 /\ readyStatuses es = 0) as [N S].
  { unfold readyNotices, readyStatuses.
    induction es as [|e es IH]; [now split|].
    cbn [forallb] in H. apply andb_true_iff in H as [He H].
    destruct (IH H) as [N S]. unfold quiet in He. apply negb_true_iff, orb_false_iff in He.
    destruct He as [He1 He2]. cbn [filter]. now rewrite He1, He2. }
  unfold latched. rewrite N, S. destruct b; repeat split; auto.
Qed.

Lemma DevServer_step_latched (serving : bool) (l : Latch) (s : Signal) :
  latched (serverReadyFired l) (serverReadyFired (fst (DevServer.step serving l s)))
          (snd (DevServer.step serving l s)).
Proof.
  destruct l as [fired pending grace].
  destruct s as [port url|data| | |code]; cbn [DevServer.step].
  - unfold DevServer.handleServerReady. cbn [serverReadyFired].
    destruct fired; [apply latched_nil|].
    destruct (isLoopback url); [now apply latched_quiet|].
    cbn [fst snd fire serverReadyFired]. unfold latched. repeat split; auto.
  - destruct serving; [|apply latched_nil].
    unfold DevServer.write. cbn [serverReadyFired fst snd].
    match goal with |- context [if ?b then _ else _] => destruct b end;
      now apply latched_quiet.
  - cbn [graceTimers]. destruct (0 <? grace)%nat; [|apply latched_nil].
    unfold DevServer.graceTimer. cbn [fst snd graceDue serverReadyFired].
    apply latched_quiet. now destruct fired.
  - cbn [serverReadyTimeout]. destruct pending; [|apply latched_nil].
    unfold DevServer.readyTimeout. cbn [fst snd clearTimeout serverReadyFired].
    apply latched_quiet. now destruct fired.
  - destruct serving; [|apply latched_nil].
    unfold DevServer.exit. cbn [fst snd clearTimeout serverReadyFired].
    apply latched_quiet. now destruct (negb (code =? 0)%Z && negb fired).
Qed.

Lemma DevServer_steps_latched (serving : bool) (ss : list Signal) (l : Latch) :
  latched (serverReadyFired l) (serverReadyFired (fst (DevServer.steps serving l ss)))
          (snd (DevServer.steps serving l ss)).
Proof.
  revert l. induction ss as [|s ss IH]; intros l; cbn [DevServer.steps].
  - apply latched_nil.
  - pose proof (DevServer_step_latched serving l s) as H1.
    destruct (DevServer.step serving l s) as [l1 e1]. cbn [fst snd] in H1.
    specialize (IH l1). destruct (DevServer.steps serving l1 ss) as [l2 e2].
    cbn [fst snd] in IH |- *. eapply latched_trans; eassumption.
Qed.

Lemma StaticSite_step_latched (l : Latch) (s : Signal) :
  latched (serverReadyFired l) (serverReadyFired (fst (StaticSite.step l s)))
          (snd (StaticSite.step l s)).
Proof.
  destruct l as [fired pending grace].
  destruct s as [port url|data| | |code]; cbn [StaticSite.step].
  - unfold StaticSite.handleServerReady. cbn [serverReadyFired].
    destruct fired; [apply latched_nil|].
    cbn [fst snd fire serverReadyFired]. unfold latched. repeat split; auto.
  - unfold StaticSite.write. cbn [serverReadyFired fst snd].
    match goal with |- context [if ?b then _ else _] => destruct b end;
      now apply latched_quiet.
  - cbn [graceTimers]. destruct (0 <? grace)%nat; [|apply latched_nil].
    unfold StaticSite.graceTimer, StaticSite.handleServerReady.
    cbn [serverReadyFired graceDue]. destruct fired; cbn [negb fst snd serverReadyFired fire].
    + apply latched_nil.
    + unfold latched. repeat split; auto.
  - cbn [serverReadyTimeout]. destruct pending; [|apply latched_nil].
    unfold StaticSite.readyTimeout. cbn [fst snd clearTimeout serverReadyFired].
    apply latched_quiet. now destruct fired.
  - unfold StaticSite.exit. cbn [fst snd clearTimeout serverReadyFired].
    apply latched_quiet. now destruct (negb (code =? 0)%Z && negb fired).
Qed.

Lemma StaticSite_steps_latched (ss : list Signal) (l : Latch) :
  latched (serverReadyFired l) (serverReadyFired (fst (StaticSite.steps l ss)))
          (snd (StaticSite.steps l ss)).
Proof.
  revert l. induction ss as [|s ss IH]; intros l; cbn [StaticSite.steps].
  - apply latched_nil.
  - pose proof (StaticSite_step_latched l s) as H1.
    destruct (StaticSite.step l s) as [l1 e1]. cbn [fst snd] in H1.
    specialize (IH l1). destruct (StaticSite.steps l1 ss) as [l2 e2].
    cbn [fst snd] in IH |- *. eapply latched_trans; eassumption.
Qed.

(** Effects of one kind only: the steps of the [try] block compose. *)
Create HintDb only.

Section Only.

Variable P : Effect -> bool.
Variable wc : WebContainer.

Lemma Only_ret {A : Type} (a : A) : Only P wc (ret wc a).
Proof. intros c. reflexivity. Qed.

Lemma Only_get {A : Type} (f : box wc -> A) : Only P wc (get wc f).
Proof. intros c. reflexivity. Qed.

Lemma Only_emit (es : list Effect) :
  forallb P es = true -> Only P wc (emit wc es).
Proof. intros H c. exact H. Qed.

Lemma Only_seq {A B : Type} (m : M wc A) (f : A -> M wc B) :
  Only P wc m -> (forall a, Only P wc (f a)) -> Only P wc (seq wc m f).
Proof.
  intros Hm Hf c. rewrite seq_effects. specialize (Hm c).
  destruct (m c) as [[[t|a] c1] e1]; cbn [snd] in Hm; [exact Hm|].
  rewrite forallb_app, Hm. apply Hf.
Qed.

Lemma Only_runCommandWithTimeout (args : list string) (label : string) :
  (forall o, P (Ran args o) = true) ->
  (forall data, P (Print data) = true) ->
  Only P wc (runCommandWithTimeout wc args label).
Proof.
  intros Hran Hprint c. unfold runCommandWithTimeout.
  destruct (runNpm wc c args) as [[code out|out|e] c']; cbn [snd forallb];
    now rewrite ?Hran, ?Hprint.
Qed.

End Only.

#[local] Hint Resolve Only_ret Only_get : only.

Ltac only_steps :=
  repeat first
    [ solve [auto with only]
    | apply Only_emit; reflexivity
    | apply Only_runCommandWithTimeout; reflexivity
    | apply Only_seq; [|intros ?]
    | match goal with
      | |- Only _ _ (if ?b then _ else _) => destruct b
      | |- Only _ _ (match ?x with Some _ => _ | None => _ end) => destruct x
      end ].

(** The install phase gives no ready notification and spawns no server. *)
Lemma install_only (P : Effect -> bool) (wc : WebContainer) (hasPackageLock : bool) :
  (forall args o, P (Ran args o) = true) ->
  (forall data, P (Print data) = true) ->
  Only P wc (install wc hasPackageLock).
Proof.
  intros Hran Hprint.
  assert (Hrun : forall args label, Only P wc (runCommandWithTimeout wc args label))
    by (intros; apply Only_runCommandWithTimeout; auto).
  assert (Hemit : forall data, Only P wc (emit wc [Print data]))
    by (intros data c; cbn [emit snd forallb]; now rewrite Hprint).
  unfold install, strategy1, strategy2, strategy3, strategy4, strategy5. only_steps.
Qed.

Lemma spawnServer_quiet (wc : WebContainer) (args : list string) (env : option (list (string * string))) :
  Only quiet wc (spawnServer wc args env).
Proof.
  intros c. unfold spawnServer.
  destruct (spawnNpm wc c args env) as [[e|] c']; reflexivity.
Qed.

(** The [try] block and its [catch] never give the ready notification. *)
Lemma tryBlock_quiet (JSON_parse : string -> option JSON) (wc : WebContainer) :
  Only quiet wc (tryBlock JSON_parse wc).
Proof.
  unfold tryBlock, afterInstall.
  pose proof (fun b => install_only quiet wc b (fun _ _ => eq_refl) (fun _ => eq_refl)).
  pose proof (spawnServer_quiet wc). only_steps.
Qed.

Lemma mainFlow_quiet (JSON_parse : string -> option JSON) (wc : WebContainer) (c : box wc) :
  forallb quiet (snd (mainFlow JSON_parse wc c)) = true.
Proof.
  unfold mainFlow. pose proof (tryBlock_quiet JSON_parse wc c) as H.
  destruct (tryBlock JSON_parse wc c) as [[[e|phase] c'] es]; cbn [snd] in H |- *;
    [|exact H].
  rewrite forallb_app, H. reflexivity.
Qed.

Lemma DevServer_run_latched (JSON_parse : string -> option JSON) (wc : WebContainer) (c : box wc)
      (early : list (Z * string)) (late : list Signal) :
  latched false (serverReadyFired (fst (DevServer.startDevServer JSON_parse wc c early late)))
          (snd (DevServer.startDevServer JSON_parse wc c early late)).
Proof.
  unfold DevServer.startDevServer.
  pose proof (DevServer_steps_latched false
                (map (fun pu => ServerReadyEvent (fst pu) (snd pu)) early) initialLatch) as H1.
  destruct (DevServer.steps false initialLatch _) as [l1 e1]. cbn [fst snd] in H1.
  pose proof (mainFlow_quiet JSON_parse wc c) as H2.
  destruct (mainFlow JSON_parse wc c) as [[phase c'] e2]. cbn [snd] in H2.
  apply (latched_quiet (serverReadyFired l1)) in H2.
  destruct phase.
  - pose proof (DevServer_steps_latched false late (clearTimeout l1)) as H3.
    destruct (DevServer.steps false (clearTimeout l1) late) as [l3 e3].
    cbn [fst snd clearTimeout serverReadyFired] in H3 |- *.
    eapply latched_trans; [exact H1|]. eapply latched_trans; eassumption.
  - pose proof (DevServer_steps_latched true late (armTimeout l1)) as H3.
    destruct (DevServer.steps true (armTimeout l1) late) as [l3 e3].
    cbn [fst snd armTimeout serverReadyFired] in H3 |- *.
    eapply latched_trans; [exact H1|]. eapply latched_trans; eassumption.
Qed.

(** After the latch has fired every signal leaves it fired and is quiet. *)
Lemma step_after_latch (l : Latch) (serving : bool) (s : Signal) :
  serverReadyFired l = true ->
  serverReadyFired (fst (DevServer.step serving l s)) = true
  /\ forallb quiet (snd (DevServer.step serving l s)) = true
  /\ serverReadyFired (fst (StaticSite.step l s)) = true
  /\ forallb quiet (snd (StaticSite.step l s)) = true.
Proof.
  destruct l as [fired pending grace]. cbn [serverReadyFired]. intros ->.
  destruct s as [port url|data| | |code];
    cbn [DevServer.step StaticSite.step graceTimers serverReadyTimeout];
    unfold DevServer.handleServerReady, StaticSite.handleServerReady,
      DevServer.write, StaticSite.write, DevServer.graceTimer, StaticSite.graceTimer,
      DevServer.readyTimeout, StaticSite.readyTimeout, DevServer.exit, StaticSite.exit;
    cbn [serverReadyFired negb andb fst snd clearTimeout graceDue];
    try destruct serving; try destruct (0 <? grace)%nat; try destruct pending;
    rewrite ?andb_false_r; cbn [fst snd serverReadyFired]; repeat split.
Qed.

(** C3: in a run of [startDevServer], and in a run of [serveStaticSite],
    the ready notification ([onServerReady] with the transition to status
    [ready]) is given once at most, whatever "server-ready" events, output
    chunks, timers and exits occur and in whatever order; once the latch
    has fired, a "server-ready" event does nothing at all and an output
    chunk is forwarded without any test for readiness. *)
Theorem ready_at_most_once :
  (forall (JSON_parse : string -> option JSON) (wc : WebContainer) (c : box wc)
          (early : list (Z * string)) (late : list Signal),
      let es := snd (DevServer.startDevServer JSON_parse wc c early late) in
      readyNotices es <= 1 /\ readyStatuses es = readyNotices es)
  /\ (forall ss : list Signal,
         let es := snd (StaticSite.serveStaticSite ss) in
         readyNotices es <= 1 /\ readyStatuses es = readyNotices es)
  /\ (forall (l : Latch) (serving : bool) (s : Signal),
         serverReadyFired l = true ->
         serverReadyFired (fst (DevServer.step serving l s)) = true
         /\ forallb quiet (snd (DevServer.step serving l s)) = true
         /\ serverReadyFired (fst (StaticSite.step l s)) = true
         /\ forallb quiet (snd (StaticSite.step l s)) = true)
  /\ (forall (l : Latch) (url : string) (port : Z) (data : string),
         serverReadyFired l = true ->
         DevServer.handleServerReady url port l = (l, [])
         /\ DevServer.write data l = (l, [Print data])
         /\ StaticSite.handleServerReady url port l = (l, [])
         /\ StaticSite.write data l = (l, [OnOutput data])).
Proof.
  split; [|split; [|split]].
  - intros JSON_parse wc c early late es.
    destruct (DevServer_run_latched JSON_parse wc c early late) as (E & N & _).
    fold es in E, N. rewrite <- E, N.
    destruct (serverReadyFired _); split; auto.
  - intros ss es.
    destruct (StaticSite_steps_latched ss (armTimeout initialLatch)) as (E & N & _).
    cbn [armTimeout initialLatch serverReadyFired] in N.
    fold (StaticSite.serveStaticSite ss) in E, N. fold es in E, N. rewrite <- E, N.
    destruct (serverReadyFired _); split; auto.
  - apply step_after_latch.
  - intros [fired pending grace] url port data. cbn [serverReadyFired]. intros ->.
    repeat split.
Qed.

(** ** C4: loopback URLs *)





(** The scenario of the specification on the dev-server path: an event
    with [http://localhost:5173] is passed over and the next event, for the
    same port, makes the run ready once. *)
Example loopback_then_external :
  DevServer.steps true (armTimeout initialLatch)
    [ ServerReadyEvent 5173 "http://localhost:5173";
      ServerReadyEvent 5173 "https://k03e2io1v3fx9wvj0vr8qd5q58o56n.local-credentialless.webcontainer.io";
      ServerReadyEvent 5173 "https://k03e2io1v3fx9wvj0vr8qd5q58o56n.local-credentialless.webcontainer.io" ]
  = ( {| serverReadyFired := true; serverReadyTimeout := false; graceTimers := 0 |},
      [ OnOutput (nl ++ yellow "⚠ Detected localhost URL (http://localhost:5173) - waiting for external URL..." ++ nl);
        OnOutput (nl ++ green "✓ Server ready on port 5173" ++ nl);
        OnServerReady "https://k03e2io1v3fx9wvj0vr8qd5q58o56n.local-credentialless.webcontainer.io";
        OnStatusChange ready ] ).
Proof. vm_compute. reflexivity. Qed.

(** ** C7: the exit of the server process *)

Lemma DevServer_steps_app (serving : bool) (ss1 ss2 : list Signal) :
  forall l : Latch,
    DevServer.steps serving l (ss1 ++ ss2)
    = ( fst (DevServer.steps serving (fst (DevServer.steps serving l ss1)) ss2),
        snd (DevServer.steps serving l ss1)
        ++ snd (DevServer.steps serving (fst (DevServer.steps serving l ss1)) ss2) ).
Proof.
  induction ss1 as [|s ss1 IH]; intros l; cbn [app DevServer.steps].
  - cbn [fst snd app]. now destruct (DevServer.steps serving l ss2).
  - destruct (DevServer.step serving l s) as [l1 e1]. rewrite IH.
    destruct (DevServer.steps serving l1 ss1) as [l2 e2]. cbn [fst snd].
    now rewrite app_assoc.
Qed.

Lemma StaticSite_steps_app (ss1 ss2 : list Signal) :
  forall l : Latch,
    StaticSite.steps l (ss1 ++ ss2)
    = ( fst (StaticSite.steps (fst (StaticSite.steps l ss1)) ss2),
        snd (StaticSite.steps l ss1)
        ++ snd (StaticSite.steps (fst (StaticSite.steps l ss1)) ss2) ).
Proof.
  induction ss1 as [|s ss1 IH]; intros l; cbn [app StaticSite.steps].
  - cbn [fst snd app]. now destruct (StaticSite.steps l ss2).
  - destruct (StaticSite.step l s) as [l1 e1]. rewrite IH.
    destruct (StaticSite.steps l1 ss1) as [l2 e2]. cbn [fst snd].
    now rewrite app_assoc.
Qed.

Lemma readyStatuses_In (es : list Effect) :
  (0 < readyStatuses es)%nat <-> In (OnStatusChange ready) es.
Proof.
  unfold readyStatuses. induction es as [|e es IH]; cbn [filter length In]; [split; [lia|tauto]|].
  destruct e as [status| | | | | | |]; cbn [isReadyStatus];
    try (rewrite IH; split; [now right | intros [H|H]; [discriminate H | exact H]]).
  destruct status; cbn [length];
    try (rewrite IH; split; [now right | intros [H|H]; [discriminate H | exact H]]).
  split; [now left | lia].
Qed.

(** The latch of a run has fired exactly when the run has given status
    [ready]. *)
Lemma latched_fired (fired : bool) (es : list Effect) :
  latched false fired es -> (fired = true <-> In (OnStatusChange ready) es).
Proof.
  intros (E1 & E2 & _). rewrite <- readyStatuses_In, <- E1, E2.
  destruct fired; split; try lia; try discriminate; reflexivity.
Qed.

(** The exit of the server among the signals of a run: what the run has
    done before it, what the exit callback adds, and the rest. *)
Lemma DevServer_exit_in_run (JSON_parse : string -> option JSON) (wc : WebContainer)
      (c : box wc) (early : list (Z * string)) (before after : list Signal) (code : Z) :
  fst (fst (mainFlow JSON_parse wc c)) = Serving ->
  let sofar := DevServer.startDevServer JSON_parse wc c early before in
  snd (DevServer.startDevServer JSON_parse wc c early (before ++ ServerExit code :: after))
  = snd sofar
    ++ snd (DevServer.exit code (fst sofar))
    ++ snd (DevServer.steps true (clearTimeout (fst sofar)) after).
Proof.
  intros Hphase. cbv zeta. unfold DevServer.startDevServer.
  destruct (DevServer.steps false initialLatch _) as [l1 e1].
  destruct (mainFlow JSON_parse wc c) as [[phase c'] e2]. cbn [fst] in Hphase. subst phase.
  rewrite DevServer_steps_app.
  destruct (DevServer.steps true (armTimeout l1) before) as [lb eb]. cbn [fst snd].
  cbn [DevServer.steps DevServer.step].
  unfold DevServer.exit at 1 2. cbn [fst snd].
  destruct (DevServer.steps true (clearTimeout lb) after) as [la ea]. cbn [fst snd].
  unfold DevServer.exit. cbn [snd]. now rewrite !app_assoc.
Qed.

(** C7: when the server process exits with a code other than zero in a run
    that has not yet given the ready notification (its latch has not
    fired), the run reports an error that carries the code and goes to
    status [error]; when it exits after the latch has fired, or with code
    zero, the exit adds nothing: no error is reported and the status does
    not change.  Both in a run of [startDevServer] that spawned its server
    and in [serveStaticSite]. *)
Theorem server_exit_before_ready :
  forall (JSON_parse : string -> option JSON) (wc : WebContainer) (c : box wc)
         (early : list (Z * string)) (before after : list Signal) (code : Z),
    let sofar := DevServer.startDevServer JSON_parse wc c early before in
    let static := StaticSite.serveStaticSite before in
    (fst (fst (mainFlow JSON_parse wc c)) = Serving ->
     snd (DevServer.startDevServer JSON_parse wc c early (before ++ ServerExit code :: after))
     = snd sofar
       ++ (if negb (code =? 0)%Z && negb (serverReadyFired (fst sofar))
           then [OnError (DevServer.exitMessage code); OnStatusChange error]
           else [])
       ++ snd (DevServer.steps true (clearTimeout (fst sofar)) after))
    /\ (serverReadyFired (fst sofar) = true <-> In (OnStatusChange ready) (snd sofar))
    /\ JS.includes (DevServer.exitMessage code) (JS.showZ code) = true
    /\ snd (StaticSite.serveStaticSite (before ++ ServerExit code :: after))
       = snd static
         ++ (if negb (code =? 0)%Z && negb (serverReadyFired (fst static))
             then [OnError (StaticSite.exitMessage code); OnStatusChange error]
             else [])
         ++ snd (StaticSite.steps (clearTimeout (fst static)) after)
    /\ (serverReadyFired (fst static) = true <-> In (OnStatusChange ready) (snd static))
    /\ JS.includes (StaticSite.exitMessage code) (JS.showZ code) = true.
Proof.
  intros JSON_parse wc c early before after code sofar static.
  split; [|split; [|split; [|split; [|split]]]].
  - intros Hphase. apply (DevServer_exit_in_run _ _ _ _ _ _ _ Hphase).
  - apply latched_fired. apply DevServer_run_latched.
  - apply includes_middle.
  - subst static. unfold StaticSite.serveStaticSite. rewrite StaticSite_steps_app.
    destruct (StaticSite.steps (armTimeout initialLatch) before) as [lb eb]. cbn [fst snd].
    cbn [StaticSite.steps StaticSite.step]. unfold StaticSite.exit. cbn [fst snd].
    destruct (StaticSite.steps (clearTimeout lb) after) as [la ea]. reflexivity.
  - apply latched_fired. subst static. unfold StaticSite.serveStaticSite.
    apply (StaticSite_steps_latched before (armTimeout initialLatch)).
  - apply includes_middle.
Qed.

(** An exit with code 1 in a run that is waiting, and after the ready
    notification. *)
Example exit_in_a_run :
  let run late := snd (DevServer.startDevServer Examples.JSON_parse Examples.scripted
                         (Examples.boxOf Examples.viteManifest []) [] late) in
  run [ServerExit 1]
  = run [] ++ [ OnError "Dev server exited with code 1. Check terminal for details.";
                OnStatusChange error ]
  /\ run [ServerReadyEvent 5173 "https://app.example.io"; ServerExit 1]
     = run [ServerReadyEvent 5173 "https://app.example.io"].
Proof. vm_compute. auto. Qed.

(** ** C5: the dev script *)

Lemma find_first {A : Type} (f : A -> bool) (l : list A) (x : A) :
  find f l = Some x ->
  exists before after,
    l = before ++ x :: after
    /\ f x = true
    /\ forallb (fun y => negb (f y)) before = true.
Proof.
  induction l as [|y l IH]; [discriminate|]. cbn [find].
  destruct (f y) eqn:Hy.
  - intros [= ->]. exists [], l. repeat split. exact Hy.
  - intros H. destruct (IH H) as (before & after & -> & Hx & Hb).
    exists (y :: before), after. repeat split; [exact Hx|].
    cbn [forallb]. now rewrite Hy, Hb.
Qed.

Lemma findDevScript_none (JSON_parse : string -> option JSON) (wc : WebContainer) (c : box wc) :
  findDevScript JSON_parse wc c = None
  <-> Json.truthy (readJsonFile JSON_parse wc "package.json" c) = false
      \/ forall s, In s devScripts -> runnable (scriptValue JSON_parse wc c s) = false.
Proof.
  unfold findDevScript, scriptValue.
  destruct (Json.truthy (readJsonFile JSON_parse wc "package.json" c)); cbn [negb].
  - split.
    + intros H. right. intros s Hs. exact (find_none _ _ H s Hs).
    + intros [H | H]; [discriminate|].
      destruct (find _ devScripts) as [s|] eqn:E; [|reflexivity].
      apply find_some in E as [Hin Hr]. rewrite (H s Hin) in Hr. discriminate.
  - split; auto.
Qed.

Lemma seq_inr {A B : Type} (wc : WebContainer) (m : M wc A) (f : A -> M wc B)
      (c c1 : box wc) (a : A) (e1 : list Effect) :
  m c = (inr a, c1, e1) ->
  seq wc m f c = (let '(r, c2, e2) := f a c1 in (r, c2, e1 ++ e2)).
Proof. unfold seq. now intros ->. Qed.

(** The run when the install succeeds and no script is found. *)
Lemma mainFlow_no_script (JSON_parse : string -> option JSON) (wc : WebContainer)
      (c0 c1 : box wc) (l : Locals) (es1 : list Effect) :
  Json.truthy (readJsonFile JSON_parse wc "package.json" c0)
  && hasGitSshDependencies (readJsonFile JSON_parse wc "package.json" c0) = false ->
  install wc (fileExists wc "package-lock.json" c0) c0 = (inr l, c1, es1) ->
  installExitCode l = 0%Z ->
  findDevScript JSON_parse wc c1 = None ->
  mainFlow JSON_parse wc c0
  = (Stopped, c1,
     OnStatusChange installing
     :: es1
     ++ [ Print (nl ++ green "✓ Dependencies installed successfully!" ++ nl ++ nl); Flush;
          OnError noScriptMessage; OnStatusChange error ]).
Proof.
  intros Hgit Hinstall Hcode Hscript.
  unfold mainFlow, tryBlock.
  rewrite (seq_inr wc _ _ c0 c0 _ [] eq_refl). rewrite Hgit.
  rewrite (seq_inr wc _ _ c0 c0 tt [OnStatusChange installing] eq_refl).
  rewrite (seq_inr wc _ _ c0 c0 _ [] eq_refl).
  rewrite (seq_inr wc _ _ c0 c0 _ [] eq_refl).
  rewrite (seq_inr wc _ _ c0 c0 _ [] eq_refl).
  rewrite (seq_inr wc _ _ c0 c1 l es1 Hinstall).
  unfold afterInstall. rewrite Hcode. cbn [Z.eqb negb].
  rewrite (seq_inr wc _ _ c1 c1 tt _ eq_refl).
  rewrite (seq_inr wc _ _ c1 c1 _ [] eq_refl). rewrite Hscript.
  rewrite (seq_inr wc _ _ c1 c1 tt _ eq_refl).
  cbn [ret app]. reflexivity.
Qed.

(** The run when the install succeeds, a script is found and the spawn
    succeeds. *)
Lemma mainFlow_spawns (JSON_parse : string -> option JSON) (wc : WebContainer)
      (c0 c1 c2 : box wc) (l : Locals) (es1 : list Effect) (script : string) :
  let config := detectFrameworkConfig (readJsonFile JSON_parse wc "package.json" c0) in
  Json.truthy (readJsonFile JSON_parse wc "package.json" c0)
  && hasGitSshDependencies (readJsonFile JSON_parse wc "package.json" c0) = false ->
  install wc (fileExists wc "package-lock.json" c0) c0 = (inr l, c1, es1) ->
  installExitCode l = 0%Z ->
  findDevScript JSON_parse wc c1 = Some script ->
  spawnNpm wc c1 (fc_args config) (fc_env config) = (None, c2) ->
  mainFlow JSON_parse wc c0
  = (Serving, c2,
     OnStatusChange installing
     :: es1
     ++ [ Print (nl ++ green "✓ Dependencies installed successfully!" ++ nl ++ nl); Flush;
          OnStatusChange running;
          OnOutput (cyan ("➜ Running npm " ++ JS.join " " (fc_args config)
                          ++ showName (fc_name config) ++ "...") ++ nl ++ nl);
          Spawned (fc_args config) (fc_env config) ]).
Proof.
  intros config Hgit Hinstall Hcode Hscript Hspawn.
  unfold mainFlow, tryBlock.
  rewrite (seq_inr wc _ _ c0 c0 _ [] eq_refl). rewrite Hgit.
  rewrite (seq_inr wc _ _ c0 c0 tt [OnStatusChange installing] eq_refl).
  rewrite (seq_inr wc _ _ c0 c0 _ [] eq_refl).
  rewrite (seq_inr wc _ _ c0 c0 _ [] eq_refl).
  rewrite (seq_inr wc _ _ c0 c0 _ [] eq_refl).
  rewrite (seq_inr wc _ _ c0 c1 l es1 Hinstall).
  unfold afterInstall. rewrite Hcode. cbn [Z.eqb negb].
  rewrite (seq_inr wc _ _ c1 c1 tt _ eq_refl).
  rewrite (seq_inr wc _ _ c1 c1 _ [] eq_refl). rewrite Hscript.
  rewrite (seq_inr wc _ _ c1 c1 tt [OnStatusChange running] eq_refl).
  cbv zeta. fold config.
  rewrite (seq_inr wc _ _ c1 c1 tt _ eq_refl).
  assert (Hs : spawnServer wc (fc_args config) (fc_env config) c1
               = (inr tt, c2, [Spawned (fc_args config) (fc_env config)]))
    by (unfold spawnServer; now rewrite Hspawn).
  rewrite (seq_inr wc _ _ c1 c2 tt _ Hs).
  cbn [ret app]. reflexivity.
Qed.

Lemma readJsonFile_parsed (JSON_parse : string -> option JSON) (manifest : string * JSON)
      (os : list Outcome) :
  JSON_parse (fst manifest) = Some (snd manifest) ->
  readJsonFile JSON_parse Examples.scripted "package.json" (Examples.boxOf manifest os)
  = snd manifest.
Proof.
  intros H. unfold readJsonFile.
  change (readFile Examples.scripted (Examples.boxOf manifest os) "package.json")
    with (Some (fst manifest)).
  cbv beta iota. now rewrite H.
Qed.

Lemma find_first_of {A : Type} (f : A -> bool) (before after : list A) (x : A) :
  f x = true ->
  forallb (fun y => negb (f y)) before = true ->
  find f (before ++ x :: after) = Some x.
Proof.
  intros Hx. induction before as [|y before IH]; cbn [app find forallb].
  - now rewrite Hx.
  - intros H. apply andb_true_iff in H as [Hy Hb].
    apply negb_true_iff in Hy. rewrite Hy. now apply IH.
Qed.

(** [findDevScript] returns the first of its five names whose value is a
    string that is not blank, and such a name is found whenever the
    manifest can be read and has one. *)
Lemma findDevScript_first (JSON_parse : string -> option JSON) (wc : WebContainer) (c : box wc)
      (script : string) :
  findDevScript JSON_parse wc c = Some script
  <-> Json.truthy (readJsonFile JSON_parse wc "package.json" c) = true
      /\ exists before after,
           devScripts = before ++ script :: after
           /\ runnable (scriptValue JSON_parse wc c script) = true
           /\ forallb (fun s => negb (runnable (scriptValue JSON_parse wc c s))) before = true.
Proof.
  unfold findDevScript, scriptValue.
  destruct (Json.truthy (readJsonFile JSON_parse wc "package.json" c)); cbn [negb].
  - split.
    + intros H. split; [reflexivity|]. apply find_first in H. exact H.
    + intros (_ & before & after & -> & Hx & Hb).
      exact (find_first_of
               (fun s => runnable (Json.prop (scriptsOrEmpty (readJsonFile JSON_parse wc "package.json" c)) s))
               before after script Hx Hb).
  - split; [discriminate | intros [H _]; discriminate].
Qed.

(** C5, as the code has it: the dev script is the first of dev, start,
    serve, develop and watch, in that order, that the manifest declares as
    a string that is not blank, and it is found whenever there is one;
    when the install has succeeded and the manifest cannot be read or none
    of the five names is declared so, the run reports that no dev/start
    script was found and ends in status [error] without spawning a
    dev-server process; when a script is found the run goes on to status
    [running]. *)
Theorem dev_script_or_error :
  forall (JSON_parse : string -> option JSON) (wc : WebContainer)
         (c0 c1 : box wc) (l : Locals) (es1 : list Effect),
    Json.truthy (readJsonFile JSON_parse wc "package.json" c0)
    && hasGitSshDependencies (readJsonFile JSON_parse wc "package.json" c0) = false ->
    install wc (fileExists wc "package-lock.json" c0) c0 = (inr l, c1, es1) ->
    installExitCode l = 0%Z ->
    devScripts = ["dev"; "start"; "serve"; "develop"; "watch"]
    /\ (forall script,
           findDevScript JSON_parse wc c1 = Some script
           <-> Json.truthy (readJsonFile JSON_parse wc "package.json" c1) = true
               /\ exists before after,
                    devScripts = before ++ script :: after
                    /\ runnable (scriptValue JSON_parse wc c1 script) = true
                    /\ forallb (fun s => negb (runnable (scriptValue JSON_parse wc c1 s)))
                               before = true)
    /\ (Json.truthy (readJsonFile JSON_parse wc "package.json" c1) = false
        \/ (forall s, In s devScripts -> runnable (scriptValue JSON_parse wc c1 s) = false) ->
        mainFlow JSON_parse wc c0
        = (Stopped, c1,
           OnStatusChange installing
           :: es1
           ++ [ Print (nl ++ green "✓ Dependencies installed successfully!" ++ nl ++ nl); Flush;
                OnError noScriptMessage; OnStatusChange error ])
        /\ forallb notSpawned (snd (mainFlow JSON_parse wc c0)) = true)
    /\ (forall script,
           findDevScript JSON_parse wc c1 = Some script ->
           exists es2,
             snd (mainFlow JSON_parse wc c0)
             = OnStatusChange installing
               :: es1
               ++ [ Print (nl ++ green "✓ Dependencies installed successfully!" ++ nl ++ nl);
                    Flush; OnStatusChange running ]
               ++ es2).
Proof.
  intros JSON_parse wc c0 c1 l es1 Hgit Hinstall Hcode.
  split; [reflexivity|]. split; [|split].
  - intros script. apply findDevScript_first.
  - intros Hnone.
    assert (Hfind : findDevScript JSON_parse wc c1 = None)
      by (apply findDevScript_none; exact Hnone).
    rewrite (mainFlow_no_script _ _ _ _ _ _ Hgit Hinstall Hcode Hfind).
    split; [reflexivity|]. cbn [snd forallb notSpawned isSpawned negb andb].
    rewrite forallb_app. cbn [forallb notSpawned isSpawned negb andb].
    rewrite andb_true_r.
    pose proof (install_only notSpawned wc (fileExists wc "package-lock.json" c0)
                  (fun _ _ => eq_refl) (fun _ => eq_refl) c0) as H.
    now rewrite Hinstall in H.
  - intros script Hscript.
    unfold mainFlow, tryBlock.
    rewrite (seq_inr wc _ _ c0 c0 _ [] eq_refl). rewrite Hgit.
    rewrite (seq_inr wc _ _ c0 c0 tt [OnStatusChange installing] eq_refl).
    rewrite (seq_inr wc _ _ c0 c0 _ [] eq_refl).
    rewrite (seq_inr wc _ _ c0 c0 _ [] eq_refl).
    rewrite (seq_inr wc _ _ c0 c0 _ [] eq_refl).
    rewrite (seq_inr wc _ _ c0 c1 l es1 Hinstall).
    unfold afterInstall. rewrite Hcode. cbn [Z.eqb negb].
    rewrite (seq_inr wc _ _ c1 c1 tt _ eq_refl).
    rewrite (seq_inr wc _ _ c1 c1 _ [] eq_refl). rewrite Hscript.
    rewrite (seq_inr wc _ _ c1 c1 tt [OnStatusChange running] eq_refl).
    cbv zeta.
    rewrite (seq_inr wc _ _ c1 c1 tt _ eq_refl).
    unfold seq, spawnServer, ret.
    destruct (spawnNpm wc c1 _ _) as [[e|] c2]; cbn [snd app];
      eexists; cbn [app]; rewrite <- ?app_assoc; cbn [app]; reflexivity.
Qed.

Lemma dev_script_or_error_witness :
  mainFlow Examples.JSON_parse Examples.scripted (Examples.boxOf Examples.bareManifest [])
  = (Stopped, Examples.boxOf Examples.bareManifest [],
     [ OnStatusChange installing;
       Print (cyan "➜ Running npm install..." ++ nl ++ nl);
       Ran ["install"; "--no-audit"; "--no-fund"] (Exited 0 []);
       Print "";
       Print (nl ++ green "✓ Dependencies installed successfully!" ++ nl ++ nl); Flush;
       OnError noScriptMessage; OnStatusChange error ]).
Proof.
  destruct (dev_script_or_error Examples.JSON_parse Examples.scripted
              (Examples.boxOf Examples.bareManifest [])
              (Examples.boxOf Examples.bareManifest [])
              {| installExitCode := 0; installOutput := "" |}
              [ Print (cyan "➜ Running npm install..." ++ nl ++ nl);
                Ran ["install"; "--no-audit"; "--no-fund"] (Exited 0 []);
                Print "" ]
              eq_refl eq_refl eq_refl) as (_ & _ & H & _).
  refine (proj1 (H _)). right.
  intros s Hs. cbn [devScripts In] in Hs.
  repeat (destruct Hs as [<- | Hs]; [reflexivity|]). contradiction.
Defined.

(** C5 as stated fails where only [watch] is declared: none of dev, start,
    serve and develop is a script of the manifest, yet the run goes to
    status [running] and spawns a server, with no error. *)
Lemma watch_script_spawns_server :
  Json.prop (snd Examples.watchManifest) "scripts" = Some (JObj [("watch", JStr "tsc -w")])
  /\ forall JSON_parse : string -> option JSON,
       JSON_parse (fst Examples.watchManifest) = Some (snd Examples.watchManifest) ->
       (forall s, In s ["dev"; "start"; "serve"; "develop"] ->
                  scriptValue JSON_parse Examples.scripted
                    (Examples.boxOf Examples.watchManifest []) s = None)
       /\ mainFlow JSON_parse Examples.scripted (Examples.boxOf Examples.watchManifest [])
          = ( Serving, Examples.boxOf Examples.watchManifest [],
              [ OnStatusChange installing;
                Print (cyan "➜ Running npm install..." ++ nl ++ nl);
                Ran ["install"; "--no-audit"; "--no-fund"] (Exited 0 []);
                Print "";
                Print (nl ++ green "✓ Dependencies installed successfully!" ++ nl ++ nl); Flush;
                OnStatusChange running;
                OnOutput (cyan "➜ Running npm run dev..." ++ nl ++ nl);
                Spawned ["run"; "dev"] None ] ).
Proof.
  split; [reflexivity|]. intros JSON_parse H.
  pose proof (readJsonFile_parsed JSON_parse Examples.watchManifest [] H) as Hread.
  split.
  - intros s Hs. unfold scriptValue. rewrite Hread. cbn [In] in Hs.
    repeat (destruct Hs as [<- | Hs]; [reflexivity|]). contradiction.
  - rewrite (mainFlow_spawns JSON_parse Examples.scripted
               (Examples.boxOf Examples.watchManifest [])
               (Examples.boxOf Examples.watchManifest [])
               (Examples.boxOf Examples.watchManifest [])
               {| installExitCode := 0; installOutput := "" |}
               [ Print (cyan "➜ Running npm install..." ++ nl ++ nl);
                 Ran ["install"; "--no-audit"; "--no-fund"] (Exited 0 []);
                 Print "" ]
               "watch").
    + rewrite Hread. reflexivity.
    + rewrite Hread. reflexivity.
    + reflexivity.
    + reflexivity.
    + unfold findDevScript. rewrite Hread. reflexivity.
    + reflexivity.
Qed.

(** ** C9: teardown *)

(** C9, as the code has it: [teardownWebContainer] returns on every session;
    it leaves the container instance, the shell process, the shell writer
    and the shell output callback cleared, and the boot promise cleared
    whenever a container instance was live or no boot was pending; a second
    call right after the first changes nothing and calls nothing, and so
    does a call when nothing is live. *)
Theorem teardown_idempotent :
  forall s : Session,
    teardownWebContainer (fst (teardownWebContainer s)) = (fst (teardownWebContainer s), [])
    /\ webcontainerInstance (fst (teardownWebContainer s)) = None
    /\ shellProcess (fst (teardownWebContainer s)) = None
    /\ shellWriter (fst (teardownWebContainer s)) = None
    /\ shellOutputCallback (fst (teardownWebContainer s)) = None
    /\ (webcontainerInstance s <> None \/ bootPromise s = None ->
        bootPromise (fst (teardownWebContainer s)) = None)
    /\ teardownWebContainer noSession = (noSession, []).
Proof.
  intros [instance promise process writer callback]. unfold teardownWebContainer.
  cbn [webcontainerInstance bootPromise shellProcess shellWriter shellOutputCallback].
  destruct instance as [i|]; cbn [fst webcontainerInstance bootPromise shellProcess
                                  shellWriter shellOutputCallback app];
    repeat split; try reflexivity; try (intros [H | H]; congruence).
Qed.

(** C9 as stated fails for a session whose boot is pending: after two calls
    in a row the boot promise is still set. *)
Lemma teardown_keeps_pending_boot :
  bootingSession = bootWebContainer_begin 1 noSession
  /\ bootPromise (fst (teardownWebContainer (fst (teardownWebContainer bootingSession))))
     = Some 1.
Proof. split; reflexivity. Qed.

(** ** C10: the two framework tables *)

(** C10, as the code has it: the exported [getDevServerConfig] and the
    orchestrator's [detectFrameworkConfig] give the same argv and env on
    the manifests for which the two detectors name the same framework, that
    framework is none or one of the ten the exported table has a case for,
    and the script [detectFrameworkConfig] selects (the first declared of
    dev, start, serve, develop, else dev) is the one the exported table
    names for that framework. *)
Theorem dev_server_tables_agree :
  forall (pkg : JSON) (a : Analysis),
    analyzeDependencies pkg = Normal a ->
    detectFramework pkg (allDeps a) = fc_name (detectFrameworkConfig pkg) ->
    In (fc_name (detectFrameworkConfig pkg)) exportedFrameworks ->
    baseArgs pkg = ["run"; tableScript (fc_name (detectFrameworkConfig pkg))] ->
    args (getDevServerConfig (detectFramework pkg (allDeps a)))
    = fc_args (detectFrameworkConfig pkg)
    /\ env (getDevServerConfig (detectFramework pkg (allDeps a)))
       = fc_env (detectFrameworkConfig pkg).
Proof.
  intros pkg a _ Hname Hin Hbase. rewrite Hname. clear Hname.
  revert Hin Hbase. unfold detectFrameworkConfig.
  destruct (negb (Json.truthy pkg)); [intros; split; reflexivity|].
  cbv zeta.
  repeat match goal with
         | |- context [if ?b then _ else _] => destruct b
         end;
    cbn [fc_name fc_args fc_env]; intros Hin Hbase;
    try (exfalso; cbn [In exportedFrameworks] in Hin;
         repeat (destruct Hin as [Hin | Hin]; [discriminate Hin|]); exact Hin);
    rewrite Hbase; split; reflexivity.
Qed.

Lemma dev_server_tables_agree_witness :
  args (getDevServerConfig (detectFramework (snd Examples.viteManifest) ["vite"]))
  = fc_args (detectFrameworkConfig (snd Examples.viteManifest))
  /\ env (getDevServerConfig (detectFramework (snd Examples.viteManifest) ["vite"]))
     = fc_env (detectFrameworkConfig (snd Examples.viteManifest)).
Proof.
  apply (dev_server_tables_agree (snd Examples.viteManifest)
           {| native := []; peerTrouble := []; gitSsh := []; allDeps := ["vite"] |}).
  - reflexivity.
  - reflexivity.
  - right. left. reflexivity.
  - reflexivity.
Defined.

(** C10 as stated fails: for an Express project the exported table sets no
    env where the orchestrator's sets PORT and HOST, and for a Vite project
    whose script is [start] the exported table runs [dev]. *)
Lemma dev_server_tables_differ :
  (exists a,
      analyzeDependencies (snd Examples.expressManifest) = Normal a
      /\ detectFramework (snd Examples.expressManifest) (allDeps a) = Some "Express"
      /\ env (getDevServerConfig (detectFramework (snd Examples.expressManifest) (allDeps a)))
         = None
      /\ fc_env (detectFrameworkConfig (snd Examples.expressManifest))
         = Some [("PORT", "3000"); ("HOST", "0.0.0.0")])
  /\ (exists a,
         analyzeDependencies viteStartManifest = Normal a
         /\ detectFramework viteStartManifest (allDeps a) = Some "Vite"
         /\ args (getDevServerConfig (detectFramework viteStartManifest (allDeps a)))
            = ["run"; "dev"; "--"; "--host"; "0.0.0.0"]
         /\ fc_args (detectFrameworkConfig viteStartManifest)
            = ["run"; "start"; "--"; "--host"; "0.0.0.0"]).
Proof.
  split; eexists; (split; [vm_compute; reflexivity | repeat split]).
Qed.

(** ** The end-to-end scenarios of the specification *)

(** Scenario A: a Vite manifest with a lockfile.  The first and only install
    command is [npm ci], the checker names Vite, and the server is spawned
    with the host override. *)
Example scenario_vite_with_lockfile :
  let c := {| Examples.files := [ ("package.json", fst Examples.viteManifest);
                                  ("package-lock.json", "{}") ];
              Examples.outcomes := [] |} in
  attempts (snd (mainFlow Examples.JSON_parse Examples.scripted c))
  = [(["ci"; "--no-audit"; "--no-fund"], Exited 0 [])]
  /\ In (Spawned ["run"; "dev"; "--"; "--host"; "0.0.0.0"] None)
        (snd (mainFlow Examples.JSON_parse Examples.scripted c))
  /\ exists r,
       checkCompatibility Examples.JSON_parse (Examples.treeOf Examples.viteManifest) nodejs
       = Normal r
       /\ canRun r = true /\ frameworkDetected r = Some "Vite".
Proof.
  cbv zeta. split; [reflexivity|]. split.
  - vm_compute. do 8 right. now left.
  - eexists. split; [vm_compute; reflexivity | split; reflexivity].
Qed.

(** Scenario B: a git+ssh dependency.  The checker blocks the project, and
    the run ends in [error] before any install command. *)
Example scenario_git_ssh_dependency :
  mainFlow Examples.JSON_parse Examples.scripted (Examples.boxOf Examples.leftpadManifest [])
  = ( Stopped, Examples.boxOf Examples.leftpadManifest [],
      [ OnStatusChange error; OnError gitSshMessage;
        Print (red "✗ Unsupported dependency source detected (git+ssh)." ++ nl); Flush ] )
  /\ exists r,
       checkCompatibility Examples.JSON_parse (Examples.treeOf Examples.leftpadManifest) nodejs
       = Normal r
       /\ canRun r = false
       /\ issues r = ["Git+SSH dependencies not supported: leftpad"].
Proof.
  split; [reflexivity|].
  eexists. split; [vm_compute; reflexivity | split; reflexivity].
Qed.

(** A run down the whole ladder: a peer conflict, then a failed forced
    install whose output names a native build, then the last rung. *)
Example scenario_whole_ladder :
  attempts
    (snd (mainFlow Examples.JSON_parse Examples.scripted
            (Examples.boxOf Examples.viteManifest
               [ Exited 1 [Own "npm ERR! code ERESOLVE"];
                 Exited 1 [Own "npm ERR! code E404"];
                 Exited 1 [Own "gyp ERR! build error"];
                 Exited 0 [] ])))
  = [ (rungArgs NpmInstall, Exited 1 [Own "npm ERR! code ERESOLVE"]);
      (rungArgs LegacyPeerDeps, Exited 1 [Own "npm ERR! code E404"]);
      (rungArgs Force, Exited 1 [Own "gyp ERR! build error"]);
      (rungArgs IgnoreScripts, Exited 0 []) ].
Proof. vm_compute. reflexivity. Qed.

(** * Further properties *)

(** ** The scan, without assumptions on the types *)

Lemma analyzeEntries_lists (entries : list (string * JSON)) (a a' : Analysis) :
  analyzeEntries a entries = Normal a' ->
  native a' = native a ++ filter (has NATIVE_PACKAGES) (map fst entries)
  /\ peerTrouble a' = peerTrouble a ++ filter (has PEER_DEP_TROUBLEMAKERS) (map fst entries)
  /\ gitSsh a' = gitSsh a ++ map fst (filter offending entries)
  /\ allDeps a' = allDeps a ++ map fst entries.
Proof.
  revert a. induction entries as [|[name version] entries IH]; intros a.
  - cbn [analyzeEntries filter map]. intros [= <-]. now rewrite !app_nil_r.
  - cbn [analyzeEntries analyzeEntry].
    destruct version as [| | |v| |]; cbn [bind]; try discriminate.
    intros H. apply IH in H as (Hn & Hp & Hg & Hd).
    cbn [native peerTrouble gitSsh allDeps] in Hn, Hp, Hg, Hd.
    cbn [map fst filter offending snd].
    rewrite Hn, Hp, Hg, Hd. repeat split.
    + destruct (has NATIVE_PACKAGES name); [now rewrite <- app_assoc | reflexivity].
    + destruct (has PEER_DEP_TROUBLEMAKERS name); [now rewrite <- app_assoc | reflexivity].
    + destruct (isGitSsh v); cbn [map fst]; [now rewrite <- app_assoc | reflexivity].
    + now rewrite <- app_assoc.
Qed.

Lemma analyzeDependencies_lists (pkg : JSON) (a : Analysis) :
  analyzeDependencies pkg = Normal a ->
  native a = filter (has NATIVE_PACKAGES) (map fst (allEntries pkg))
  /\ peerTrouble a = filter (has PEER_DEP_TROUBLEMAKERS) (map fst (allEntries pkg))
  /\ gitSsh a = map fst (filter offending (allEntries pkg))
  /\ allDeps a = map fst (allEntries pkg).
Proof.
  rewrite analyzeDependencies_entries. intros H.
  apply analyzeEntries_lists in H. exact H.
Qed.

(** The report of a Node.js project with a manifest, by its parts. *)
Lemma checkCompatibility_parts (JSON_parse : string -> option JSON) (tree : FileSystemTree)
      (r : CompatibilityReport) :
  Json.truthy (extractPackageJson JSON_parse tree) = true ->
  checkCompatibility JSON_parse tree nodejs = Normal r ->
  exists r1 a,
    checkNodeVersion tree (extractPackageJson JSON_parse tree) initialReport = Normal r1
    /\ analyzeDependencies (extractPackageJson JSON_parse tree) = Normal a
    /\ r = checkScripts (extractPackageJson JSON_parse tree)
             (set_frameworkDetected
                (detectFramework (extractPackageJson JSON_parse tree) (allDeps a))
                (reportPeer a (reportGitSsh a (reportNative a r1)))).
Proof.
  intros Hpkg. rewrite (checkCompatibility_nodejs _ _ Hpkg). cbv zeta.
  destruct (checkNodeVersion tree _ initialReport) as [r1|e]; cbn [bind]; [|discriminate].
  destruct (analyzeDependencies _) as [a|e]; cbn [bind]; [|discriminate].
  intros [= <-]. now exists r1, a.
Qed.

Lemma checkScripts_fields (pkg : JSON) (r : CompatibilityReport) :
  hasNativeDeps (checkScripts pkg r) = hasNativeDeps r
  /\ frameworkDetected (checkScripts pkg r) = frameworkDetected r.
Proof.
  unfold checkScripts.
  repeat match goal with |- context [if ?b then _ else _] => destruct b end; now split.
Qed.

Lemma report_fields (JSON_parse : string -> option JSON) (tree : FileSystemTree)
      (r : CompatibilityReport) :
  Json.truthy (extractPackageJson JSON_parse tree) = true ->
  checkCompatibility JSON_parse tree nodejs = Normal r ->
  exists a,
    analyzeDependencies (extractPackageJson JSON_parse tree) = Normal a
    /\ hasNativeDeps r = (0 <? length (native a))%nat
    /\ frameworkDetected r = detectFramework (extractPackageJson JSON_parse tree) (allDeps a).
Proof.
  intros Hpkg Hr.
  destruct (checkCompatibility_parts _ _ _ Hpkg Hr) as (r1 & a & Hv & Ha & ->).
  exists a. split; [exact Ha|].
  apply checkNodeVersion_warnings in Hv as (_ & _ & _ & Hn & _).
  cbn [hasNativeDeps initialReport] in Hn.
  destruct (checkScripts_fields (extractPackageJson JSON_parse tree)
              (set_frameworkDetected
                 (detectFramework (extractPackageJson JSON_parse tree) (allDeps a))
                 (reportPeer a (reportGitSsh a (reportNative a r1))))) as (-> & ->).
  cbn [set_frameworkDetected hasNativeDeps frameworkDetected]. split; [|reflexivity].
  unfold reportPeer, reportGitSsh, reportNative.
  repeat match goal with |- context [if ?b then _ else _] => destruct b end;
    cbn [hasNativeDeps push_suggestion push_warning push_issue set_canRun set_hasGitSshDeps
         set_hasNativeDeps]; try reflexivity; exact Hn.
Qed.

(** ** The quick check, and the report that blocks *)

Lemma join_head (sep first : string) (rest : list string) :
  exists tail, JS.join sep (first :: rest) = (first ++ tail)%string.
Proof.
  destruct rest as [|x rest]; cbn [JS.join].
  - exists "". now rewrite string_app_nil.
  - eexists. reflexivity.
Qed.

(** X1: whenever [checkCompatibility] returns a report for a Node.js
    project, [quickCompatibilityCheck] returns on the same tree and agrees
    with it: it blocks exactly when the report cannot run, which is exactly
    when the report has git+ssh dependencies; its reason, when it gives
    one, is the beginning of the one issue of the report (the reason names
    the first offending package, the issue all of them), and when it gives
    none the report has no issue. *)
Theorem quick_check_agrees_with_report :
  forall (JSON_parse : string -> option JSON) (tree : FileSystemTree) (r : CompatibilityReport),
    checkCompatibility JSON_parse tree nodejs = Normal r ->
    exists q,
      quickCompatibilityCheck JSON_parse tree = Normal q
      /\ blocked q = negb (canRun r)
      /\ blocked q = hasGitSshDeps r
      /\ match reason q with
         | Some text => exists issue, issues r = [issue] /\ String.prefix text issue = true
         | None => issues r = []
         end.
Proof.
  intros JSON_parse tree r Hr. unfold quickCompatibilityCheck.
  destruct (Json.truthy (extractPackageJson JSON_parse tree)) eqn:Hpkg; cbn [negb].
  - destruct (checkCompatibility_gate _ _ _ Hpkg Hr) as (a & -> & Hcase). cbn [bind].
    destruct Hcase as [(-> & -> & -> & ->) | (Hne & -> & -> & -> & _)].
    + eexists. repeat split.
    + destruct (gitSsh a) as [|first rest]; [congruence|].
      eexists. split; [reflexivity|]. cbn [blocked reason negb]. repeat split.
      eexists. split; [reflexivity|]. unfold gitSshIssue.
      destruct (join_head ", " first rest) as (tail & ->).
      rewrite <- string_app_assoc. apply prefix_app.
  - rewrite (checkCompatibility_no_manifest _ _ Hpkg) in Hr. injection Hr as <-.
    eexists. repeat split.
Qed.

Lemma quick_check_agrees_with_report_witness :
  exists q,
    quickCompatibilityCheck (fun _ => Some sshManifest) [("package.json", FileNode "")] = Normal q
    /\ blocked q = true
    /\ reason q = Some "Git+SSH dependencies not supported: a".
Proof.
  destruct (quick_check_agrees_with_report (fun _ => Some sshManifest)
              [("package.json", FileNode "")]
              {| canRun := false;
                 issues := ["Git+SSH dependencies not supported: a, b"];
                 warnings := ["No scripts in package.json"];
                 suggestions := [ "Replace git+ssh dependencies with npm packages or HTTPS URLs";
                                  "Add a 'dev' or 'start' script to run the project" ];
                 nodeVersion := None; hasNativeDeps := false; hasGitSshDeps := true;
                 frameworkDetected := None |}
              eq_refl) as (q & Hq & Hb & _).
  exists q. split; [exact Hq|]. split; [exact Hb|].
  vm_compute in Hq. injection Hq as <-. reflexivity.
Defined.

(** X2: a report that [checkCompatibility] returns, for any tree and any
    project type, cannot run exactly when it has an issue; it has one issue
    at most, a report that cannot run has a suggestion, and git+ssh
    dependencies always block. *)
Theorem report_blocks_with_a_reason :
  forall (JSON_parse : string -> option JSON) (tree : FileSystemTree)
         (projectType : ProjectType) (r : CompatibilityReport),
    checkCompatibility JSON_parse tree projectType = Normal r ->
    (canRun r = false <-> issues r <> [])
    /\ (length (issues r) <= 1)%nat
    /\ (canRun r = false -> suggestions r <> [])
    /\ (hasGitSshDeps r = true -> canRun r = false).
Proof.
  intros JSON_parse tree projectType r Hr.
  destruct projectType;
    try (injection Hr as <-; cbn; repeat split; try discriminate; try congruence; auto; lia).
  destruct (Json.truthy (extractPackageJson JSON_parse tree)) eqn:Hpkg.
  - destruct (checkCompatibility_gate _ _ _ Hpkg Hr) as (a & _ & Hcase).
    destruct Hcase as [(_ & -> & -> & ->) | (_ & -> & -> & -> & Hs)];
      cbn [length]; repeat split; try discriminate; try congruence; auto.
    intros _ E. rewrite E in Hs. exact Hs.
  - rewrite (checkCompatibility_no_manifest _ _ Hpkg) in Hr. injection Hr as <-.
    cbn; repeat split; try discriminate; try congruence; auto.
Qed.

Lemma report_blocks_with_a_reason_witness :
  exists r,
    checkCompatibility (fun _ => None) [] rust = Normal r
    /\ issues r <> []
    /\ suggestions r <> [].
Proof.
  eexists. split; [reflexivity|].
  destruct (report_blocks_with_a_reason (fun _ => None) [] rust _ eq_refl) as (H1 & _ & H2 & _).
  split; [apply H1; reflexivity | apply H2; reflexivity].
Defined.

(** ** The install strategy and the detected framework *)

Lemma filter_nil_existsb {A : Type} (f : A -> bool) (l : list A) :
  (0 <? length (filter f l))%nat = existsb f l.
Proof.
  induction l as [|x l IH]; [reflexivity|]. cbn [filter existsb].
  destruct (f x); [reflexivity | exact IH].
Qed.

(** X3: for a Node.js project with a manifest, the report has native
    dependencies exactly when a name declared in one of the three
    dependency sections is in [NATIVE_PACKAGES], and [getInstallStrategy]
    of the report adds [--ignore-scripts] to [install --no-audit --no-fund]
    exactly then; it sets no environment and always allows the retry. *)
Theorem install_strategy_follows_native_packages :
  forall (JSON_parse : string -> option JSON) (tree : FileSystemTree) (r : CompatibilityReport),
    Json.truthy (extractPackageJson JSON_parse tree) = true ->
    checkCompatibility JSON_parse tree nodejs = Normal r ->
    hasNativeDeps r
    = existsb (has NATIVE_PACKAGES) (declaredNames (extractPackageJson JSON_parse tree))
    /\ is_args (getInstallStrategy r)
       = (if existsb (has NATIVE_PACKAGES) (declaredNames (extractPackageJson JSON_parse tree))
          then ["install"; "--no-audit"; "--no-fund"; "--ignore-scripts"]
          else ["install"; "--no-audit"; "--no-fund"])
    /\ is_env (getInstallStrategy r) = None
    /\ retryWithLegacy (getInstallStrategy r) = true.
Proof.
  intros JSON_parse tree r Hpkg Hr.
  destruct (report_fields _ _ _ Hpkg Hr) as (a & Ha & Hn & _).
  apply analyzeDependencies_lists in Ha as (Hnative & _).
  assert (E : hasNativeDeps r
              = existsb (has NATIVE_PACKAGES)
                  (declaredNames (extractPackageJson JSON_parse tree))).
  { rewrite Hn, Hnative. apply filter_nil_existsb. }
  split; [exact E|]. rewrite <- E. unfold getInstallStrategy.
  destruct (hasNativeDeps r); repeat split.
Qed.

Lemma install_strategy_follows_native_packages_witness :
  exists r,
    checkCompatibility (fun _ => Some sharpManifest) [("package.json", FileNode "")] nodejs
    = Normal r
    /\ hasNativeDeps r = true
    /\ is_args (getInstallStrategy r) = ["install"; "--no-audit"; "--no-fund"; "--ignore-scripts"].
Proof.
  eexists. split; [vm_compute; reflexivity|].
  match goal with
  | |- hasNativeDeps ?r = _ /\ _ =>
      destruct (install_strategy_follows_native_packages
                  (fun _ => Some sharpManifest) [("package.json", FileNode "")] r
                  eq_refl eq_refl) as (H1 & H2 & _)
  end.
  split; [exact H1 | exact H2].
Defined.

(** ** detectFramework *)

Lemma has_In (set : list string) (x : string) : has set x = true <-> In x set.
Proof.
  unfold has. rewrite existsb_exists. split.
  - intros (y & Hy & E). apply String.eqb_eq in E. now subst.
  - intros H. exists x. split; [exact H | apply String.eqb_refl].
Qed.

Lemma has_ext (s1 s2 : list string) :
  (forall d, In d s1 <-> In d s2) -> forall x, has s1 x = has s2 x.
Proof.
  intros H x. destruct (has s1 x) eqn:E1, (has s2 x) eqn:E2; try reflexivity.
  - apply has_In, H, has_In in E1. congruence.
  - apply has_In, H, has_In in E2. congruence.
Qed.

Lemma find_pointwise {A : Type} (f g : A -> bool) (l : list A) :
  (forall x, f x = g x) -> find f l = find g l.
Proof.
  intros H. induction l as [|x l IH]; [reflexivity|]. cbn [find]. now rewrite H, IH.
Qed.

(** X4: [detectFramework] depends on the set of the declared names only,
    not on their order or number; it names no framework exactly when no
    dependency of [FRAMEWORK_PATTERNS] is declared, and otherwise the first
    framework of the table one of whose dependencies is declared. *)
Theorem detected_framework_by_table_order :
  forall (pkg pkg' : JSON) (deps deps' : list string),
    ((forall d, In d deps <-> In d deps') ->
     detectFramework pkg deps = detectFramework pkg' deps')
    /\ (detectFramework pkg deps = None
        <-> forall p d, In p FRAMEWORK_PATTERNS -> In d (fp_deps p) -> ~ In d deps)
    /\ (forall name,
           detectFramework pkg deps = Some name ->
           exists before p after,
             FRAMEWORK_PATTERNS = before ++ p :: after
             /\ fp_name p = name
             /\ (exists d, In d (fp_deps p) /\ In d deps)
             /\ forall q d, In q before -> In d (fp_deps q) -> ~ In d deps).
Proof.
  intros pkg pkg' deps deps'. split; [|split].
  - intros H. unfold detectFramework. f_equal. apply find_pointwise.
    intros p. induction (fp_deps p) as [|d ds IH]; [reflexivity|].
    cbn [existsb]. now rewrite IH, (has_ext deps deps' H).
  - unfold detectFramework. split.
    + intros H p d Hp Hd Hin.
      destruct (find _ FRAMEWORK_PATTERNS) as [q|] eqn:E; [discriminate|].
      pose proof (find_none _ _ E p Hp) as Hnone. cbv beta in Hnone.
      assert (existsb (has deps) (fp_deps p) = true); [|congruence].
      apply existsb_exists. exists d. split; [exact Hd | now apply has_In].
    + intros H. destruct (find _ FRAMEWORK_PATTERNS) as [q|] eqn:E; [|reflexivity].
      apply find_some in E as [Hq Hex]. apply existsb_exists in Hex as (d & Hd & Hin).
      apply has_In in Hin. now destruct (H q d Hq Hd).
  - intros name H. unfold detectFramework in H.
    destruct (find _ FRAMEWORK_PATTERNS) as [p|] eqn:E; [|discriminate].
    injection H as <-. apply find_first in E as (before & after & E & Hp & Hb).
    exists before, p, after. split; [exact E|]. split; [reflexivity|]. split.
    + apply existsb_exists in Hp as (d & Hd & Hin). exists d. split; [exact Hd|].
      now apply has_In.
    + intros q d Hq Hd Hin. rewrite forallb_forall in Hb. specialize (Hb q Hq).
      apply negb_true_iff in Hb.
      assert (existsb (has deps) (fp_deps q) = true); [|congruence].
      apply existsb_exists. exists d. split; [exact Hd | now apply has_In].
Qed.

(** ** Object spread *)

Lemma lookup_assign (k k' : string) (v : JSON) (o : list (string * JSON)) :
  Json.lookup k (Json.assign k' v o)
  = if String.eqb k k' then Some v else Json.lookup k o.
Proof.
  induction o as [|[k0 v0] o IH]; cbn [Json.assign Json.lookup].
  - reflexivity.
  - destruct (String.eqb k' k0) eqn:E0; cbn [Json.lookup].
    + apply String.eqb_eq in E0. subst k0.
      destruct (String.eqb k k'); reflexivity.
    + rewrite IH. destruct (String.eqb k k0) eqn:E1; [|reflexivity].
      apply String.eqb_eq in E1. subst k0.
      rewrite String.eqb_sym in E0. now rewrite E0.
Qed.

Lemma lookup_spread (k : string) (v : JSON) (entries o : list (string * JSON)) :
  Json.lookup k (fold_left (fun o kv => Json.assign (fst kv) (snd kv) o) entries o) = Some v ->
  In (k, v) entries \/ Json.lookup k o = Some v.
Proof.
  revert o. induction entries as [|[k1 v1] entries IH]; intros o H; cbn [fold_left] in H.
  - now right.
  - apply IH in H as [H | H]; [left; now right|].
    cbn [fst snd] in H. rewrite lookup_assign in H.
    destruct (String.eqb k k1) eqn:E; [|now right].
    apply String.eqb_eq in E. injection H as <-. subst k1. left. now left.
Qed.

Lemma sectionEntries_own (pkg : JSON) (section : string) (deps : JSON) :
  Json.prop pkg section = Some deps -> sectionEntries pkg section = Json.ownEntries deps.
Proof.
  intros H. unfold sectionEntries. rewrite H.
  destruct deps as [| b | x | s | items | props]; cbn [Json.truthy]; try reflexivity.
  - now destruct b.
  - now destruct (negb _).
  - destruct s; reflexivity.
Qed.

(** A package that [detectFrameworkConfig] finds in its merged table is
    declared in [dependencies] or [devDependencies]. *)
Lemma configDeps_declared (pkg : JSON) (name : string) :
  Json.truthy' (Json.lookup name (configDeps pkg)) = true ->
  In name (declaredNames pkg).
Proof.
  unfold configDeps, Json.spread2. intros H.
  destruct (Json.lookup name _) as [v|] eqn:E; [|discriminate]. clear H.
  apply lookup_spread in E as [E | E]; [|discriminate].
  unfold declaredNames, allEntries. apply in_map_iff. exists (name, v). split; [reflexivity|].
  apply in_flat_map. apply in_app_iff in E as [E | E].
  - exists "dependencies". split; [now left|].
    destruct (Json.prop pkg "dependencies") as [deps|] eqn:P; [|contradiction].
    now rewrite (sectionEntries_own _ _ _ P).
  - exists "devDependencies". split; [right; now left|].
    destruct (Json.prop pkg "devDependencies") as [deps|] eqn:P; [|contradiction].
    now rewrite (sectionEntries_own _ _ _ P).
Qed.

Lemma detectFramework_vite (pkg : JSON) (deps : list string) :
  In "vite" deps -> detectFramework pkg deps = Some "Vite".
Proof.
  intros H. apply has_In in H. unfold detectFramework, FRAMEWORK_PATTERNS.
  cbn [find fp_deps existsb]. now rewrite H.
Qed.

Lemma detectFrameworkConfig_vite (pkg : JSON) :
  fc_name (detectFrameworkConfig pkg) = Some "Vite" ->
  Json.truthy' (Json.lookup "vite" (configDeps pkg)) = true.
Proof.
  unfold detectFrameworkConfig.
  destruct (negb (Json.truthy pkg)); [discriminate|]. cbv zeta.
  destruct (Json.truthy' (Json.lookup "vite" (configDeps pkg))); [reflexivity|].
  repeat match goal with
         | |- context [if ?b then _ else _] => destruct b
         end; discriminate.
Qed.

(** The command of the dev server names one of four scripts. *)
Lemma baseArgs_script (pkg : JSON) :
  exists script, In script ["dev"; "start"; "serve"; "develop"] /\ baseArgs pkg = ["run"; script].
Proof.
  unfold baseArgs, devScriptName.
  destruct (find _ _) as [s|] eqn:E.
  - apply find_some in E as [Hin _]. now exists s.
  - exists "dev". split; [now left | reflexivity].
Qed.

(** X5: when the orchestrator's [detectFrameworkConfig] configures a
    manifest for Vite, the report of [checkCompatibility] for that manifest
    names Vite as well, and both tables pass the host override: the
    exported one runs [dev], the orchestrator's one of dev, start, serve
    and develop. *)
Theorem vite_named_by_both_detectors :
  forall (JSON_parse : string -> option JSON) (tree : FileSystemTree) (r : CompatibilityReport),
    checkCompatibility JSON_parse tree nodejs = Normal r ->
    fc_name (detectFrameworkConfig (extractPackageJson JSON_parse tree)) = Some "Vite" ->
    frameworkDetected r = Some "Vite"
    /\ args (getDevServerConfig (frameworkDetected r)) = ["run"; "dev"; "--"; "--host"; "0.0.0.0"]
    /\ exists script,
         In script ["dev"; "start"; "serve"; "develop"]
         /\ fc_args (detectFrameworkConfig (extractPackageJson JSON_parse tree))
            = ["run"; script; "--"; "--host"; "0.0.0.0"].
Proof.
  intros JSON_parse tree r Hr Hv.
  assert (Hpkg : Json.truthy (extractPackageJson JSON_parse tree) = true).
  { unfold detectFrameworkConfig in Hv.
    destruct (Json.truthy (extractPackageJson JSON_parse tree)); [reflexivity | discriminate]. }
  destruct (report_fields _ _ _ Hpkg Hr) as (a & Ha & _ & Hf).
  apply analyzeDependencies_lists in Ha as (_ & _ & _ & Hd).
  assert (E : frameworkDetected r = Some "Vite").
  { rewrite Hf, Hd. apply detectFramework_vite.
    apply configDeps_declared, detectFrameworkConfig_vite, Hv. }
  split; [exact E|]. rewrite E. split; [reflexivity|].
  pose proof (detectFrameworkConfig_vite _ Hv) as Hdep.
  unfold detectFrameworkConfig. rewrite Hpkg. cbn [negb]. cbv zeta. rewrite Hdep.
  cbn [fc_args]. destruct (baseArgs_script (extractPackageJson JSON_parse tree))
    as (script & Hin & ->).
  now exists script.
Qed.

Lemma vite_named_by_both_detectors_witness :
  exists r,
    checkCompatibility Examples.JSON_parse (Examples.treeOf Examples.viteManifest) nodejs
    = Normal r
    /\ frameworkDetected r = Some "Vite".
Proof.
  eexists. split; [vm_compute; reflexivity|].
  match goal with
  | |- frameworkDetected ?r = _ =>
      exact (proj1 (vite_named_by_both_detectors Examples.JSON_parse
                      (Examples.treeOf Examples.viteManifest) r eq_refl eq_refl))
  end.
Defined.

(** ** The preflight of the orchestrator and the scan of the checker *)

Lemma existsb_flat_map {A B : Type} (f : B -> bool) (g : A -> list B) (l : list A) :
  existsb f (flat_map g l) = existsb (fun x => existsb f (g x)) l.
Proof.
  induction l as [|x l IH]; [reflexivity|].
  cbn [flat_map existsb]. now rewrite existsb_app, IH.
Qed.

Lemma existsb_pointwise {A : Type} (f g : A -> bool) (l : list A) :
  (forall x, f x = g x) -> existsb f l = existsb g l.
Proof.
  intros H. induction l as [|x l IH]; [reflexivity|]. cbn [existsb]. now rewrite H, IH.
Qed.

Lemma hasGitSshDependencies_entries (pkg : JSON) :
  hasGitSshDependencies pkg = existsb offending (allEntries pkg).
Proof.
  unfold hasGitSshDependencies, allEntries. rewrite existsb_flat_map.
  unfold sections. apply existsb_pointwise. intros section. unfold sectionEntries.
  destruct (Json.prop pkg section) as [deps|]; [|reflexivity].
  destruct (Json.truthy deps); [|reflexivity]. cbn [andb].
  apply existsb_pointwise. intros [k v]. unfold gitSshValue, offending, isGitSsh. cbn [snd].
  reflexivity.
Qed.

Lemma existsb_filter_nil {A B : Type} (f : A -> bool) (g : A -> B) (l : list A) :
  existsb f l = negb (match map g (filter f l) with [] => true | _ => false end).
Proof.
  induction l as [|x l IH]; [reflexivity|]. cbn [existsb filter].
  destruct (f x); [reflexivity | exact IH].
Qed.

(** X6: the preflight [hasGitSshDependencies] of the orchestrator never
    throws and is true exactly when some declared version is a string the
    checker's test accepts; whenever the checker's scan returns, the
    preflight is true exactly when the scan lists a name, and whenever
    [checkCompatibility] returns a report for a manifest, the preflight is
    the report's [hasGitSshDeps] and the negation of its [canRun]. *)
Theorem preflight_agrees_with_checker :
  (forall pkg : JSON, hasGitSshDependencies pkg = existsb offending (allEntries pkg))
  /\ (forall (pkg : JSON) (a : Analysis),
         analyzeDependencies pkg = Normal a ->
         hasGitSshDependencies pkg = negb (match gitSsh a with [] => true | _ => false end))
  /\ (forall (JSON_parse : string -> option JSON) (tree : FileSystemTree) (r : CompatibilityReport),
         checkCompatibility JSON_parse tree nodejs = Normal r ->
         Json.truthy (extractPackageJson JSON_parse tree) = true ->
         hasGitSshDependencies (extractPackageJson JSON_parse tree) = hasGitSshDeps r
         /\ hasGitSshDependencies (extractPackageJson JSON_parse tree) = negb (canRun r)).
Proof.
  split; [exact hasGitSshDependencies_entries|].
  assert (H2 : forall pkg a, analyzeDependencies pkg = Normal a ->
            hasGitSshDependencies pkg = negb (match gitSsh a with [] => true | _ => false end)).
  { intros pkg a Ha. apply analyzeDependencies_lists in Ha as (_ & _ & -> & _).
    rewrite hasGitSshDependencies_entries. apply existsb_filter_nil. }
  split; [exact H2|].
  intros JSON_parse tree r Hr Hpkg.
  destruct (checkCompatibility_gate _ _ _ Hpkg Hr) as (a & Ha & Hcase).
  rewrite (H2 _ _ Ha).
  destruct Hcase as [(-> & -> & _ & ->) | (Hne & -> & _ & -> & _)]; [now split|].
  destruct (gitSsh a); [congruence | now split].
Qed.

(** ** The warnings of the version block *)

Lemma takeDigits_none (s : string) :
  startsWithDigit s = false -> JS.takeDigits s = ("", s).
Proof.
  destruct s as [|c s]; [reflexivity|]. cbn [startsWithDigit JS.takeDigits]. now intros ->.
Qed.

(** X7: a version constraint that does not start with a digit, [v], [>]
    or [<] (a caret or tilde range, an alias such as [lts/iron]) matches
    none of the three patterns: no requirement is recorded and the report
    is left as it was, without a warning. *)
Theorem unrecognised_version_is_ignored :
  forall version : string,
    versionStart version = false ->
    parseNodeVersionRequirement version = noRequirement
    /\ forall r : CompatibilityReport, compareNodeVersion version r = r.
Proof.
  intros version H.
  assert (E : parseNodeVersionRequirement version = noRequirement).
  { destruct version as [|c s]; [reflexivity|].
    cbn [versionStart] in H.
    apply orb_false_iff in H as [H Hlt]. apply orb_false_iff in H as [H Hgt].
    apply orb_false_iff in H as [Hd Hv].
    unfold parseNodeVersionRequirement, exactMatch, rangeMatch, ltMatch.
    assert (Ev : JS.optional "v" (String c s) = String c s).
    { cbn [JS.optional]. rewrite Ascii.eqb_sym, Hv. reflexivity. }
    rewrite Ev, takeDigits_none by exact Hd.
    destruct (Ascii.eqb_spec c ">") as [->|Hn1]; [discriminate Hgt|].
    destruct (Ascii.eqb_spec c "<") as [->|Hn2]; [discriminate Hlt|].
    destruct c as [[] [] [] [] [] [] [] []]; try reflexivity; congruence. }
  split; [exact E|]. intros r. unfold compareNodeVersion. rewrite E. reflexivity.
Qed.

Lemma unrecognised_version_is_ignored_witness :
  parseNodeVersionRequirement "^20.0.0" = noRequirement
  /\ parseNodeVersionRequirement "lts/iron" = noRequirement.
Proof.
  split.
  - exact (proj1 (unrecognised_version_is_ignored "^20.0.0" eq_refl)).
  - exact (proj1 (unrecognised_version_is_ignored "lts/iron" eq_refl)).
Defined.

(** X8: the warnings of the version block, in full, as the report of
    [checkCompatibility] has them, for the constraint taken from
    [engines.node] or [.nvmrc].  They come first in [warnings].  When the
    exact pattern matches, with major version [N]: the "targets" warning
    for [N] above 18, the "old Node.js" warning for [N] below 14 and not
    0, and none otherwise.  When the lower-bound pattern matches: the
    "requires" warning for [N] above 18 and none otherwise.  When neither
    matches: none.  [N] is printed as a template literal prints the Number
    [parseInt] reads. *)
Theorem version_warnings_by_range :
  forall (JSON_parse : string -> option JSON) (tree : FileSystemTree)
         (r : CompatibilityReport) (version : string),
    Json.truthy (extractPackageJson JSON_parse tree) = true ->
    extractNodeVersion tree (extractPackageJson JSON_parse tree) = Some (JStr version) ->
    checkCompatibility JSON_parse tree nodejs = Normal r ->
    exists rest,
      (forall w, In w rest -> laterWarning w)
      /\ (forall d,
             exactMatch version = Some d ->
             warnings r
             = (if (18 <? JS.digitsValue 0 d)%Z then [targetsWarning (JS.parseInt d)]
                else if (JS.digitsValue 0 d <? 14)%Z && negb (JS.digitsValue 0 d =? 0)%Z
                     then [oldNodeWarning (JS.parseInt d)]
                     else [])
               ++ rest)
      /\ (forall d,
             exactMatch version = None ->
             rangeMatch version = Some d ->
             warnings r
             = (if (18 <? JS.digitsValue 0 d)%Z then [requiresWarning version] else []) ++ rest)
      /\ (exactMatch version = None -> rangeMatch version = None -> warnings r = rest).
Proof.
  intros JSON_parse tree r version Hpkg Hv Hr.
  destruct (report_warnings _ _ _ _ Hpkg Hv Hr) as (rest & E & Hrest).
  exists rest. split; [exact Hrest|].
  rewrite E, compareNodeVersion_by_fields. cbv zeta.
  unfold parseNodeVersionRequirement, targetsWarning, oldNodeWarning, requiresWarning.
  split; [|split].
  - intros d ->. cbn [minMajor exact andGt andLt showExact warnings initialReport app].
    unfold JS.parseInt at 1 2 4 5.
    rewrite nonZero_toNumber, above_toNumber, below_toNumber by (reflexivity || discriminate).
    destruct (Z.ltb_spec 18 (JS.digitsValue 0 d)), (Z.ltb_spec (JS.digitsValue 0 d) 14),
             (Z.eqb_spec (JS.digitsValue 0 d) 0);
      cbn [negb andb app]; try lia; reflexivity.
  - intros d -> ->. cbn [minMajor exact andGt andLt warnings initialReport app].
    unfold JS.parseInt. rewrite nonZero_toNumber, above_toNumber by reflexivity.
    destruct (Z.ltb_spec 18 (JS.digitsValue 0 d)), (Z.eqb_spec (JS.digitsValue 0 d) 0);
      cbn [negb andb app]; try lia; reflexivity.
  - intros -> ->. destruct (ltMatch version); reflexivity.
Qed.

Lemma version_warnings_by_range_witness :
  exists rest,
    ["Project targets old Node.js 12 - some APIs may differ"]
    = ["Project targets old Node.js 12 - some APIs may differ"] ++ rest.
Proof.
  destruct (version_warnings_by_range
              (fun _ => Some (JObj [("engines", JObj [("node", JStr "12.22.1")]);
                                    ("scripts", JObj [("dev", JStr "node index.js")])]))
              [("package.json", FileNode "")]
              {| canRun := true; issues := [];
                 warnings := ["Project targets old Node.js 12 - some APIs may differ"];
                 suggestions := []; nodeVersion := Some (JStr "12.22.1");
                 hasNativeDeps := false; hasGitSshDeps := false;
                 frameworkDetected := None |}
              "12.22.1" eq_refl eq_refl eq_refl) as (rest & _ & Hex & _).
  exists rest. exact (Hex "12" eq_refl).
Defined.

(** ** A run, by the way it ends *)

Lemma mainFlow_cases (JSON_parse : string -> option JSON) (wc : WebContainer) (c0 : box wc) :
  let pkg := readJsonFile JSON_parse wc "package.json" c0 in
  let config := detectFrameworkConfig pkg in
  mainFlow JSON_parse wc c0
  = if Json.truthy pkg && hasGitSshDependencies pkg then
      (Stopped, c0,
       [ OnStatusChange error; OnError gitSshMessage;
         Print (red "✗ Unsupported dependency source detected (git+ssh)." ++ nl); Flush ])
    else
      match install wc (fileExists wc "package-lock.json" c0) c0 with
      | (inl e, c1, es1) => (Stopped, c1, OnStatusChange installing :: es1 ++ caught e)
      | (inr l, c1, es1) =>
          if negb (installExitCode l =? 0)%Z then
            (Stopped, c1,
             OnStatusChange installing
             :: es1 ++ [OnError (installFailedMessage (installExitCode l));
                        OnStatusChange error; Flush])
          else
            match findDevScript JSON_parse wc c1 with
            | None =>
                (Stopped, c1,
                 OnStatusChange installing
                 :: es1 ++ installedNotice ++ [OnError noScriptMessage; OnStatusChange error])
            | Some _ =>
                match spawnNpm wc c1 (fc_args config) (fc_env config) with
                | (None, c2) =>
                    (Serving, c2,
                     OnStatusChange installing
                     :: es1 ++ installedNotice ++ runningNotice config
                        ++ [Spawned (fc_args config) (fc_env config)])
                | (Some e, c2) =>
                    (Stopped, c2,
                     OnStatusChange installing
                     :: es1 ++ installedNotice ++ runningNotice config ++ caught e)
                end
            end
      end.
Proof.
  cbv zeta. unfold mainFlow, tryBlock.
  rewrite (seq_inr wc _ _ c0 c0 _ [] eq_refl).
  destruct (Json.truthy _ && hasGitSshDependencies _); [reflexivity|].
  rewrite (seq_inr wc _ _ c0 c0 tt [OnStatusChange installing] eq_refl).
  rewrite (seq_inr wc _ _ c0 c0 _ [] eq_refl).
  rewrite (seq_inr wc _ _ c0 c0 _ [] eq_refl).
  rewrite (seq_inr wc _ _ c0 c0 _ [] eq_refl).
  destruct (install wc (fileExists wc "package-lock.json" c0) c0) as [[[e|l] c1] es1] eqn:Hi.
  - unfold seq at 1. rewrite Hi. cbn [app]. reflexivity.
  - rewrite (seq_inr wc _ _ c0 c1 l es1 Hi).
    unfold afterInstall, installFailedMessage, installedNotice, runningNotice, caught.
    destruct (negb (installExitCode l =? 0)%Z).
    + rewrite (seq_inr wc _ _ c1 c1 tt _ eq_refl). cbn [ret app]. reflexivity.
    + rewrite (seq_inr wc _ _ c1 c1 tt _ eq_refl).
      rewrite (seq_inr wc _ _ c1 c1 _ [] eq_refl).
      destruct (findDevScript JSON_parse wc c1) as [script|].
      * rewrite (seq_inr wc _ _ c1 c1 tt [OnStatusChange running] eq_refl).
        cbv zeta.
        rewrite (seq_inr wc _ _ c1 c1 tt _ eq_refl).
        unfold seq, spawnServer, ret.
        destruct (spawnNpm wc c1 _ _) as [[e|] c2]; cbn [app];
          rewrite <- ?app_assoc; reflexivity.
      * rewrite (seq_inr wc _ _ c1 c1 tt _ eq_refl). cbn [ret app].
        rewrite <- ?app_assoc. reflexivity.
Qed.

(** ** The install phase, by its last attempt *)

Ltac strategy_step :=
  right; eexists;
  unfold seq, emit, ret, runCommandWithTimeout, noAudit, timedOut; cbn [rungArgs rungLabel];
  match goal with
  | |- context [runNpm ?wc ?c ?args] => destruct (runNpm wc c args) as [[code out|out|e] c']
  end;
  [eexists; split; [|reflexivity]; reflexivity | reflexivity | reflexivity].

Lemma strategy1_step (wc : WebContainer) (hasPackageLock : bool) :
  strategyOf wc (strategy1 wc hasPackageLock) NpmCi.
Proof.
  intros l c. unfold strategy1. destruct hasPackageLock; [|now left]. strategy_step.
Qed.

Lemma strategy2_step (wc : WebContainer) : strategyOf wc (strategy2 wc) NpmInstall.
Proof.
  intros l c. unfold strategy2. destruct (negb _); [|now left]. strategy_step.
Qed.

Lemma strategy3_step (wc : WebContainer) : strategyOf wc (strategy3 wc) LegacyPeerDeps.
Proof.
  intros l c. unfold strategy3. destruct (negb _ && _); [|now left]. strategy_step.
Qed.

Lemma strategy4_step (wc : WebContainer) : strategyOf wc (strategy4 wc) Force.
Proof.
  intros l c. unfold strategy4. destruct (negb _); [|now left]. strategy_step.
Qed.

Lemma strategy5_step (wc : WebContainer) : strategyOf wc (strategy5 wc) IgnoreScripts.
Proof.
  intros l c. unfold strategy5. destruct (negb _ && _); [|now left]. strategy_step.
Qed.

Lemma endedAs_snoc (log : list (list string * Outcome)) (rung : Rung) (o : Outcome)
      (r : Thrown + Locals) :
  match o with
  | Exited code _ => exists l, r = inr l /\ installExitCode l = code
  | TimedOut _ => r = inl (timedOut rung)
  | SpawnRejected e => r = inl e
  end ->
  endedAs (log ++ [(rungArgs rung, o)]) r.
Proof. intros H. right. now exists log, rung, o. Qed.

Lemma keepsEnded_last (wc : WebContainer) (s : Locals -> M wc Locals) (rung : Rung) :
  strategyOf wc s rung -> keepsEnded wc s.
Proof.
  intros Hs log l c Hl. destruct (Hs l c) as [-> | (message & H)].
  - cbn [fst snd attempts]. now rewrite app_nil_r.
  - destruct (runNpm wc c (rungArgs rung)) as [[code out|out|e] c'];
      [destruct H as (l' & Hc & H)| |]; rewrite H; cbn [fst snd];
      rewrite attempts_ranWith; apply endedAs_snoc; eauto.
Qed.

Lemma keepsEnded_seq (wc : WebContainer) (s k : Locals -> M wc Locals) (rung : Rung) :
  strategyOf wc s rung -> keepsEnded wc k ->
  keepsEnded wc (fun l => seq wc (s l) k).
Proof.
  intros Hs Hk log l c Hl. destruct (Hs l c) as [E | (message & H)].
  - rewrite (seq_inr wc _ _ c c l [] E).
    specialize (Hk log l c Hl). destruct (k l c) as [[r c2] e2]. exact Hk.
  - destruct (runNpm wc c (rungArgs rung)) as [[code out|out|e] c'].
    + destruct H as (l' & Hc & H). rewrite (seq_inr wc _ _ c c' l' _ H).
      assert (Hl' : endedAs (log ++ [(rungArgs rung, Exited code out)]) (inr l'))
        by (apply endedAs_snoc; eauto).
      specialize (Hk _ l' c' Hl'). destruct (k l' c') as [[r c2] e2].
      cbn [fst snd] in Hk |- *. rewrite attempts_app, attempts_ranWith.
      now rewrite <- app_assoc in Hk.
    + unfold seq. rewrite H. cbn [fst snd]. rewrite attempts_ranWith.
      now apply endedAs_snoc.
    + unfold seq. rewrite H. cbn [fst snd]. rewrite attempts_ranWith.
      now apply endedAs_snoc.
Qed.

Lemma install_ended (wc : WebContainer) (hasPackageLock : bool) (c : box wc) :
  endedAs (attempts (snd (install wc hasPackageLock c)))
          (fst (fst (install wc hasPackageLock c))).
Proof.
  unfold install.
  apply (keepsEnded_seq wc (strategy1 wc hasPackageLock) _ NpmCi
           (strategy1_step wc hasPackageLock)
           (keepsEnded_seq wc _ _ NpmInstall (strategy2_step wc)
              (keepsEnded_seq wc _ _ LegacyPeerDeps (strategy3_step wc)
                 (keepsEnded_seq wc _ _ Force (strategy4_step wc)
                    (keepsEnded_last wc _ IgnoreScripts (strategy5_step wc)))))
           [] {| installExitCode := -1; installOutput := "" |} c).
  left. split; [reflexivity|]. eexists. split; reflexivity.
Qed.

(** The install phase always makes an attempt. *)
Lemma install_attempts (wc : WebContainer) (hasPackageLock : bool) (c : box wc) :
  attempts (snd (install wc hasPackageLock c)) <> [].
Proof.
  pose proof (install_follows wc hasPackageLock c) as H. intros E. rewrite E in H.
  cbn [follows nextRung] in H. discriminate H.
Qed.

Lemma last_attempt (log log' : list (list string * Outcome)) (x y : list string * Outcome) :
  log ++ [x] = log' ++ [y] -> x = y.
Proof. intros H. now apply app_inj_tail in H. Qed.

(** What the install phase returns, by its last attempt. *)
Lemma install_last (wc : WebContainer) (hasPackageLock : bool) (c : box wc) :
  exists before rung o,
    attempts (snd (install wc hasPackageLock c)) = before ++ [(rungArgs rung, o)]
    /\ match o with
       | Exited code _ =>
           exists l, fst (fst (install wc hasPackageLock c)) = inr l /\ installExitCode l = code
       | TimedOut _ => fst (fst (install wc hasPackageLock c)) = inl (timedOut rung)
       | SpawnRejected e => fst (fst (install wc hasPackageLock c)) = inl e
       end.
Proof.
  destruct (install_ended wc hasPackageLock c) as [[E _] | H]; [|exact H].
  now destruct (install_attempts wc hasPackageLock c).
Qed.

(** ** The spawn of the dev server *)

Lemma install_notSpawned (wc : WebContainer) (hasPackageLock : bool) (c : box wc) :
  forallb notSpawned (snd (install wc hasPackageLock c)) = true.
Proof.
  exact (install_only notSpawned wc hasPackageLock (fun _ _ => eq_refl) (fun _ => eq_refl) c).
Qed.

Lemma notSpawned_In (es : list Effect) (args : list string) (env : option (list (string * string))) :
  forallb notSpawned es = true -> ~ In (Spawned args env) es.
Proof.
  intros H Hin. rewrite forallb_forall in H. specialize (H _ Hin). discriminate H.
Qed.

Lemma fc_args_script (pkg : JSON) :
  exists script rest,
    In script ["dev"; "start"; "serve"; "develop"]
    /\ fc_args (detectFrameworkConfig pkg) = "run" :: script :: rest.
Proof.
  unfold detectFrameworkConfig.
  destruct (negb (Json.truthy pkg)).
  - exists "dev", []. split; [now left | reflexivity].
  - cbv zeta. destruct (baseArgs_script pkg) as (script & Hin & ->).
    exists script.
    repeat match goal with
           | |- context [if ?b then _ else _] => destruct b
           end; cbn [fc_args app]; eexists; (split; [exact Hin | reflexivity]).
Qed.

(** X9: a run of [startDevServer] spawns the dev server only after an
    install command that exited with code zero, and that command is the
    last one it ran; a run that spawned the server leaves the [try] block
    serving. *)
Theorem server_spawned_after_successful_install :
  forall (JSON_parse : string -> option JSON) (wc : WebContainer) (c : box wc)
         (args : list string) (env : option (list (string * string))),
    In (Spawned args env) (snd (mainFlow JSON_parse wc c)) ->
    fst (fst (mainFlow JSON_parse wc c)) = Serving
    /\ exists before rung output,
         attempts (snd (mainFlow JSON_parse wc c))
         = before ++ [(rungArgs rung, Exited 0 output)].
Proof.
  intros JSON_parse wc c args env Hin.
  rewrite (mainFlow_attempts JSON_parse wc c).
  rewrite mainFlow_cases in Hin |- *. cbv zeta in Hin |- *.
  destruct (Json.truthy _ && hasGitSshDependencies _).
  { cbn [snd In] in Hin. repeat (destruct Hin as [Hin | Hin]; [discriminate Hin|]). contradiction. }
  pose proof (install_notSpawned wc (fileExists wc "package-lock.json" c) c) as Hns.
  destruct (install_last wc (fileExists wc "package-lock.json" c) c)
    as (before & rung & o & Hlog & Hlast).
  destruct (install wc (fileExists wc "package-lock.json" c) c) as [[[e|l] c1] es1].
  { cbn [snd] in Hin, Hns. destruct Hin as [Hin | Hin]; [discriminate Hin|].
    apply in_app_iff in Hin as [Hin | Hin]; [now apply notSpawned_In in Hin|].
    cbn [caught In] in Hin. repeat (destruct Hin as [Hin | Hin]; [discriminate Hin|]).
    contradiction. }
  cbn [fst snd] in Hns, Hlog, Hlast |- *.
  assert (Hes : forall tail, In (Spawned args env) (OnStatusChange installing :: es1 ++ tail) ->
                             In (Spawned args env) tail).
  { intros tail [H | H]; [discriminate H|].
    apply in_app_iff in H as [H | H]; [now apply notSpawned_In in H | exact H]. }
  destruct (installExitCode l =? 0)%Z eqn:Hz; cbn [negb] in Hin |- *.
  2:{ cbn [snd] in Hin. apply Hes in Hin. cbn [In] in Hin.
      repeat (destruct Hin as [Hin | Hin]; [discriminate Hin|]). contradiction. }
  apply Z.eqb_eq in Hz.
  destruct (findDevScript JSON_parse wc c1).
  2:{ cbn [snd] in Hin. apply Hes in Hin. cbn [installedNotice app In] in Hin.
      repeat (destruct Hin as [Hin | Hin]; [discriminate Hin|]). contradiction. }
  destruct (spawnNpm wc c1 _ _) as [[e|] c2].
  { cbn [snd] in Hin. apply Hes in Hin.
    cbn [installedNotice runningNotice caught app In] in Hin.
    repeat (destruct Hin as [Hin | Hin]; [discriminate Hin|]). contradiction. }
  split; [reflexivity|].
  destruct o as [code out|out|e]; [|discriminate Hlast|discriminate Hlast].
  destruct Hlast as (l' & [= <-] & Hc). exists before, rung, out.
  now rewrite Hlog, <- Hc, Hz.
Qed.

Lemma server_spawned_after_successful_install_witness :
  exists before rung output,
    attempts (snd (mainFlow Examples.JSON_parse Examples.scripted
                     (Examples.boxOf Examples.viteManifest [Exited 1 [Own "E404"]])))
    = before ++ [(rungArgs rung, Exited 0 output)].
Proof.
  refine (proj2 (server_spawned_after_successful_install Examples.JSON_parse Examples.scripted
                   (Examples.boxOf Examples.viteManifest [Exited 1 [Own "E404"]])
                   ["run"; "dev"; "--"; "--host"; "0.0.0.0"] None _)).
  vm_compute. repeat first [now left | right].
Defined.

(** X10: the command a run spawns is the one [detectFrameworkConfig]
    gives for the manifest read before the install, whatever script
    [findDevScript] found: it is [npm run] with one of dev, start, serve
    and develop, never watch. *)
Theorem spawned_command_never_runs_watch :
  forall (JSON_parse : string -> option JSON) (wc : WebContainer) (c : box wc)
         (args : list string) (env : option (list (string * string))),
    In (Spawned args env) (snd (mainFlow JSON_parse wc c)) ->
    args = fc_args (detectFrameworkConfig (readJsonFile JSON_parse wc "package.json" c))
    /\ env = fc_env (detectFrameworkConfig (readJsonFile JSON_parse wc "package.json" c))
    /\ exists script rest,
         In script ["dev"; "start"; "serve"; "develop"] /\ args = "run" :: script :: rest.
Proof.
  intros JSON_parse wc c args env Hin.
  assert (H : args = fc_args (detectFrameworkConfig (readJsonFile JSON_parse wc "package.json" c))
              /\ env = fc_env (detectFrameworkConfig (readJsonFile JSON_parse wc "package.json" c))).
  { rewrite mainFlow_cases in Hin. cbv zeta in Hin.
    destruct (Json.truthy _ && hasGitSshDependencies _).
    { cbn [snd In] in Hin. repeat (destruct Hin as [Hin | Hin]; [discriminate Hin|]).
      contradiction. }
    pose proof (install_notSpawned wc (fileExists wc "package-lock.json" c) c) as Hns.
    destruct (install wc (fileExists wc "package-lock.json" c) c) as [[[e|l] c1] es1];
      cbn [snd] in Hns.
    { cbn [snd] in Hin. destruct Hin as [Hin | Hin]; [discriminate Hin|].
      apply in_app_iff in Hin as [Hin | Hin]; [now apply notSpawned_In in Hin|].
      cbn [caught In] in Hin. repeat (destruct Hin as [Hin | Hin]; [discriminate Hin|]).
      contradiction. }
    assert (Hes : forall tail, In (Spawned args env) (OnStatusChange installing :: es1 ++ tail) ->
                               In (Spawned args env) tail).
    { intros tail [H | H]; [discriminate H|].
      apply in_app_iff in H as [H | H]; [now apply notSpawned_In in H | exact H]. }
    destruct (negb (installExitCode l =? 0)%Z).
    { cbn [snd] in Hin. apply Hes in Hin. cbn [In] in Hin.
      repeat (destruct Hin as [Hin | Hin]; [discriminate Hin|]). contradiction. }
    destruct (findDevScript JSON_parse wc c1).
    2:{ cbn [snd] in Hin. apply Hes in Hin. cbn [installedNotice app In] in Hin.
        repeat (destruct Hin as [Hin | Hin]; [discriminate Hin|]). contradiction. }
    destruct (spawnNpm wc c1 _ _) as [[e|] c2];
      cbn [snd] in Hin; apply Hes in Hin;
      cbn [installedNotice runningNotice caught app In] in Hin;
      repeat (destruct Hin as [Hin | Hin]; [try discriminate Hin|]); try contradiction.
    injection Hin as <- <-. now split. }
  destruct H as [Ha He]. split; [exact Ha|]. split; [exact He|].
  rewrite Ha. apply fc_args_script.
Qed.

Lemma spawned_command_never_runs_watch_witness :
  exists script rest,
    In script ["dev"; "start"; "serve"; "develop"]
    /\ ["run"; "dev"] = "run" :: script :: rest.
Proof.
  refine (proj2 (proj2 (spawned_command_never_runs_watch Examples.JSON_parse Examples.scripted
                          (Examples.boxOf Examples.watchManifest [])
                          ["run"; "dev"] None _))).
  vm_compute. repeat first [now left | right].
Defined.

(** ** The statuses of a run, and a failed install *)

Lemma statuses_app (es1 es2 : list Effect) :
  statuses (es1 ++ es2) = statuses es1 ++ statuses es2.
Proof.
  induction es1 as [|e es1 IH]; [reflexivity|].
  destruct e; cbn [app statuses]; now rewrite IH.
Qed.

Lemma statuses_none (es : list Effect) : forallb noStatus es = true -> statuses es = [].
Proof.
  induction es as [|e es IH]; [reflexivity|]. cbn [forallb]. intros H.
  apply andb_true_iff in H as [He H]. destruct e; try discriminate He; cbn [statuses]; auto.
Qed.

Lemma install_statuses (wc : WebContainer) (hasPackageLock : bool) (c : box wc) :
  statuses (snd (install wc hasPackageLock c)) = [].
Proof.
  apply statuses_none.
  exact (install_only noStatus wc hasPackageLock (fun _ _ => eq_refl) (fun _ => eq_refl) c).
Qed.

(** X11: the statuses the [try] block of [startDevServer] and its
    [catch] report are, in order, [installing; running] when the server is
    spawned, and otherwise [error] alone (the git+ssh preflight),
    [installing; error], or [installing; running; error] (the spawn was
    rejected): [error] is reported once and last. *)
Theorem run_statuses_in_order :
  forall (JSON_parse : string -> option JSON) (wc : WebContainer) (c : box wc),
    let run := mainFlow JSON_parse wc c in
    (fst (fst run) = Serving /\ statuses (snd run) = [installing; running])
    \/ (fst (fst run) = Stopped
        /\ (statuses (snd run) = [error]
            \/ statuses (snd run) = [installing; error]
            \/ statuses (snd run) = [installing; running; error])).
Proof.
  intros JSON_parse wc c. cbv zeta. rewrite mainFlow_cases. cbv zeta.
  destruct (Json.truthy _ && hasGitSshDependencies _); [right; split; [reflexivity | now left]|].
  pose proof (install_statuses wc (fileExists wc "package-lock.json" c) c) as Hs.
  destruct (install wc (fileExists wc "package-lock.json" c) c) as [[[e|l] c1] es1];
    cbn [snd] in Hs.
  { right. split; [reflexivity|]. right. left. cbn [fst snd statuses].
    now rewrite statuses_app, Hs. }
  destruct (negb (installExitCode l =? 0)%Z).
  { right. split; [reflexivity|]. right. left. cbn [fst snd statuses].
    now rewrite statuses_app, Hs. }
  destruct (findDevScript JSON_parse wc c1).
  2:{ right. split; [reflexivity|]. right. left. cbn [fst snd statuses].
      now rewrite !statuses_app, Hs. }
  destruct (spawnNpm wc c1 _ _) as [[e|] c2]; cbn [fst snd statuses];
    rewrite !statuses_app, Hs; [right | left]; (split; [reflexivity|]); auto.
Qed.

(** X12: the last install command of a run decides how a failed install
    is reported.  After an exit with a code other than zero the run ends
    with the error that carries that code, the status [error] and a flush;
    after a timeout, with the error "<label> timed out after 300s" for the
    label of that rung and the status [error]; after a rejected spawn, with
    the message of what was thrown.  In all three the [try] block stops
    and no server is spawned. *)
Theorem failed_install_is_reported :
  forall (JSON_parse : string -> option JSON) (wc : WebContainer) (c : box wc)
         (before : list (list string * Outcome)) (args : list string) (o : Outcome),
    attempts (snd (mainFlow JSON_parse wc c)) = before ++ [(args, o)] ->
    match o with
    | Exited code _ =>
        code <> 0%Z ->
        endsIn (snd (mainFlow JSON_parse wc c))
                 [OnError (installFailedMessage code); OnStatusChange error; Flush]
    | TimedOut _ =>
        exists rung,
          args = rungArgs rung
          /\ endsIn (snd (mainFlow JSON_parse wc c))
                      [ OnError (rungLabel rung ++ " timed out after 300s");
                        OnStatusChange error ]
    | SpawnRejected e =>
        endsIn (snd (mainFlow JSON_parse wc c))
                 [OnError (thrownMessage e); OnStatusChange error]
    end
    /\ (match o with Exited 0 _ => False | _ => True end ->
        fst (fst (mainFlow JSON_parse wc c)) = Stopped
        /\ forallb notSpawned (snd (mainFlow JSON_parse wc c)) = true).
Proof.
  intros JSON_parse wc c before args o Hlog.
  rewrite mainFlow_attempts in Hlog. rewrite mainFlow_cases. cbv zeta.
  destruct (Json.truthy _ && hasGitSshDependencies _).
  { now destruct before. }
  pose proof (install_notSpawned wc (fileExists wc "package-lock.json" c) c) as Hns.
  destruct (install_last wc (fileExists wc "package-lock.json" c) c)
    as (before' & rung & o' & Hlog' & Hlast).
  rewrite Hlog in Hlog'. apply app_inj_tail in Hlog' as [_ [= -> <-]].
  destruct (install wc (fileExists wc "package-lock.json" c) c) as [[[e|l] c1] es1];
    cbn [fst snd] in Hns, Hlast |- *.
  - assert (Hno : forallb notSpawned (OnStatusChange installing :: es1 ++ caught e) = true)
      by (cbn [forallb]; now rewrite forallb_app, Hns).
    destruct o as [code out|out|e'].
    + destruct Hlast as (l & H & _). discriminate H.
    + injection Hlast as ->. split; [|now split].
      exists rung. split; [reflexivity|].
      exists (OnStatusChange installing :: es1). reflexivity.
    + injection Hlast as ->. split; [|now split].
      exists (OnStatusChange installing :: es1). reflexivity.
  - destruct o as [code out|out|e']; [|discriminate Hlast|discriminate Hlast].
    destruct Hlast as (l' & [= <-] & Hc). rewrite Hc.
    destruct (Z.eqb_spec code 0) as [->|Hne]; cbn [negb].
    + split; [congruence | contradiction].
    + split.
      * intros _. exists (OnStatusChange installing :: es1). reflexivity.
      * intros _. split; [reflexivity|]. cbn [snd forallb].
        now rewrite forallb_app, Hns.
Qed.

Lemma failed_install_is_reported_witness :
  endsIn
    (snd (mainFlow Examples.JSON_parse Examples.scripted
            (Examples.boxOf Examples.viteManifest [TimedOut [Own "idle"]])))
    [OnError "npm install timed out after 300s"; OnStatusChange error].
Proof.
  destruct (failed_install_is_reported Examples.JSON_parse Examples.scripted
              (Examples.boxOf Examples.viteManifest [TimedOut [Own "idle"]])
              [] ["install"; "--no-audit"; "--no-fund"] (TimedOut [Own "idle"]) eq_refl)
    as [(rung & Hargs & H) _].
  destruct rung; try discriminate Hargs. exact H.
Defined.

(** ** The report and the run *)

(** X13: the report and the run agree on git+ssh dependencies.  When
    [checkCompatibility] returns a report for the manifest that the
    container holds, a report with [hasGitSshDeps] means the run stops at
    its preflight: it reports the error, leaves the container as it was
    and runs no command; any other report means the run goes on to
    [installing] and runs an install command. *)
Theorem run_follows_the_report :
  forall (JSON_parse : string -> option JSON) (tree : FileSystemTree)
         (wc : WebContainer) (c : box wc) (r : CompatibilityReport),
    checkCompatibility JSON_parse tree nodejs = Normal r ->
    readJsonFile JSON_parse wc "package.json" c = extractPackageJson JSON_parse tree ->
    if hasGitSshDeps r then
      mainFlow JSON_parse wc c
      = (Stopped, c,
         [ OnStatusChange error; OnError gitSshMessage;
           Print (red "✗ Unsupported dependency source detected (git+ssh)." ++ nl); Flush ])
    else
      attempts (snd (mainFlow JSON_parse wc c)) <> []
      /\ exists es, snd (mainFlow JSON_parse wc c) = OnStatusChange installing :: es.
Proof.
  intros JSON_parse tree wc c r Hr Hsame.
  assert (Hgate : Json.truthy (readJsonFile JSON_parse wc "package.json" c)
                  && hasGitSshDependencies (readJsonFile JSON_parse wc "package.json" c)
                  = hasGitSshDeps r).
  { rewrite Hsame.
    destruct (Json.truthy (extractPackageJson JSON_parse tree)) eqn:Hpkg; cbn [andb].
    - destruct (checkCompatibility_gate _ _ _ Hpkg Hr) as (a & Ha & Hcase).
      apply analyzeDependencies_lists in Ha as (_ & _ & Hg & _).
      rewrite hasGitSshDependencies_entries,
        (existsb_filter_nil offending (@fst string JSON)), <- Hg.
      destruct Hcase as [(-> & _ & _ & ->) | (Hne & _ & _ & -> & _)]; [reflexivity|].
      now destruct (gitSsh a).
    - rewrite (checkCompatibility_no_manifest _ _ Hpkg) in Hr. now injection Hr as <-. }
  rewrite mainFlow_attempts, mainFlow_cases. cbv zeta. rewrite Hgate.
  destruct (hasGitSshDeps r); [reflexivity|].
  split; [apply install_attempts|].
  destruct (install wc (fileExists wc "package-lock.json" c) c) as [[[e|l] c1] es1];
    [eexists; reflexivity|].
  destruct (negb (installExitCode l =? 0)%Z); [eexists; reflexivity|].
  destruct (findDevScript JSON_parse wc c1); [|eexists; reflexivity].
  destruct (spawnNpm wc c1 _ _) as [[e|] c2]; eexists; reflexivity.
Qed.

Lemma run_follows_the_report_witness :
  mainFlow Examples.JSON_parse Examples.scripted (Examples.boxOf Examples.leftpadManifest [])
  = (Stopped, Examples.boxOf Examples.leftpadManifest [],
     [ OnStatusChange error; OnError gitSshMessage;
       Print (red "✗ Unsupported dependency source detected (git+ssh)." ++ nl); Flush ]).
Proof.
  exact (run_follows_the_report Examples.JSON_parse (Examples.treeOf Examples.leftpadManifest)
           Examples.scripted (Examples.boxOf Examples.leftpadManifest [])
           {| canRun := false;
              issues := ["Git+SSH dependencies not supported: leftpad"];
              warnings := ["No scripts in package.json"];
              suggestions := [ "Replace git+ssh dependencies with npm packages or HTTPS URLs";
                               "Add a 'dev' or 'start' script to run the project" ];
              nodeVersion := None; hasNativeDeps := false; hasGitSshDeps := true;
              frameworkDetected := None |}
           eq_refl eq_refl).
Defined.

(** ** After the ready notification *)

Lemma DevServer_step_fired (l : Latch) (s : Signal) :
  serverReadyFired l = true ->
  serverReadyFired (fst (DevServer.step true l s)) = true
  /\ snd (DevServer.step true l s) = map Print (outputs [s]).
Proof.
  destruct l as [fired pending grace]. cbn [serverReadyFired]. intros ->.
  destruct s as [port url|data| | |code];
    cbn [DevServer.step graceTimers serverReadyTimeout outputs map];
    unfold DevServer.handleServerReady, DevServer.write, DevServer.graceTimer,
      DevServer.readyTimeout, DevServer.exit;
    cbn [serverReadyFired negb andb fst snd clearTimeout graceDue];
    try destruct (0 <? grace)%nat; try destruct pending;
    rewrite ?andb_false_r; cbn [fst snd serverReadyFired]; split; reflexivity.
Qed.

Lemma StaticSite_step_fired (l : Latch) (s : Signal) :
  serverReadyFired l = true ->
  serverReadyFired (fst (StaticSite.step l s)) = true
  /\ snd (StaticSite.step l s) = map OnOutput (outputs [s]).
Proof.
  destruct l as [fired pending grace]. cbn [serverReadyFired]. intros ->.
  destruct s as [port url|data| | |code];
    cbn [StaticSite.step graceTimers serverReadyTimeout outputs map];
    unfold StaticSite.handleServerReady, StaticSite.write, StaticSite.graceTimer,
      StaticSite.readyTimeout, StaticSite.exit;
    cbn [serverReadyFired negb andb fst snd clearTimeout graceDue];
    try destruct (0 <? grace)%nat; try destruct pending;
    rewrite ?andb_false_r; cbn [fst snd serverReadyFired]; split; reflexivity.
Qed.

Lemma outputs_cons (s : Signal) (ss : list Signal) :
  outputs (s :: ss) = outputs [s] ++ outputs ss.
Proof. destruct s; reflexivity. Qed.

Lemma DevServer_steps_fired (ss : list Signal) (l : Latch) :
  serverReadyFired l = true ->
  snd (DevServer.steps true l ss) = map Print (outputs ss).
Proof.
  revert l. induction ss as [|s ss IH]; intros l Hl; [reflexivity|].
  cbn [DevServer.steps]. destruct (DevServer_step_fired l s Hl) as [H1 H2].
  destruct (DevServer.step true l s) as [l1 e1]. cbn [fst snd] in H1, H2.
  specialize (IH l1 H1). destruct (DevServer.steps true l1 ss) as [l2 e2].
  cbn [snd] in IH |- *. now rewrite H2, IH, (outputs_cons s ss), map_app.
Qed.

Lemma StaticSite_steps_fired (ss : list Signal) (l : Latch) :
  serverReadyFired l = true ->
  snd (StaticSite.steps l ss) = map OnOutput (outputs ss).
Proof.
  revert l. induction ss as [|s ss IH]; intros l Hl; [reflexivity|].
  cbn [StaticSite.steps]. destruct (StaticSite_step_fired l s Hl) as [H1 H2].
  destruct (StaticSite.step l s) as [l1 e1]. cbn [fst snd] in H1, H2.
  specialize (IH l1 H1). destruct (StaticSite.steps l1 ss) as [l2 e2].
  cbn [snd] in IH |- *. now rewrite H2, IH, (outputs_cons s ss), map_app.
Qed.

Lemma DevServer_ready_fires (serving : bool) (l : Latch) (s : Signal) :
  In (OnStatusChange ready) (snd (DevServer.step serving l s)) ->
  serverReadyFired (fst (DevServer.step serving l s)) = true.
Proof.
  destruct l as [fired pending grace].
  destruct s as [port url|data| | |code];
    cbn [DevServer.step graceTimers serverReadyTimeout];
    unfold DevServer.handleServerReady, DevServer.write, DevServer.graceTimer,
      DevServer.readyTimeout, DevServer.exit;
    cbn [serverReadyFired fst snd].
  - destruct fired; [intros []|]. destruct (isLoopback url); cbn [snd fst fire serverReadyFired In].
    + intros [H | []]. discriminate H.
    + reflexivity.
  - destruct serving; cbn [snd In]; [|intros []]. intros [H | []]. discriminate H.
  - destruct (0 <? grace)%nat; cbn [snd In]; [|intros []].
    destruct fired; cbn [negb In]; [intros []|].
    intros H. repeat (destruct H as [H | H]; [discriminate H|]). contradiction.
  - destruct pending; cbn [snd In]; [|intros []].
    destruct fired; cbn [negb In]; [intros []|].
    intros H. repeat (destruct H as [H | H]; [discriminate H|]). contradiction.
  - destruct serving; cbn [snd In]; [|intros []].
    destruct (negb (code =? 0)%Z && negb fired); cbn [In]; [|intros []].
    intros H. repeat (destruct H as [H | H]; [discriminate H|]). contradiction.
Qed.

Lemma StaticSite_ready_fires (l : Latch) (s : Signal) :
  In (OnStatusChange ready) (snd (StaticSite.step l s)) ->
  serverReadyFired (fst (StaticSite.step l s)) = true.
Proof.
  destruct l as [fired pending grace].
  destruct s as [port url|data| | |code];
    cbn [StaticSite.step graceTimers serverReadyTimeout];
    unfold StaticSite.handleServerReady, StaticSite.write, StaticSite.graceTimer,
      StaticSite.readyTimeout, StaticSite.exit, StaticSite.handleServerReady;
    cbn [serverReadyFired fst snd graceDue].
  - destruct fired; [intros []|]. reflexivity.
  - cbn [snd In]. intros [H | []]. discriminate H.
  - destruct (0 <? grace)%nat; cbn [snd In]; [|intros []].
    destruct fired; cbn [negb fst snd In fire serverReadyFired]; [intros []|]. reflexivity.
  - destruct pending; cbn [snd In]; [|intros []].
    destruct fired; cbn [negb In]; [intros []|].
    intros H. repeat (destruct H as [H | H]; [discriminate H|]). contradiction.
  - destruct (negb (code =? 0)%Z && negb fired); cbn [snd In]; [|intros []].
    intros H. repeat (destruct H as [H | H]; [discriminate H|]). contradiction.
Qed.

(** X14: once a signal has made a run ready, nothing but the output of
    the server reaches the callbacks: every later chunk is forwarded (to
    the buffer by [startDevServer], to [onOutput] by [serveStaticSite]) and
    no later signal gives an error, a warning or a status. *)
Theorem after_ready_only_output_is_forwarded :
  forall (l : Latch) (s : Signal) (rest : list Signal),
    (In (OnStatusChange ready) (snd (DevServer.step true l s)) ->
     snd (DevServer.steps true (fst (DevServer.step true l s)) rest)
     = map Print (outputs rest))
    /\ (In (OnStatusChange ready) (snd (StaticSite.step l s)) ->
        snd (StaticSite.steps (fst (StaticSite.step l s)) rest)
        = map OnOutput (outputs rest)).
Proof.
  intros l s rest. split; intros H.
  - apply DevServer_steps_fired, DevServer_ready_fires, H.
  - apply StaticSite_steps_fired, StaticSite_ready_fires, H.
Qed.

(** ** The help of the 45-second timer *)

Lemma hints_app (es1 es2 : list Effect) : hints (es1 ++ es2) = hints es1 + hints es2.
Proof. unfold hints. now rewrite filter_app, length_app. Qed.

Lemma hints_none (es : list Effect) :
  forallb (fun e => negb (isTimeoutHint e)) es = true -> hints es = 0.
Proof.
  unfold hints. induction es as [|e es IH]; [reflexivity|]. cbn [forallb filter]. intros H.
  apply andb_true_iff in H as [He H]. apply negb_true_iff in He. rewrite He. auto.
Qed.

Lemma DevServer_step_hints (serving : bool) (l : Latch) (s : Signal) :
  hints (snd (DevServer.step serving l s)) + pendingTimeout (fst (DevServer.step serving l s))
  <= pendingTimeout l.
Proof.
  destruct l as [fired pending grace]. unfold pendingTimeout.
  destruct s as [port url|data| | |code];
    cbn [DevServer.step graceTimers serverReadyTimeout];
    unfold DevServer.handleServerReady, DevServer.write, DevServer.graceTimer,
      DevServer.readyTimeout, DevServer.exit;
    cbn [serverReadyFired fst snd].
  - destruct fired; [cbn; lia|]. destruct (isLoopback url); cbn [fst snd fire serverReadyTimeout].
    + assert (hints [OnOutput (nl ++ yellow ("⚠ Detected localhost URL (" ++ url
                                 ++ ") - waiting for external URL...") ++ nl)] = 0) as ->
        by reflexivity.
      lia.
    + assert (forall p, hints [ OnOutput (nl ++ green ("✓ Server ready" ++ p) ++ nl);
                                OnServerReady url; OnStatusChange ready ] = 0) as ->
        by reflexivity.
      destruct pending; lia.
  - destruct serving; cbn [fst snd]; [|cbn; lia].
    destruct (negb fired && existsb _ DevServer.readyPatterns);
      cbn [serverReadyTimeout armGrace]; destruct pending; cbn; lia.
  - destruct (0 <? grace)%nat; cbn [fst snd graceDue serverReadyTimeout]; [|cbn; lia].
    destruct fired; cbn; lia.
  - destruct pending; cbn [fst snd clearTimeout serverReadyTimeout]; [|cbn; lia].
    destruct fired; cbn [negb]; [cbn; lia|].
    change (1 + 0 <= 1). lia.
  - destruct serving; cbn [fst snd clearTimeout serverReadyTimeout]; [|cbn; lia].
    destruct (negb (code =? 0)%Z && negb fired); destruct pending; cbn; lia.
Qed.

Lemma DevServer_steps_hints (serving : bool) (ss : list Signal) (l : Latch) :
  hints (snd (DevServer.steps serving l ss)) + pendingTimeout (fst (DevServer.steps serving l ss))
  <= pendingTimeout l.
Proof.
  revert l. induction ss as [|s ss IH]; intros l; cbn [DevServer.steps].
  - cbn. lia.
  - pose proof (DevServer_step_hints serving l s) as H1.
    destruct (DevServer.step serving l s) as [l1 e1]. cbn [fst snd] in H1.
    specialize (IH l1). destruct (DevServer.steps serving l1 ss) as [l2 e2].
    cbn [fst snd] in IH |- *. rewrite hints_app. lia.
Qed.

Lemma tryBlock_noHint (JSON_parse : string -> option JSON) (wc : WebContainer) :
  Only noHint wc (tryBlock JSON_parse wc).
Proof.
  unfold tryBlock, afterInstall.
  pose proof (fun b => install_only noHint wc b (fun _ _ => eq_refl) (fun _ => eq_refl)).
  assert (Hspawn : forall args env, Only noHint wc (spawnServer wc args env)).
  { intros args env c. unfold spawnServer.
    destruct (spawnNpm wc c args env) as [[e|] c']; reflexivity. }
  only_steps.
Qed.

Lemma mainFlow_hints (JSON_parse : string -> option JSON) (wc : WebContainer) (c : box wc) :
  hints (snd (mainFlow JSON_parse wc c)) = 0.
Proof.
  apply hints_none. unfold mainFlow. pose proof (tryBlock_noHint JSON_parse wc c) as H.
  unfold noHint in H.
  destruct (tryBlock JSON_parse wc c) as [[[e|phase] c'] es]; cbn [snd] in H |- *;
    [|exact H].
  rewrite forallb_app, H. reflexivity.
Qed.

(** X15: the help of the 45-second timer of [startDevServer] is written
    once at most in a run, never after the server process has exited and
    never after the run became ready; it is written when the timer comes
    due on a run that is neither. *)
Theorem timeout_hint_once_and_only_while_waiting :
  (forall (JSON_parse : string -> option JSON) (wc : WebContainer) (c : box wc)
          (early : list (Z * string)) (late : list Signal),
      hints (snd (DevServer.startDevServer JSON_parse wc c early late)) <= 1)
  /\ (forall (l : Latch) (code : Z) (rest : list Signal),
         hints (snd (DevServer.steps true (fst (DevServer.step true l (ServerExit code))) rest))
         = 0)
  /\ (forall (serving : bool) (l : Latch) (s : Signal) (rest : list Signal),
         In (OnStatusChange ready) (snd (DevServer.step serving l s)) ->
         hints (snd (DevServer.steps serving (fst (DevServer.step serving l s)) rest)) = 0)
  /\ (forall (l : Latch) (rest : list Signal),
         serverReadyFired l = false ->
         serverReadyTimeout l = true ->
         hints (snd (DevServer.steps true l (ReadyTimeoutDue :: rest))) = 1).
Proof.
  split; [|split; [|split]].
  - intros JSON_parse wc c early late. unfold DevServer.startDevServer.
    pose proof (DevServer_steps_hints false
                  (map (fun pu => ServerReadyEvent (fst pu) (snd pu)) early) initialLatch) as H1.
    destruct (DevServer.steps false initialLatch _) as [l1 e1]. cbn [fst snd] in H1.
    pose proof (mainFlow_hints JSON_parse wc c) as H2.
    destruct (mainFlow JSON_parse wc c) as [[phase c'] e2]. cbn [snd] in H2.
    unfold pendingTimeout in H1. cbn [initialLatch serverReadyTimeout] in H1.
    destruct phase.
    + pose proof (DevServer_steps_hints false late (clearTimeout l1)) as H3.
      destruct (DevServer.steps false (clearTimeout l1) late) as [l3 e3].
      cbn [fst snd] in H3 |- *. unfold pendingTimeout in H3 at 2.
      cbn [clearTimeout serverReadyTimeout] in H3. rewrite !hints_app. lia.
    + pose proof (DevServer_steps_hints true late (armTimeout l1)) as H3.
      destruct (DevServer.steps true (armTimeout l1) late) as [l3 e3].
      cbn [fst snd] in H3 |- *. unfold pendingTimeout in H3 at 2.
      cbn [armTimeout serverReadyTimeout] in H3. rewrite !hints_app. lia.
  - intros l code rest.
    pose proof (DevServer_steps_hints true rest (fst (DevServer.step true l (ServerExit code)))) as H.
    unfold pendingTimeout in H at 2. cbn [DevServer.step DevServer.exit fst clearTimeout
                                           serverReadyTimeout] in H.
    cbn [DevServer.step DevServer.exit fst]. lia.
  - intros serving l s rest Hready.
    pose proof (DevServer_steps_hints serving rest (fst (DevServer.step serving l s))) as H.
    assert (E : serverReadyTimeout (fst (DevServer.step serving l s)) = false).
    { clear H. destruct l as [fired pending grace].
      destruct s as [port url|data| | |code];
        cbn [DevServer.step graceTimers serverReadyTimeout] in *;
        unfold DevServer.handleServerReady, DevServer.write, DevServer.graceTimer,
          DevServer.readyTimeout, DevServer.exit in *;
        cbn [serverReadyFired fst snd] in *.
      - destruct fired; [destruct Hready|]. destruct (isLoopback url); [|reflexivity].
        cbn [snd In] in Hready. destruct Hready as [H | []]. discriminate H.
      - destruct serving; cbn [snd In] in Hready; [|destruct Hready].
        destruct Hready as [H | []]. discriminate H.
      - destruct (0 <? grace)%nat; cbn [snd In] in Hready; [|destruct Hready].
        destruct fired; cbn [negb In] in Hready; [destruct Hready|].
        repeat (destruct Hready as [Hready | Hready]; [discriminate Hready|]). contradiction.
      - destruct pending; reflexivity.
      - destruct serving; cbn [snd In] in Hready; [|destruct Hready]. reflexivity. }
    unfold pendingTimeout in H at 2. rewrite E in H. lia.
  - intros [fired pending grace] rest. cbn [serverReadyFired serverReadyTimeout]. intros -> ->.
    cbn [DevServer.steps DevServer.step serverReadyTimeout].
    unfold DevServer.readyTimeout. cbn [serverReadyFired negb clearTimeout].
    pose proof (DevServer_steps_hints true rest
                  {| serverReadyFired := false; serverReadyTimeout := false;
                     graceTimers := grace |}) as H.
    destruct (DevServer.steps true _ rest) as [l2 e2]. cbn [fst snd] in H |- *.
    unfold pendingTimeout in H at 2. cbn [serverReadyTimeout] in H.
    rewrite hints_app.
    change (hints [ OnOutput (nl ++ yellow "⚠ Server is taking longer than expected to expose a URL..." ++ nl);
                    OnOutput (yellow "  Try these in the terminal:" ++ nl);
                    OnOutput (yellow "  • For Vite: npm run dev -- --host 0.0.0.0" ++ nl);
                    OnOutput (yellow "  • For CRA: HOST=0.0.0.0 npm start" ++ nl);
                    OnOutput (yellow "  • Check the terminal output above for errors." ++ nl) ])
      with 1.
    lia.
Qed.

(** ** Buffered output *)

Lemma text_app (l1 l2 : list string) : text (l1 ++ l2) = (text l1 ++ text l2)%string.
Proof.
  induction l1 as [|x l1 IH]; [reflexivity|]. cbn [app text].
  now rewrite IH, string_app_assoc.
Qed.

Lemma buffer_step (s : BufferedOutput.State) (call : BufferedOutput.Call) :
  (text (snd (BufferedOutput.step s call))
   ++ BufferedOutput.buffer (fst (BufferedOutput.step s call)))%string
  = (BufferedOutput.buffer s ++ written [call])%string
  /\ (forall data, In data (snd (BufferedOutput.step s call)) -> data <> "")
  /\ (scheduled s -> scheduled (fst (BufferedOutput.step s call))).
Proof.
  destruct s as [buf pending]. unfold scheduled.
  assert (Hflush :
    (text (snd (BufferedOutput.flush {| BufferedOutput.buffer := buf;
                                        BufferedOutput.timer := pending |}))
     ++ BufferedOutput.buffer
          (fst (BufferedOutput.flush {| BufferedOutput.buffer := buf;
                                        BufferedOutput.timer := pending |})))%string
    = (buf ++ "")%string
    /\ (forall data,
           In data (snd (BufferedOutput.flush {| BufferedOutput.buffer := buf;
                                                 BufferedOutput.timer := pending |})) ->
           data <> "")
    /\ BufferedOutput.buffer
         (fst (BufferedOutput.flush {| BufferedOutput.buffer := buf;
                                       BufferedOutput.timer := pending |})) = "").
  { unfold BufferedOutput.flush. cbn [BufferedOutput.buffer].
    destruct (String.eqb_spec buf "") as [->|Hne]; cbn [fst snd text BufferedOutput.buffer In].
    - repeat split. intros data [].
    - split; [now rewrite !string_app_nil|]. split; [|reflexivity].
      intros data [<- | []]. exact Hne. }
  destruct call as [chunk| |]; cbn [BufferedOutput.step written BufferedOutput.timer].
  - cbn [fst snd text BufferedOutput.write BufferedOutput.buffer BufferedOutput.timer In].
    rewrite string_app_nil. repeat split. intros data [].
  - destruct Hflush as (H1 & H2 & H3). repeat split; [exact H1 | exact H2 |].
    intros _ Hne. now rewrite H3 in Hne.
  - destruct pending.
    + destruct Hflush as (H1 & H2 & H3). repeat split; [exact H1 | exact H2 |].
      intros _ Hne. now rewrite H3 in Hne.
    + cbn [fst snd text BufferedOutput.buffer BufferedOutput.timer In].
      split; [cbn [append]; now rewrite string_app_nil|]. split; [intros data []|auto].
Qed.

Lemma written_cons (call : BufferedOutput.Call) (calls : list BufferedOutput.Call) :
  written (call :: calls) = (written [call] ++ written calls)%string.
Proof. destruct call; cbn [written]; [now rewrite string_app_nil | reflexivity | reflexivity]. Qed.

Lemma buffer_steps (calls : list BufferedOutput.Call) (s : BufferedOutput.State) :
  (text (snd (BufferedOutput.steps s calls))
   ++ BufferedOutput.buffer (fst (BufferedOutput.steps s calls)))%string
  = (BufferedOutput.buffer s ++ written calls)%string
  /\ (forall data, In data (snd (BufferedOutput.steps s calls)) -> data <> "")
  /\ (scheduled s -> scheduled (fst (BufferedOutput.steps s calls))).
Proof.
  revert s. induction calls as [|call calls IH]; intros s; cbn [BufferedOutput.steps].
  - cbn [fst snd text written In]. rewrite string_app_nil. repeat split; auto.
  - destruct (buffer_step s call) as (H1 & H2 & H3).
    destruct (BufferedOutput.step s call) as [s1 out1]. cbn [fst snd] in H1, H2, H3.
    destruct (IH s1) as (K1 & K2 & K3).
    destruct (BufferedOutput.steps s1 calls) as [s2 out2]. cbn [fst snd] in K1, K2, K3 |- *.
    repeat split.
    + rewrite text_app, string_app_assoc, K1, <- string_app_assoc, H1, string_app_assoc.
      now rewrite <- written_cons.
    + intros data Hin. apply in_app_iff in Hin as [Hin | Hin]; auto.
    + auto.
Qed.

(** X16: a buffer of [createBufferedOutput] neither loses nor repeats
    nor reorders text: after any calls of [write] and [flush] and any
    timer ticks, the text given to [onOutput] followed by the text still
    buffered is the text written; [onOutput] is never given the empty
    string; buffered text always has its timer pending, so that one tick
    of the timer, or one [flush], delivers all that was written. *)
Theorem buffered_output_delivers_everything_once :
  forall calls : list BufferedOutput.Call,
    let run := BufferedOutput.steps BufferedOutput.initial calls in
    (text (snd run) ++ BufferedOutput.buffer (fst run))%string = written calls
    /\ (forall data, In data (snd run) -> data <> "")
    /\ (BufferedOutput.buffer (fst run) <> "" -> BufferedOutput.timer (fst run) = true)
    /\ text (snd (BufferedOutput.steps BufferedOutput.initial (calls ++ [BufferedOutput.TimerDue])))
       = written calls
    /\ text (snd (BufferedOutput.steps BufferedOutput.initial (calls ++ [BufferedOutput.FlushNow])))
       = written calls.
Proof.
  intros calls run.
  destruct (buffer_steps calls BufferedOutput.initial) as (H1 & H2 & H3). fold run in H1, H2, H3.
  change (BufferedOutput.buffer BufferedOutput.initial ++ written calls)%string
    with (written calls) in H1.
  assert (Hs : scheduled (fst run)) by (apply H3; intros H; now destruct H).
  split; [exact H1|]. split; [exact H2|]. split; [exact Hs|].
  assert (Hlast : forall call,
             call = BufferedOutput.TimerDue \/ call = BufferedOutput.FlushNow ->
             text (snd (BufferedOutput.steps BufferedOutput.initial (calls ++ [call])))
             = written calls).
  { intros call Hcall.
    assert (Hsplit : forall s,
               snd (BufferedOutput.steps s (calls ++ [call]))
               = snd (BufferedOutput.steps s calls)
                 ++ snd (BufferedOutput.step (fst (BufferedOutput.steps s calls)) call)).
    { clear. induction calls as [|c0 calls IH]; intros s; cbn [app BufferedOutput.steps].
      - cbn [fst snd app]. destruct (BufferedOutput.step s call) as [s1 out1]. cbn [fst snd].
        now rewrite app_nil_r.
      - destruct (BufferedOutput.step s c0) as [s1 out1]. specialize (IH s1).
        destruct (BufferedOutput.steps s1 (calls ++ [call])) as [s2 out2].
        destruct (BufferedOutput.steps s1 calls) as [s3 out3]. cbn [fst snd] in IH |- *.
        now rewrite IH, app_assoc. }
    rewrite Hsplit. fold run. rewrite text_app, <- H1. f_equal.
    unfold scheduled in Hs. destruct (fst run) as [buf pending].
    cbn [BufferedOutput.buffer BufferedOutput.timer] in Hs |- *.
    destruct (String.eqb_spec buf "") as [->|Hne].
    - destruct Hcall as [-> | ->]; cbn [BufferedOutput.step BufferedOutput.timer];
        [destruct pending|]; reflexivity.
    - rewrite (Hs Hne).
      assert (E : BufferedOutput.flush {| BufferedOutput.buffer := buf;
                                          BufferedOutput.timer := true |}
                  = ({| BufferedOutput.buffer := ""; BufferedOutput.timer := false |}, [buf])).
      { unfold BufferedOutput.flush. cbn [BufferedOutput.buffer].
        destruct (String.eqb_spec buf ""); [contradiction | reflexivity]. }
      destruct Hcall as [-> | ->]; cbn [BufferedOutput.step BufferedOutput.timer];
        rewrite E; cbn [snd text]; apply string_app_nil. }
  split; apply Hlast; auto.
Qed.

(** ** Booting *)

Lemma attemptBoot_third (boot : nat -> BootResult) (fuel : nat) :
  exists r, attemptBoot boot (S fuel) 3 = Some r
            /\ match r with
               | inr container => boot 3 = Booted container
               | inl e => e = bootError /\ exists e', boot 3 = BootFailed e'
               end.
Proof.
  cbn [attemptBoot]. destruct (boot 3) as [container|e].
  - eexists. split; reflexivity.
  - cbn [Nat.ltb Nat.leb andb]. eexists. split; [reflexivity|]. split; [reflexivity|].
    now exists e.
Qed.

(** X17: [attemptBoot] returns (three units of fuel are enough) after
    three races at most: it goes on to the next race only after one that
    failed with an error whose message has "timed out", returns the
    container of the first race that gives one, and otherwise throws the
    one fixed error, at the third failure or at the first that is not a
    timeout. *)
Theorem boot_is_tried_three_times_at_most :
  forall (boot : nat -> BootResult) (fuel : nat),
    3 <= fuel ->
    exists r,
      attemptBoot boot fuel 1 = Some r
      /\ exists last,
           1 <= last <= 3
           /\ (forall n, 1 <= n < last ->
                         exists e, boot n = BootFailed e /\ timedOutError e = true)
           /\ match r with
              | inr container => boot last = Booted container
              | inl e =>
                  e = bootError
                  /\ exists e', boot last = BootFailed e'
                                /\ (last = 3 \/ timedOutError e' = false)
              end.
Proof.
  intros boot fuel Hfuel.
  destruct fuel as [|[|[|fuel]]]; try lia. clear Hfuel.
  cbn [attemptBoot]. cbn [Nat.ltb Nat.leb]. cbn [andb].
  destruct (boot 1) as [c1|e1] eqn:B1.
  { eexists. split; [reflexivity|]. exists 1. repeat split; try lia. exact B1. }
  destruct (timedOutError e1) eqn:T1.
  2:{ eexists. split; [reflexivity|]. exists 1. repeat split; try lia.
      exists e1. split; [exact B1 | now right]. }
  destruct (boot 2) as [c2|e2] eqn:B2.
  { eexists. split; [reflexivity|]. exists 2. repeat split; try lia.
    - intros n Hn. assert (n = 1) as -> by lia. now exists e1.
    - exact B2. }
  destruct (timedOutError e2) eqn:T2.
  2:{ eexists. split; [reflexivity|]. exists 2. repeat split; try lia.
      - intros n Hn. assert (n = 1) as -> by lia. now exists e1.
      - exists e2. split; [exact B2 | now right]. }
  destruct (boot 3) as [c3|e3] eqn:B3.
  - eexists. split; [reflexivity|]. exists 3. repeat split; try lia.
    + intros n Hn. assert (n = 1 \/ n = 2) as [-> | ->] by lia; eauto.
    + exact B3.
  - eexists. split; [reflexivity|]. exists 3. repeat split; try lia.
    + intros n Hn. assert (n = 1 \/ n = 2) as [-> | ->] by lia; eauto.
    + exists e3. split; [exact B3 | now left].
Qed.

Lemma boot_is_tried_three_times_at_most_witness :
  attemptBoot (fun n => if (n <? 3)%nat then BootFailed bootTimeout else Booted 7) 3 1
  = Some (inr 7).
Proof.
  destruct (boot_is_tried_three_times_at_most
              (fun n => if (n <? 3)%nat then BootFailed bootTimeout else Booted 7) 3
              (le_n 3)) as (r & Hr & _).
  rewrite Hr. vm_compute in Hr. symmetry. exact Hr.
Defined.

(** ** The session *)

Ltac session_facts :=
  repeat split; auto; try tauto; try discriminate; try lia;
  try (intros E;
       match goal with
       | Hone : _ = 1 -> _ |- _ => destruct (Hone E) as [? ?]; congruence
       end);
  try (match goal with
       | Hone : ?b = 1 -> _ |- _ =>
           destruct b as [|[|?]];
           [lia | destruct (Hone eq_refl) as [? ?]; congruence | lia]
       end).

Lemma happens_keeps (t : Tracked) (e : SessionEvent) :
  singleFlight t /\ writerHasProcess (session t) ->
  singleFlight (happens t e) /\ writerHasProcess (session (happens t e)).
Proof.
  destruct t as [[instance promise process writer callback] boots spawns].
  unfold singleFlight, writerHasProcess.
  cbn [session bootsInFlight webcontainerInstance bootPromise shellProcess shellWriter].
  intros [[Hle Hone] Hpair].
  destruct e as [p|result| |cb|proc wr|proc|]; cbn [happens session bootsInFlight shellsSpawning].
  - unfold bootWebContainer, bootWebContainer_begin.
    cbn [webcontainerInstance bootPromise shellProcess shellWriter shellOutputCallback].
    destruct instance as [i|]; [|destruct promise as [q|]];
      cbn [session bootsInFlight webcontainerInstance bootPromise shellProcess shellWriter];
      session_facts.
  - destruct boots as [|n];
      cbn [session bootsInFlight webcontainerInstance bootPromise shellProcess shellWriter];
      [session_facts|].
    assert (n = 0) as -> by lia.
    destruct result as [err|container];
      cbn [bootSettled webcontainerInstance bootPromise shellProcess shellWriter];
      session_facts.
  - unfold teardownWebContainer.
    cbn [webcontainerInstance bootPromise shellProcess shellWriter shellOutputCallback].
    destruct instance as [i|];
      cbn [fst webcontainerInstance bootPromise shellProcess shellWriter];
      session_facts.
  - unfold startShell, setCallback.
    cbn [webcontainerInstance bootPromise shellProcess shellWriter shellOutputCallback].
    destruct instance as [i|]; [destruct process, writer|];
      cbn [session bootsInFlight webcontainerInstance bootPromise shellProcess shellWriter];
      session_facts.
  - destruct spawns as [|n];
      cbn [session bootsInFlight shellSpawned webcontainerInstance bootPromise
           shellProcess shellWriter];
      session_facts.
  - destruct spawns as [|n];
      cbn [session bootsInFlight shellWriterFailed webcontainerInstance bootPromise
           shellProcess shellWriter];
      session_facts.
  - cbn [shellExited webcontainerInstance bootPromise shellProcess shellWriter].
    session_facts.
Qed.

Lemma sessionAfter_keeps (events : list SessionEvent) :
  singleFlight (sessionAfter events) /\ writerHasProcess (session (sessionAfter events)).
Proof.
  unfold sessionAfter.
  assert (H : singleFlight freshSession /\ writerHasProcess (session freshSession)).
  { unfold singleFlight, writerHasProcess. cbn. repeat split; auto; try lia; try discriminate. }
  revert H. generalize freshSession. induction events as [|e events IH]; intros t H; [exact H|].
  cbn [fold_left]. apply IH, happens_keeps, H.
Qed.

(** X18: in any interleaving of calls of [bootWebContainer], of boots
    settling, of [teardownWebContainer] and of the shell's events, one boot
    at most is in flight.  While one is, the session has no container and
    holds its promise, every call of [bootWebContainer] returns that
    promise, and a teardown leaves it in place. *)
Theorem one_boot_at_a_time :
  forall events : list SessionEvent,
    bootsInFlight (sessionAfter events) <= 1
    /\ (bootsInFlight (sessionAfter events) = 1 ->
        exists pending,
          webcontainerInstance (session (sessionAfter events)) = None
          /\ bootPromise (session (sessionAfter events)) = Some pending
          /\ (forall promise,
                 bootWebContainer promise (session (sessionAfter events))
                 = (ReturnsPending pending, session (sessionAfter events)))
          /\ bootPromise (fst (teardownWebContainer (session (sessionAfter events)))) = Some pending).
Proof.
  intros events.
  destruct (sessionAfter_keeps events) as [[Hle Hone] _]. split; [exact Hle|].
  intros E. destruct (Hone E) as [Hi Hp].
  destruct (session (sessionAfter events)) as [instance pending process writer callback].
  cbn [webcontainerInstance bootPromise] in *. subst instance.
  destruct pending as [q|]; [|congruence].
  exists q. repeat split.
Qed.

(** X19: in any interleaving of the session's events, the one in which
    [getWriter()] throws included, the writer of the shell is stored only
    with a process: [isShellActive] says exactly whether [writeToShell]
    writes, and an active shell can be resized.  The converse fails: after
    [getWriter()] has thrown, [resizeShell] resizes a process that
    [isShellActive] does not report, [writeToShell] does nothing, and the
    next [startShell] spawns a second shell. *)
Theorem shell_writer_never_without_process :
  forall (events : list SessionEvent) (data : string) (cols rows : Z) (onOutput : nat),
    let s := session (sessionAfter events) in
    let failed := session (sessionAfter writerFailed) in
    (shellWriter s <> None -> shellProcess s <> None)
    /\ (isShellActive s = true <-> writeToShell data s <> [])
    /\ (isShellActive s = true -> resizeShell cols rows s <> [])
    /\ isShellActive failed = false
    /\ resizeShell cols rows failed = [(4, (cols, rows))]
    /\ writeToShell data failed = []
    /\ fst (startShell onOutput failed) = SpawnsShell 2.
Proof.
  intros events data cols rows onOutput s failed.
  destruct (sessionAfter_keeps events) as [_ Hw]. fold s in Hw. unfold writerHasProcess in Hw.
  split; [exact Hw|].
  split; [|split; [|repeat split]].
  - unfold isShellActive, writeToShell.
    destruct (shellProcess s) as [p|], (shellWriter s) as [w|];
      split; try discriminate; auto; intros H; try (now destruct H).
    exfalso. apply Hw; [discriminate | reflexivity].
  - unfold isShellActive, resizeShell.
    destruct (shellProcess s) as [p|], (shellWriter s) as [w|]; discriminate.
Qed.

(** X20: after [teardownWebContainer], on any session, the shell is not
    active, [writeToShell] and [resizeShell] do nothing, [startShell]
    returns [false] without spawning, [getWebContainerInstance] is null,
    and, unless a boot was pending with no container yet, the next
    [bootWebContainer] starts a new boot. *)
Theorem teardown_ends_the_shell :
  forall (s : Session) (data : string) (cols rows : Z) (onOutput : nat),
    let s' := fst (teardownWebContainer s) in
    isShellActive s' = false
    /\ writeToShell data s' = []
    /\ resizeShell cols rows s' = []
    /\ startShell onOutput s' = (NoContainer, s')
    /\ getWebContainerInstance s' = None
    /\ (forall promise,
           bootPromise s = None \/ webcontainerInstance s <> None ->
           bootWebContainer promise s' = (StartsBoot promise, bootWebContainer_begin promise s')).
Proof.
  intros [instance pending process writer callback] data cols rows onOutput.
  unfold teardownWebContainer.
  cbn [webcontainerInstance bootPromise shellProcess shellWriter shellOutputCallback].
  destruct instance as [i|]; cbv zeta; cbn [fst]; repeat split.
  intros promise [-> | H]; [reflexivity | congruence].
Qed.

(** X21: once a call of [startShell] has spawned the shell and stored
    it, a second call spawns nothing: it returns [true] on the running
    shell and only redirects its output to the new callback.  After the
    shell process has exited the shell is not active, and the next call
    spawns again. *)
Theorem shell_is_spawned_once :
  forall (s : Session) (instance process writer first second : nat),
    startShell first s = (SpawnsShell instance, setCallback first s) ->
    let running := shellSpawned process writer (setCallback first s) in
    startShell second running = (AlreadyRunning, setCallback second running)
    /\ isShellActive running = true
    /\ shellOutputCallback (snd (startShell second running)) = Some second
    /\ isShellActive (shellExited running) = false
    /\ startShell second (shellExited running)
       = (SpawnsShell instance, setCallback second (shellExited running)).
Proof.
  intros [i pending p w callback] instance process writer first second.
  unfold startShell, setCallback, shellSpawned, shellExited, isShellActive.
  cbn [webcontainerInstance bootPromise shellProcess shellWriter shellOutputCallback].
  destruct i as [i|]; [|discriminate].
  destruct p, w; intros [= <-]; cbv zeta; repeat split.
Qed.

Lemma shell_is_spawned_once_witness :
  let s := {| webcontainerInstance := Some 1; bootPromise := Some 2; shellProcess := None;
              shellWriter := None; shellOutputCallback := None |} in
  startShell 4 (shellSpawned 5 6 (setCallback 3 s))
  = (AlreadyRunning, setCallback 4 (shellSpawned 5 6 (setCallback 3 s))).
Proof.
  exact (proj1 (shell_is_spawned_once
                  {| webcontainerInstance := Some 1; bootPromise := Some 2;
                     shellProcess := None; shellWriter := None;
                     shellOutputCallback := None |} 1 5 6 3 4 eq_refl)).
Defined.

(** ** The directories of a static site *)

Lemma distinct_NoDup (l seen : list string) :
  NoDup l -> (forall x, In x l -> ~ In x seen) -> distinct seen l = l.
Proof.
  revert seen. induction l as [|x l IH]; intros seen Hnd Hseen; [reflexivity|].
  cbn [distinct]. inversion Hnd as [|? ? Hx Hl]; subst.
  destruct (has seen x) eqn:E.
  - apply has_In in E. now destruct (Hseen x (or_introl eq_refl)).
  - f_equal. apply IH; [exact Hl|].
    intros y Hy [<- | Hin]; [contradiction|]. exact (Hseen y (or_intror Hy) Hin).
Qed.

Lemma NoDup_filter' {A : Type} (f : A -> bool) (l : list A) : NoDup l -> NoDup (filter f l).
Proof.
  induction 1 as [|x l Hx Hl IH]; cbn [filter]; [constructor|].
  destruct (f x); [|exact IH]. constructor; [|exact IH].
  intros Hin. apply filter_In in Hin as [Hin _]. contradiction.
Qed.

Lemma possibleDirs_NoDup : NoDup possibleDirs.
Proof.
  unfold possibleDirs.
  repeat (constructor; [cbn [In]; intros H;
                        repeat (destruct H as [H | H]; [discriminate H|]); exact H|]).
  constructor.
Qed.

(** X22: the directories [serveStaticSite] serves.  [findStaticRoot]
    returns one of its seven candidates, and one other than [.] only when
    the directory exists and holds [index.html]; the list given to the
    server script starts with that root, goes on with the existing
    directories other than the root in their fixed order, and has no
    duplicates (the [Set] removes nothing). *)
Theorem static_directories_start_with_the_root :
  forall test : list string -> option Z,
    let root := findStaticRoot test in
    In root possibleRoots
    /\ (root <> "." ->
        testOk test ["-d"; root] = true
        /\ testOk test ["-f"; (root ++ "/index.html")%string] = true)
    /\ uniqueDirs test = root :: filter (fun d => negb (String.eqb d root)) (existingDirs test)
    /\ NoDup (uniqueDirs test)
    /\ (forall dir, In dir (uniqueDirs test)
                    <-> dir = root \/ (In dir possibleDirs /\ testOk test ["-d"; dir] = true)).
Proof.
  intros test root.
  assert (Hroot : In root possibleRoots
                  /\ (root <> "." ->
                      testOk test ["-d"; root] = true
                      /\ testOk test ["-f"; (root ++ "/index.html")%string] = true)).
  { subst root. unfold findStaticRoot.
    destruct (find (hasIndex test) possibleRoots) as [dir|] eqn:E.
    - apply find_some in E as [Hin H]. split; [exact Hin|]. intros Hne.
      unfold hasIndex in H. destruct (String.eqb_spec dir "."); [contradiction|].
      now apply andb_true_iff in H.
    - split; [cbn; tauto | congruence]. }
  destruct Hroot as [Hin Hidx]. split; [exact Hin|]. split; [exact Hidx|].
  assert (Hnd : NoDup (orderedDirs test)).
  { unfold orderedDirs. fold root. constructor.
    - intros H. apply filter_In in H as [_ H]. now rewrite String.eqb_refl in H.
    - apply NoDup_filter', NoDup_filter', possibleDirs_NoDup. }
  assert (E : uniqueDirs test = orderedDirs test).
  { unfold uniqueDirs. apply distinct_NoDup; [exact Hnd | intros x _ []]. }
  split; [exact E|]. split; [now rewrite E|].
  intros dir. rewrite E. unfold orderedDirs, existingDirs. fold root. cbn [In].
  rewrite !filter_In. split.
  - intros [<- | [[H1 H2] _]]; [now left | now right].
  - intros [-> | [H1 H2]]; [now left|].
    destruct (String.eqb_spec dir root) as [->|Hne]; [now left|]. right. now repeat split.
Qed.

(** ** The whole workflow *)

(** X23: for a project type other than nodejs and static,
    [runFullWorkflow] installs nothing and starts nothing; its statuses are
    [booting; mounting; ready] when the container boots and the files
    mount, [booting; error] when the boot fails and
    [booting; mounting; error] when the mount does. *)
Theorem browsed_projects_run_nothing :
  forall (JSON_parse : string -> option JSON) (wc : WebContainer) (c : box wc)
         (early : list (Z * string)) (late : list Signal)
         (host : Host) (files : FileSystemTree) (projectType : ProjectType),
    projectType <> nodejs ->
    projectType <> static ->
    let es := runFullWorkflow JSON_parse wc c early late host files projectType in
    forallb inert es = true
    /\ statuses es
       = match booted host, mountFiles (mounted host) with
         | inl _, _ => [booting; error]
         | inr _, Some _ => [booting; mounting; error]
         | inr _, None => [booting; mounting; ready]
         end.
Proof.
  intros JSON_parse wc c early late host files projectType Hn Hs. cbv zeta.
  unfold runFullWorkflow.
  assert (negb (isNodejs projectType) && negb (isStatic projectType) = true) as ->
    by (destruct projectType; try reflexivity; congruence).
  destruct (booted host) as [e|container]; [split; reflexivity|].
  destruct (mountFiles (mounted host)) as [e|]; split; reflexivity.
Qed.

Lemma browsed_projects_run_nothing_witness :
  statuses
    (runFullWorkflow Examples.JSON_parse Examples.scripted
       (Examples.boxOf Examples.bareManifest []) [] []
       {| booted := inr 1; bootDuration := "0.4"; mounted := Mounted;
          mountDuration := "0.1"; staticRun := [] |}
       [("main.rs", FileNode "fn main() {}")] rust)
  = [booting; mounting; ready].
Proof.
  refine (proj2 (browsed_projects_run_nothing Examples.JSON_parse Examples.scripted
                   (Examples.boxOf Examples.bareManifest []) [] []
                   {| booted := inr 1; bootDuration := "0.4"; mounted := Mounted;
                      mountDuration := "0.1"; staticRun := [] |}
                   [("main.rs", FileNode "fn main() {}")] rust _ _)); discriminate.
Defined.

(** X24: for a project that runs, a failed boot is reported with the
    error of [attemptBoot] as it is (its message has neither
    "SharedArrayBuffer" nor "boot" in lower case), and a mount that times
    out with the advice to try a smaller repository; either ends the
    workflow in [error] before anything is installed or started. *)
Theorem workflow_reports_boot_and_mount_failures :
  forall (JSON_parse : string -> option JSON) (wc : WebContainer) (c : box wc)
         (early : list (Z * string)) (late : list Signal)
         (host : Host) (files : FileSystemTree) (projectType : ProjectType),
    projectType = nodejs \/ projectType = static ->
    let es := runFullWorkflow JSON_parse wc c early late host files projectType in
    (forall (boot : nat -> BootResult) (fuel : nat) (e : Thrown),
        attemptBoot boot fuel 1 = Some (inl e) ->
        booted host = inl e ->
        es = [ OnStatusChange booting;
               OnOutput (cyan "➜ Booting WebContainer..." ++ nl);
               OnOutput (yellow "  (This requires Cross-Origin-Isolation headers)" ++ nl ++ nl);
               OnError "Boot timed out. Please reload or check if your browser supports WebContainers (Chrome/Edge required).";
               OnStatusChange error ])
    /\ (forall container,
           booted host = inr container ->
           mounted host = MountTimedOut ->
           endsIn es
             [ OnError "Mounting files timed out. Try a smaller repository or check your connection.";
               OnStatusChange error ]
           /\ statuses es = [booting; mounting; error]
           /\ forallb inert es = true).
Proof.
  intros JSON_parse wc c early late host files projectType Htype. cbv zeta.
  unfold runFullWorkflow.
  assert (negb (isNodejs projectType) && negb (isStatic projectType) = false) as ->
    by (destruct Htype as [-> | ->]; reflexivity).
  split.
  - intros boot fuel e Hboot ->.
    assert (e = bootError) as ->.
    { clear - Hboot. revert Hboot. generalize 1 at 1. induction fuel as [|fuel IH]; intros n;
        cbn [attemptBoot]; [discriminate|].
      destruct (boot n); [discriminate|].
      destruct ((n <? 3)%nat && timedOutError e0); [apply IH | now intros [= <-]]. }
    reflexivity.
  - intros container -> ->. cbn [mountFiles].
    destruct (200 <? countFilesInTree files)%nat; repeat split.
    + eexists (_ :: _ :: _ :: _ :: _ :: _ :: [_]). reflexivity.
    + eexists (_ :: _ :: _ :: _ :: _ :: [_]). reflexivity.
Qed.

(** ** The project type *)

(** The project info is that of the table for its type, but for the two
    properties of the backend. *)
Lemma detectProjectType_table (files : list ProjectDetection.GitHubFile) :
  let info := ProjectDetection.detectProjectType files in
  ProjectDetection.label info
  = ProjectDetection.label (ProjectDetection.getProjectTypeInfo (ProjectDetection.pi_type info))
  /\ ProjectDetection.pi_canRun info
     = ProjectDetection.pi_canRun
         (ProjectDetection.getProjectTypeInfo (ProjectDetection.pi_type info))
  /\ ProjectDetection.description info
     = ProjectDetection.description
         (ProjectDetection.getProjectTypeInfo (ProjectDetection.pi_type info)).
Proof.
  cbv zeta. unfold ProjectDetection.detectProjectType.
  repeat match goal with
         | |- context [if ?b then _ else _] => destruct b
         end; repeat split.
Qed.

(** X25: [detectProjectType] gives type nodejs exactly when the file list
    has [package.json] at its root; the label, the description and
    [canRun] are those of [PROJECT_TYPE_INFO] for the type it gives;
    [needsBackend] is set for Node.js projects only, to [true] and with a
    hint; type static needs a file whose path ends in [.html]; and [canRun]
    holds for nodejs, static and python exactly. *)
Theorem project_type_by_its_markers :
  forall files : list ProjectDetection.GitHubFile,
    let info := ProjectDetection.detectProjectType files in
    (ProjectDetection.pi_type info = nodejs <-> In "package.json" (map ProjectDetection.path files))
    /\ ProjectDetection.label info = ProjectDetection.label (ProjectDetection.getProjectTypeInfo (ProjectDetection.pi_type info))
    /\ ProjectDetection.pi_canRun info = ProjectDetection.pi_canRun (ProjectDetection.getProjectTypeInfo (ProjectDetection.pi_type info))
    /\ ProjectDetection.description info = ProjectDetection.description (ProjectDetection.getProjectTypeInfo (ProjectDetection.pi_type info))
    /\ (ProjectDetection.needsBackend info <> None ->
        ProjectDetection.pi_type info = nodejs /\ ProjectDetection.needsBackend info = Some true /\ ProjectDetection.backendHint info <> None)
    /\ (ProjectDetection.pi_type info = static ->
        exists f, In f files /\ ProjectDetection.endsWith (ProjectDetection.path f) ".html" = true)
    /\ (ProjectDetection.pi_canRun info = true <->
        ProjectDetection.pi_type info = nodejs \/ ProjectDetection.pi_type info = static \/ ProjectDetection.pi_type info = python).
Proof.
  intros files. cbv zeta. unfold ProjectDetection.detectProjectType.
  rewrite <- (has_In (map ProjectDetection.path files) "package.json").
  destruct (has (map ProjectDetection.path files) "package.json").
  - cbn [ProjectDetection.pi_type ProjectDetection.label ProjectDetection.pi_canRun ProjectDetection.description ProjectDetection.needsBackend ProjectDetection.backendHint ProjectDetection.getProjectTypeInfo].
    repeat split; auto; try discriminate.
    + unfold ProjectDetection.detectBackendRequirements in *. cbv zeta in *.
      destruct (0 <? length _)%nat; [reflexivity|].
      destruct (_ || _); [reflexivity|]. now cbn in H.
    + unfold ProjectDetection.detectBackendRequirements in *. cbv zeta in *.
      destruct (0 <? length _)%nat; [discriminate|].
      destruct (_ || _); [discriminate|]. now cbn in H.
  - repeat match goal with
           | |- context [if ?b then _ else _] => destruct b eqn:?
           end;
      cbn [ProjectDetection.pi_type ProjectDetection.label ProjectDetection.pi_canRun ProjectDetection.description ProjectDetection.needsBackend ProjectDetection.backendHint ProjectDetection.getProjectTypeInfo];
      repeat split; auto; try discriminate; try congruence;
        try (intros [H | [H | H]]; discriminate H);
        try (intros _; match goal with
                       | H : existsb _ files = true |- _ =>
                           apply existsb_exists in H as (f & Hf & Hhtml); now exists f
                       end).
Qed.

(** ** The checker, the detector and the ladder *)

(** X26: when [checkCompatibility], given the type that
    [detectProjectType] detects, returns a report that can run, the project
    info says so too, and the type is nodejs or static. *)
Theorem checker_is_no_more_optimistic_than_detector :
  forall (JSON_parse : string -> option JSON) (tree : FileSystemTree)
         (files : list ProjectDetection.GitHubFile) (r : CompatibilityReport),
    checkCompatibility JSON_parse tree (ProjectDetection.pi_type (ProjectDetection.detectProjectType files)) = Normal r ->
    canRun r = true ->
    ProjectDetection.pi_canRun (ProjectDetection.detectProjectType files) = true
    /\ (ProjectDetection.pi_type (ProjectDetection.detectProjectType files) = nodejs
        \/ ProjectDetection.pi_type (ProjectDetection.detectProjectType files) = static).
Proof.
  intros JSON_parse tree files r Hr Hrun.
  destruct (detectProjectType_table files) as (_ & Hc & _).
  rewrite Hc. clear Hc.
  destruct (ProjectDetection.pi_type (ProjectDetection.detectProjectType files));
    try (injection Hr as <-; discriminate Hrun); split; auto.
Qed.

Lemma follows_rungs (hasPackageLock : bool) (log : list (list string * Outcome))
      (previous : option (Rung * Outcome)) :
  follows hasPackageLock previous log ->
  forall args o, In (args, o) log -> exists rung, args = rungArgs rung.
Proof.
  revert previous. induction log as [|[args0 o0] log IH]; intros previous H args o Hin;
    [destruct Hin|].
  cbn [follows] in H. destruct H as (rung & _ & -> & H).
  destruct Hin as [[= <- <-] | Hin]; [now exists rung|].
  exact (IH _ H args o Hin).
Qed.

(** X27: every install command a run of [startDevServer] makes is a rung
    of its ladder; so the command [getInstallStrategy] gives for a report
    with native dependencies ([install --no-audit --no-fund
    --ignore-scripts]) is never run, and the one it gives for any other
    report is the plain [npm install] of the ladder. *)
Theorem strategy_for_native_packages_is_never_run :
  forall (JSON_parse : string -> option JSON) (wc : WebContainer) (c : box wc)
         (report : CompatibilityReport),
    (forall args o,
        In (args, o) (attempts (snd (mainFlow JSON_parse wc c))) ->
        exists rung, args = rungArgs rung)
    /\ (hasNativeDeps report = true ->
        forall o,
          ~ In (is_args (getInstallStrategy report), o)
               (attempts (snd (mainFlow JSON_parse wc c))))
    /\ (hasNativeDeps report = false ->
        is_args (getInstallStrategy report) = rungArgs NpmInstall).
Proof.
  intros JSON_parse wc c report.
  assert (H : forall args o,
             In (args, o) (attempts (snd (mainFlow JSON_parse wc c))) ->
             exists rung, args = rungArgs rung).
  { intros args o. rewrite mainFlow_attempts.
    destruct (Json.truthy _ && hasGitSshDependencies _); [intros []|].
    apply (follows_rungs _ _ _ (install_follows wc _ c)). }
  split; [exact H|]. split.
  - intros Hn o Hin. apply H in Hin as (rung & E).
    unfold getInstallStrategy in E. rewrite Hn in E. destruct rung; discriminate E.
  - intros Hn. unfold getInstallStrategy. now rewrite Hn.
Qed.

(** ** The patterns of the install output *)

Lemma litPrefix_app (text s post : string) (rest : string) :
  JS.litPrefix text s = Some rest -> JS.litPrefix text (s ++ post) = Some (rest ++ post)%string.
Proof.
  revert s. induction text as [|a text IH]; intros s.
  - cbn [JS.litPrefix]. destruct s; now intros [= <-].
  - destruct s as [|b s]; cbn [JS.litPrefix append]; [discriminate|].
    destruct (Ascii.eqb _ _); [apply IH | discriminate].
Qed.

Lemma test_lit_app (text pre s post : string) :
  JS.test (JS.Lit text) s = true -> JS.test (JS.Lit text) (pre ++ s ++ post) = true.
Proof.
  intros H.
  assert (H1 : JS.test (JS.Lit text) (s ++ post) = true).
  { clear pre. induction s as [|c s IH].
    - cbn [JS.test JS.matches] in H.
      destruct (JS.litPrefix text "") as [rest|] eqn:E; [|now rewrite orb_false_r in H].
      cbn [append]. destruct post; cbn [JS.test JS.matches];
        [now rewrite E|].
      apply (litPrefix_app _ _ (String a post)) in E. cbn [append] in E. now rewrite E.
    - cbn [JS.test JS.matches append] in H |- *.
      destruct (JS.litPrefix text (String c s)) as [rest|] eqn:E.
      + apply (litPrefix_app _ _ post) in E. cbn [append] in E. now rewrite E.
      + cbn [orb] in H. rewrite (IH H). apply orb_true_r. }
  clear H. induction pre as [|c pre IH]; [exact H1|].
  cbn [append JS.test]. rewrite IH. apply orb_true_r.
Qed.

(** X28: [hasPeerDepError] finds its patterns anywhere in the output
    and in any letter case: output that is recognised stays recognised
    with more output before and after it, [ERESOLVE] and "could not
    resolve dependency" are recognised in the middle of any output,
    and the empty output is not. *)
Theorem peer_conflict_is_found_anywhere_in_the_output :
  forall pre out post : string,
    (hasPeerDepError out = true -> hasPeerDepError (pre ++ out ++ post) = true)
    /\ hasPeerDepError (pre ++ "ERESOLVE" ++ post) = true
    /\ hasPeerDepError (pre ++ "eresolve" ++ post) = true
    /\ hasPeerDepError (pre ++ "Could not resolve dependency" ++ post) = true
    /\ hasPeerDepError "" = false.
Proof.
  intros pre out post.
  assert (H : forall out, hasPeerDepError out = true ->
                          hasPeerDepError (pre ++ out ++ post) = true).
  { clear out. intros out. unfold hasPeerDepError. rewrite !existsb_exists.
    intros (pattern & Hin & Ht). exists pattern. split; [exact Hin|].
    cbn [In] in Hin.
    repeat (destruct Hin as [<- | Hin]; [now apply test_lit_app|]). destruct Hin. }
  split; [apply H|]. repeat split; try (apply H; reflexivity).
Qed.

(** ** The script check, and further examples *)

(** X29: when [findDevScript] selects a script other than watch, the
    script check of [checkCompatibility] on the same manifest adds neither
    a warning nor a suggestion. *)
Theorem chosen_script_raises_no_warning :
  forall (JSON_parse : string -> option JSON) (wc : WebContainer) (c : box wc)
         (script : string) (r : CompatibilityReport),
    findDevScript JSON_parse wc c = Some script ->
    script <> "watch" ->
    checkScripts (readJsonFile JSON_parse wc "package.json" c) r = r.
Proof.
  intros JSON_parse wc c script r Hfind Hwatch. unfold findDevScript in Hfind.
  set (pkg := readJsonFile JSON_parse wc "package.json" c) in *.
  destruct (negb (Json.truthy pkg)); [discriminate|].
  apply find_some in Hfind as [Hin Hrun].
  assert (Hfour : In script ["dev"; "start"; "serve"; "develop"]).
  { cbn [devScripts In] in Hin |- *.
    destruct Hin as [H | [H | [H | [H | [H | []]]]]]; auto. congruence. }
  assert (Htruthy : Json.truthy' (Json.prop (scriptsOrEmpty pkg) script) = true).
  { unfold runnable in Hrun.
    destruct (Json.prop (scriptsOrEmpty pkg) script) as [[| | |v| |]|]; try discriminate.
    cbn [Json.truthy' Json.truthy]. destruct v; [discriminate Hrun | reflexivity]. }
  unfold scriptsOrEmpty in Htruthy. unfold checkScripts.
  destruct (Json.prop pkg "scripts") as [s|] eqn:Es; [|discriminate Htruthy].
  cbn [Json.truthy' Json.prop'].
  destruct (Json.truthy s) eqn:Ts; [|discriminate Htruthy]. cbn [negb].
  assert (existsb (fun s0 => Json.truthy' (Json.prop s s0)) ["dev"; "start"; "serve"; "develop"]
          = true) as ->; [|reflexivity].
  apply existsb_exists. now exists script.
Qed.

Lemma chosen_script_raises_no_warning_witness :
  checkScripts (snd Examples.viteManifest) initialReport = initialReport.
Proof.
  exact (chosen_script_raises_no_warning Examples.JSON_parse Examples.scripted
           (Examples.boxOf Examples.viteManifest []) "dev" initialReport
           eq_refl ltac:(discriminate)).
Defined.

Lemma workflow_reports_boot_and_mount_failures_witness :
  runFullWorkflow Examples.JSON_parse Examples.scripted
    (Examples.boxOf Examples.viteManifest []) [] []
    {| booted := inl bootError; bootDuration := ""; mounted := Mounted;
       mountDuration := ""; staticRun := [] |}
    (Examples.treeOf Examples.viteManifest) nodejs
  = [ OnStatusChange booting;
      OnOutput (cyan "➜ Booting WebContainer..." ++ nl);
      OnOutput (yellow "  (This requires Cross-Origin-Isolation headers)" ++ nl ++ nl);
      OnError "Boot timed out. Please reload or check if your browser supports WebContainers (Chrome/Edge required).";
      OnStatusChange error ].
Proof.
  exact (proj1 (workflow_reports_boot_and_mount_failures Examples.JSON_parse Examples.scripted
                  (Examples.boxOf Examples.viteManifest []) [] []
                  {| booted := inl bootError; bootDuration := ""; mounted := Mounted;
                     mountDuration := ""; staticRun := [] |}
                  (Examples.treeOf Examples.viteManifest) nodejs (or_introl eq_refl))
           (fun _ => BootFailed OtherValue) 1 bootError eq_refl eq_refl).
Defined.

Lemma checker_is_no_more_optimistic_than_detector_witness :
  ProjectDetection.pi_canRun (ProjectDetection.detectProjectType htmlFiles) = true
  /\ (ProjectDetection.pi_type (ProjectDetection.detectProjectType htmlFiles) = nodejs
      \/ ProjectDetection.pi_type (ProjectDetection.detectProjectType htmlFiles) = static).
Proof.
  exact (checker_is_no_more_optimistic_than_detector (fun _ => None) [] htmlFiles
           {| canRun := true; issues := []; warnings := [];
              suggestions := ["Static site will be served with Express"];
              nodeVersion := None; hasNativeDeps := false; hasGitSshDeps := false;
              frameworkDetected := None |}
           eq_refl eq_refl).
Defined.
